(** * Deploy and rollback of a Portainer stack: a shallow embedding

    The development embeds [scripts/deploy_portainer.py] and
    [scripts/rollback_portainer.py] and proves the properties the
    specification states of the image reference rewriter, the stack
    reconciler, the previous-tag resolver and the rollback history recorder.

    How the scripts are modelled:
    - Python values are the inductive type [pyval]; a dictionary is an
      association list in insertion order.  Strings are byte strings and
      [lower] folds the ASCII letters, as [str.lower] does on ASCII text.
      Floats are left out, and so are YAML anchors and aliases: a document
      is a tree, no mapping of it is shared between two places, and
      assigning to an entry of a mapping changes that one place.
    - The effects of a script (printing, files, the environment, the
      clock, HTTP calls, exceptions, [sys.exit]) go through one
      state-and-error monad [M] over an explicit [world].
    - A file is known by what [json.load] and [yaml.safe_load] make of it.
      The file system maps paths to files; directories are implicit and
      reading or writing a file fails only as the model says.
    - The network is a function from the calls issued so far and the call
      at hand to what becomes of the call.  A base URL that [urljoin]
      refuses is known to the world; a call to such a URL cannot be made
      and has no reply.  A printed line is the format string of its
      [print] with the values it interpolates. *)

From Stdlib Require Import String Ascii List ZArith Bool Lia DecimalString.
From ExtLib Require Import Structures.Monad.
Import ListNotations.
Import MonadNotation.
Local Open Scope string_scope.
Local Open Scope list_scope.
Local Open Scope Z_scope.
Local Open Scope monad_scope.
#[local] Set Warnings "-register-all".

(** ** Python values *)

Module Python.

(** The values that [yaml.safe_load], [json.load] and [response.json()]
    produce (floats are left out).  A dictionary keeps its entries in
    insertion order; lookups and updates act on the first entry of a key. *)
Inductive pyval : Type :=
| PNone
| PBool (b : bool)
| PInt (n : Z)
| PStr (s : string)
| PList (items : list pyval)
| PDict (entries : list (string * pyval)).

(** Truth value of an object, as [if x:] and [not x] test it. *)
Definition truthy (v : pyval) : bool :=
  match v with
  | PNone => false
  | PBool b => b
  | PInt n => negb (n =? 0)
  | PStr s => negb (s =? "")%string
  | PList items => match items with [] => false | _ => true end
  | PDict entries => match entries with [] => false | _ => true end
  end.

(** A command-line value: [None] or a [str]. *)
Definition of_opt (o : option string) : pyval :=
  match o with
  | Some s => PStr s
  | None => PNone
  end.

Definition present (o : option string) : bool := truthy (of_opt o).

(** [str.lower()], on the ASCII range. *)
Definition lower_char (c : ascii) : ascii :=
  let n := nat_of_ascii c in
  if ((65 <=? n) && (n <=? 90))%nat then ascii_of_nat (n + 32) else c.

Fixpoint lower (s : string) : string :=
  match s with
  | EmptyString => EmptyString
  | String c r => String (lower_char c) (lower r)
  end.

(** [needle in hay] on two strings. *)
Fixpoint contains (needle hay : string) : bool :=
  prefix needle hay
  || match hay with
     | EmptyString => false
     | String _ rest => contains needle rest
     end.

(** [s.split(':')[0]]: the text before the first colon, all of [s] when it
    has none. *)
Fixpoint split_colon_first (s : string) : string :=
  match s with
  | EmptyString => EmptyString
  | String c r => if (c =? ":")%char then EmptyString else String c (split_colon_first r)
  end.

(** [':' in s]. *)
Fixpoint has_colon (s : string) : bool :=
  match s with
  | EmptyString => false
  | String c r => (c =? ":")%char || has_colon r
  end.

Fixpoint dict_get (k : string) (d : list (string * pyval)) : option pyval :=
  match d with
  | [] => None
  | (k', v) :: rest => if (k' =? k)%string then Some v else dict_get k rest
  end.

(** [d[k] = v]: the value of an existing key is replaced where it stands, a
    new key goes to the end. *)
Fixpoint dict_set (k : string) (v : pyval) (d : list (string * pyval))
  : list (string * pyval) :=
  match d with
  | [] => [(k, v)]
  | (k', v') :: rest =>
      if (k' =? k)%string then (k', v) :: rest else (k', v') :: dict_set k v rest
  end.

Definition str_of_Z (n : Z) : string := NilZero.string_of_int (Z.to_int n).

Definition join_with (sep : string) (parts : list string) : string :=
  match parts with
  | [] => ""
  | p :: rest => fold_left (fun acc q => acc ++ sep ++ q)%string rest p
  end.

(** [str(v)], as an f-string formats a value.  Exact on [None], booleans,
    integers and strings; inside a list or a dictionary Python prints the
    [repr] of each element, which is rendered here with single quotes and no
    escapes. *)
Fixpoint py_repr (v : pyval) : string :=
  match v with
  | PNone => "None"
  | PBool true => "True"
  | PBool false => "False"
  | PInt n => str_of_Z n
  | PStr s => "'" ++ s ++ "'"
  | PList items => "[" ++ join_with ", " (map py_repr items) ++ "]"
  | PDict entries =>
      "{" ++ join_with ", "
               (map (fun kv => "'" ++ fst kv ++ "': " ++ py_repr (snd kv)) entries)
          ++ "}"
  end%string.

Definition py_str (v : pyval) : string :=
  match v with
  | PStr s => s
  | _ => py_repr v
  end.

(** [a == b] against a command-line string and against an [int]. *)
Definition eq_str (v : pyval) (s : option string) : bool :=
  match v, s with
  | PStr a, Some b => (a =? b)%string
  | PNone, None => true
  | _, _ => false
  end.

Definition eq_int (v : pyval) (n : Z) : bool :=
  match v with
  | PInt m => m =? n
  | PBool b => (if b then 1 else 0) =? n
  | _ => false
  end.

End Python.

(** ** [os.path] on POSIX paths *)

Module Posixpath.

Fixpoint has_slash (p : string) : bool :=
  match p with
  | EmptyString => false
  | String c r => (c =? "/")%char || has_slash r
  end.

Fixpoint all_slashes (p : string) : bool :=
  match p with
  | EmptyString => true
  | String c r => (c =? "/")%char && all_slashes r
  end.

(** [p[:p.rfind('/') + 1]] *)
Fixpoint upto_last_slash (p : string) : string :=
  match p with
  | EmptyString => EmptyString
  | String c r =>
      if has_slash r then String c (upto_last_slash r)
      else if (c =? "/")%char then String c EmptyString
      else EmptyString
  end.

(** [s.rstrip('/')] *)
Fixpoint rstrip_slashes (s : string) : string :=
  match s with
  | EmptyString => EmptyString
  | String c r =>
      match rstrip_slashes r with
      | EmptyString => if (c =? "/")%char then EmptyString else String c EmptyString
      | r' => String c r'
      end
  end.

Fixpoint ends_with_slash (p : string) : bool :=
  match p with
  | EmptyString => false
  | String c EmptyString => (c =? "/")%char
  | String _ r => ends_with_slash r
  end.

(** [os.path.dirname(p)] *)
Definition dirname (p : string) : string :=
  let head := upto_last_slash p in
  if negb (head =? "")%string && negb (all_slashes head)
  then rstrip_slashes head
  else head.

(** [os.path.join(a, b)] *)
Definition join (a b : string) : string :=
  if prefix "/" b then b
  else if (a =? "")%string || ends_with_slash a then (a ++ b)%string
  else (a ++ "/" ++ b)%string.

End Posixpath.

(** ** The world a script runs in *)

Module IO.
Import Python.

(** A file on disk, up to what the two loaders make of its text.  A YAML
    document is one without anchors and aliases, which loads as a tree. *)
Inductive file : Type :=
| Text                 (* neither valid JSON nor valid YAML *)
| Yaml (v : pyval)     (* valid YAML that is not valid JSON *)
| Json (v : pyval).    (* valid JSON, which [yaml.safe_load] reads as well *)

(** The text [yaml.dump] produces, named by the document it serialises. *)
Inductive yaml_text : Type :=
| yaml_dump (compose_data : pyval).

(** The URL that [urljoin(base, path)] returns, named by its two parts. *)
Record url : Type := mkUrl { url_base : option string; url_path : string }.

(** A response of the Portainer API: status line, body text, and the body
    parsed as JSON when it parses. *)
Record response : Type := mkResponse {
  status_code : Z;
  text : string;
  json_body : option pyval }.

(** The [json=] payload of a create call (a dictionary with these keys) and
    of an update call. *)
Record create_payload : Type := mkCreate {
  c_name : option string;
  c_stackFileContent : yaml_text;
  c_endpointId : Z;
  c_swarmId : string;
  c_env : list pyval;
  c_prune : bool;
  c_pullImage : bool }.

Record update_payload : Type := mkUpdate {
  u_stackFileContent : yaml_text;
  u_env : list pyval;
  u_prune : bool;
  u_pullImage : bool }.

(** A call of [requests]; every call carries the API key header. *)
Inductive request : Type :=
| GET (target : url) (api_key : option string)
| POST (target : url) (api_key : option string) (payload : create_payload)
| PUT (target : url) (api_key : option string) (payload : update_payload).

Definition target_of (r : request) : url :=
  match r with
  | GET target _ => target
  | POST target _ _ => target
  | PUT target _ _ => target
  end.

(** What becomes of a call that is made: a response comes back, or
    [requests] raises an exception before any response is returned
    (connection refused, a URL it cannot use, too many redirects, ...),
    which may carry the last response seen. *)
Inductive sent : Type :=
| Responded (r : response)
| Failed (attached : option response).

(** What a call comes back with: a response, or an exception of
    [requests], as above; or nothing, when the call cannot be made because
    its URL cannot be built. *)
Inductive reply : Type :=
| Answer (r : response)
| Transport_error (attached : option response)
| Not_sent.

(** Exceptions raised in the modelled code; each is an [Exception]. *)
Inductive exn : Type :=
| AttributeError
| TypeError
| KeyError
| FileNotFoundError
| JSONDecodeError
| YAMLError
| ValueError
| RequestException (attached : option response)
| HTTPError (r : response).

(** A printed line: the format string of the [print] call and the values
    interpolated into it, or the exception when it interpolates one. *)
Inductive line : Type :=
| Say (format : string) (args : list pyval)
| Say_exn (format : string) (e : exn).

Record world : Type := mkWorld {
  fs : string -> option file;          (* the files, by path *)
  environ : string -> option string;   (* [os.environ] *)
  now : string;                        (* what [time.strftime] returns *)
  refused : string -> bool;            (* the base URLs [urljoin] refuses *)
  network : list request -> request -> sent;
                                       (* the API, given the calls so far *)
  stdout : list line;                  (* lines printed, oldest first *)
  calls : list request }.              (* calls issued, oldest first *)

(** [urljoin] raises on this base URL.  It returns its second argument for
    a base that is [None] or empty; it parses any other base, and the
    parser raises [ValueError] on a malformed one (an unbalanced bracket in
    the host, for one).  The path is a constant of the scripts followed at
    most by a stack identifier, and is taken as it is. *)
Definition url_refused (w : world) (base : option string) : bool :=
  match base with
  | Some b => negb (b =? "")%string && refused w b
  | None => false
  end.

(** What the call [r] comes back with after the calls [history]. *)
Definition server (w : world) (history : list request) (r : request) : reply :=
  if url_refused w (url_base (target_of r)) then Not_sent
  else match network w history r with
       | Responded resp => Answer resp
       | Failed attached => Transport_error attached
       end.

(** How a computation ends: with a value, with an exception, or with
    [sys.exit(code)], which [except Exception] does not catch. *)
Inductive outcome (A : Type) : Type :=
| Ret (a : A)
| Raise (e : exn)
| Exit (code : Z).
Arguments Ret {A} a.
Arguments Raise {A} e.
Arguments Exit {A} code.

Definition M (A : Type) : Type := world -> outcome A * world.

(** The process exit status: 0 when [main] returns, the code of [sys.exit],
    1 on an uncaught exception. *)
Definition exit_status {A} (o : outcome A) : Z :=
  match o with
  | Ret _ => 0
  | Raise _ => 1
  | Exit code => code
  end.

#[global] Instance Monad_outcome : Monad outcome := {|
  ret := fun A a => Ret a;
  bind := fun A B c k =>
    match c with
    | Ret a => k a
    | Raise e => Raise e
    | Exit n => Exit n
    end |}.

#[global] Instance Monad_M : Monad M := {|
  ret := fun A a w => (Ret a, w);
  bind := fun A B c k w =>
    match c w with
    | (Ret a, w') => k a w'
    | (Raise e, w') => (Raise e, w')
    | (Exit n, w') => (Exit n, w')
    end |}.

Definition lift {A} (o : outcome A) : M A := fun w => (o, w).

Definition raise {A} (e : exn) : M A := fun w => (Raise e, w).

(** [sys.exit(code)] *)
Definition sys_exit {A} (code : Z) : M A := fun w => (Exit code, w).

(** [try: body  except Exception as e: handler e] *)
Definition try_except {A} (body : M A) (handler : exn -> M A) : M A :=
  fun w =>
    match body w with
    | (Raise e, w') => handler e w'
    | r => r
    end.

Definition print (l : line) : M unit :=
  fun w => (Ret tt, mkWorld (fs w) (environ w) (now w) (refused w) (network w)
                            (stdout w ++ [l]) (calls w)).

(** [os.getenv(name, default)] *)
Definition getenv (name default : string) : M string :=
  fun w => (Ret (match environ w name with Some v => v | None => default end), w).

(** [time.strftime('%Y-%m-%d %H:%M:%S')] *)
Definition strftime : M string := fun w => (Ret (now w), w).

(** [os.path.exists(path)]; [None] is not a path. *)
Definition path_exists (path : option string) : M bool :=
  fun w =>
    match path with
    | None => (Raise TypeError, w)
    | Some p => (Ret (match fs w p with Some _ => true | None => false end), w)
    end.

(** [os.makedirs(name, exist_ok=True)].  Directories are implicit in [fs];
    the empty name is the one the call refuses. *)
Definition makedirs (name : string) : M unit :=
  if (name =? "")%string then raise FileNotFoundError else ret tt.

(** [with open(path, 'r') as f: yaml.safe_load(f)] *)
Definition yaml_load (path : option string) : M pyval :=
  fun w =>
    match path with
    | None => (Raise TypeError, w)
    | Some p =>
        match fs w p with
        | None => (Raise FileNotFoundError, w)
        | Some Text => (Raise YAMLError, w)
        | Some (Yaml v) => (Ret v, w)
        | Some (Json v) => (Ret v, w)
        end
    end.

(** [with open(path, 'r') as f: json.load(f)] *)
Definition json_load (path : string) : M pyval :=
  fun w =>
    match fs w path with
    | None => (Raise FileNotFoundError, w)
    | Some (Json v) => (Ret v, w)
    | Some _ => (Raise JSONDecodeError, w)
    end.

(** [with open(path, 'w') as f: json.dump(v, f, indent=2)] *)
Definition json_dump (v : pyval) (path : string) : M unit :=
  fun w =>
    (Ret tt, mkWorld (fun p => if (p =? path)%string then Some (Json v) else fs w p)
                     (environ w) (now w) (refused w) (network w) (stdout w) (calls w)).

(** [urljoin(base, path)] *)
Definition urljoin (base : option string) (path : string) : M url :=
  fun w =>
    if url_refused w base then (Raise ValueError, w)
    else (Ret (mkUrl base path), w).

(** One call of [requests.get], [requests.post] or [requests.put]. *)
Definition send (r : request) : M response :=
  fun w =>
    let w' := mkWorld (fs w) (environ w) (now w) (refused w) (network w) (stdout w)
                      (calls w ++ [r]) in
    match network w (calls w) r with
    | Responded resp => (Ret resp, w')
    | Failed attached => (Raise (RequestException attached), w')
    end.

(** A response with a client or server error status (400 to 599), the ones
    [raise_for_status] raises on. *)
Definition error_status (r : response) : bool :=
  (400 <=? status_code r) && (status_code r <? 600).

(** [Response.ok], which is also the truth value of a response. *)
Definition ok (r : response) : bool := negb (error_status r).

(** [response.raise_for_status()] *)
Definition raise_for_status (r : response) : M unit :=
  if ok r then ret tt else raise (HTTPError r).

(** [response.json()] *)
Definition response_json (r : response) : M pyval :=
  match json_body r with
  | Some v => ret v
  | None => raise JSONDecodeError
  end.

(** [e.response], when the exception has that attribute and it is not
    [None]: the response an [HTTPError] was raised for, or the one a
    transport error carries. *)
Definition exn_response (e : exn) : option response :=
  match e with
  | HTTPError r => Some r
  | RequestException attached => attached
  | _ => None
  end.

(** [d.get(k)] and [d.get(k, default)] on an arbitrary object. *)
Definition py_get (v : pyval) (k : string) (default : pyval) : outcome pyval :=
  match v with
  | PDict d => Ret (match dict_get k d with Some x => x | None => default end)
  | _ => Raise AttributeError
  end.

(** [d.items()] *)
Definition py_items (v : pyval) : outcome (list (string * pyval)) :=
  match v with
  | PDict d => Ret d
  | _ => Raise AttributeError
  end.

(** [for x in v]: the elements the loop visits. *)
Definition py_iter (v : pyval) : outcome (list pyval) :=
  match v with
  | PList items => Ret items
  | PDict d => Ret (map (fun kv => PStr (fst kv)) d)
  | PStr s => Ret (map (fun c => PStr (String c EmptyString)) (list_ascii_of_string s))
  | _ => Raise TypeError
  end.

(** [k in v] for a string [k]. *)
Definition py_in (k : string) (v : pyval) : outcome bool :=
  match v with
  | PDict d => Ret (match dict_get k d with Some _ => true | None => false end)
  | PStr s => Ret (contains k s)
  | PList items =>
      Ret (existsb (fun x => match x with PStr s => (s =? k)%string | _ => false end) items)
  | _ => Raise TypeError
  end.

(** [v[k]] for a string [k]. *)
Definition py_getitem (v : pyval) (k : string) : outcome pyval :=
  match v with
  | PDict d => match dict_get k d with Some x => Ret x | None => Raise KeyError end
  | _ => Raise TypeError
  end.

(** [v[k] = x] for a string [k]. *)
Definition py_setitem (v : pyval) (k : string) (x : pyval) : outcome pyval :=
  match v with
  | PDict d => Ret (PDict (dict_set k x d))
  | _ => Raise TypeError
  end.

(** [v.lower()] *)
Definition py_lower (v : pyval) : outcome string :=
  match v with
  | PStr s => Ret (lower s)
  | _ => Raise AttributeError
  end.

(** [v.split(':')[0]] *)
Definition py_split_colon_first (v : pyval) : outcome string :=
  match v with
  | PStr s => Ret (split_colon_first s)
  | _ => Raise AttributeError
  end.

End IO.

(** ** Functions the two scripts share

    [validate_args], [read_compose_file], [update_image_tags],
    [get_stack_id] and the body of [update_stack] have the same text in
    [deploy_portainer.py] and in [rollback_portainer.py]. *)

Module Shared.
Import Python IO.

Fixpoint for_each {A B : Type} (body : A -> M B) (items : list A) : M (list B) :=
  match items with
  | [] => ret []
  | x :: rest =>
      y <- body x ;;
      ys <- for_each body rest ;;
      ret (y :: ys)
  end.

Definition missing_arguments
  (portainer_url api_key stack_name compose_file : option string) : list string :=
  (if present portainer_url then [] else ["--portainer-url or PORTAINER_URL"])
  ++ (if present api_key then [] else ["--api-key or PORTAINER_API_KEY"])
  ++ (if present stack_name then [] else ["--stack-name or STACK_NAME"])
  ++ (if present compose_file then [] else ["--compose-file or COMPOSE_FILE"]).

(** [validate_args(args)], on the four fields of [args] it reads. *)
Definition validate_args
  (portainer_url api_key stack_name compose_file : option string) : M unit :=
  let missing := missing_arguments portainer_url api_key stack_name compose_file in
  match missing with
  | _ :: _ =>
      print (Say "Error: Missing required arguments: {', '.join(missing)}"
                 [PStr (join_with ", " missing)]) ;;
      sys_exit 1
  | [] =>
      found <- path_exists compose_file ;;
      if found then ret tt
      else
        print (Say "Error: Compose file not found: {args.compose_file}"
                   [of_opt compose_file]) ;;
        sys_exit 1
  end.

Definition read_compose_file (file_path : option string) : M pyval :=
  try_except
    (yaml_load file_path)
    (fun e =>
       print (Say_exn "Error reading compose file: {e}" e) ;;
       sys_exit 1).

(** The body of the loop of [update_image_tags], on one entry of
    [services.items()]; it returns the entry with the service's
    configuration as the body leaves it. *)
Definition update_service (project_path : string) (image_tag : pyval)
  (item : string * pyval) : M (string * pyval) :=
  let (service_name, service_config) := item in
  has_image <- lift (py_in "image" service_config) ;;
  if has_image : bool then
    image <- lift (py_getitem service_config "image") ;;
    image_lower <- lift (py_lower image) ;;
    if contains (lower project_path) image_lower then
      base_image <- lift (py_split_colon_first image) ;;
      let new_image := (base_image ++ ":" ++ py_str image_tag)%string in
      service_config' <- lift (py_setitem service_config "image" (PStr new_image)) ;;
      print (Say "Updated image for service {service_name}: {service_config['image']}"
                 [PStr service_name; PStr new_image]) ;;
      ret (service_name, service_config')
    else ret item
  else ret item.

(** The document after the loop: the configurations were changed in place,
    so they are found where they were, under ['services'] when the document
    has that key (without it the loop ran over a fresh empty dictionary). *)
Definition store_services (compose_data : pyval) (items : list (string * pyval))
  : pyval :=
  match compose_data with
  | PDict d =>
      match dict_get "services" d with
      | Some _ => PDict (dict_set "services" (PDict items) d)
      | None => compose_data
      end
  | _ => compose_data
  end.

Definition update_image_tags (compose_data : pyval)
  (registry_url project_path : option string) (image_tag : pyval) : M pyval :=
  if negb (present registry_url) || negb (present project_path) || negb (truthy image_tag)
  then
    print (Say "Warning: Missing registry URL, project path, or image tag. Skipping image tag update." []) ;;
    ret compose_data
  else
    services <- lift (py_get compose_data "services" (PDict [])) ;;
    items <- lift (py_items services) ;;
    items' <- for_each
                (update_service (match project_path with Some p => p | None => "" end)
                                image_tag)
                items ;;
    ret (store_services compose_data items').

(** The loop of [get_stack_id]: the first stack whose name and endpoint are
    the ones asked for decides the result. *)
Fixpoint find_stack (stacks : list pyval) (env_id : Z) (stack_name : option string)
  : outcome pyval :=
  match stacks with
  | [] => Ret PNone
  | stack :: rest =>
      name <- py_get stack "Name" PNone ;;
      if eq_str name stack_name then
        endpoint <- py_get stack "EndpointId" PNone ;;
        if eq_int endpoint env_id then py_get stack "Id" PNone
        else find_stack rest env_id stack_name
      else find_stack rest env_id stack_name
  end.

Definition get_stack_id (portainer_url api_key : option string) (env_id : Z)
  (stack_name : option string) : M pyval :=
  target <- urljoin portainer_url "/api/stacks" ;;
  try_except
    (response <- send (GET target api_key) ;;
     raise_for_status response ;;
     body <- response_json response ;;
     stacks <- lift (py_iter body) ;;
     lift (find_stack stacks env_id stack_name))
    (fun e =>
       print (Say_exn "Error getting stack ID: {e}" e) ;;
       ret PNone).

(** [if hasattr(e, 'response') and e.response: print(...)]: the body is
    printed when the exception carries a response and the response is
    truthy, which for a [Response] means [ok]. *)
Definition print_response (e : exn) : M unit :=
  match exn_response e with
  | Some r =>
      if ok r then print (Say "Response: {e.response.text}" [PStr (text r)])
      else ret tt
  | None => ret tt
  end.

Definition update_stack (portainer_url api_key : option string) (stack_id : pyval)
  (env_id : Z) (compose_content : yaml_text) (prune pull : bool) : M bool :=
  target <- urljoin portainer_url ("/api/stacks/" ++ py_str stack_id) ;;
  let payload := mkUpdate compose_content [] prune pull in
  try_except
    (response <- send (PUT target api_key payload) ;;
     raise_for_status response ;;
     print (Say "Stack updated successfully!" []) ;;
     ret true)
    (fun e =>
       print (Say_exn "Error updating stack: {e}" e) ;;
       print_response e ;;
       sys_exit 1).

End Shared.

(** ** [scripts/deploy_portainer.py] *)

Module Deploy.
Import Python IO.

(** The namespace [parse_arguments] returns. *)
Record args : Type := mkArgs {
  portainer_url : option string;
  api_key : option string;
  env_id : Z;
  stack_name : option string;
  compose_file : option string;
  image_tag : option string;
  registry_url : option string;
  project_path : option string;
  prune : bool;
  pull : bool }.

Definition validate_args (a : args) : M unit :=
  Shared.validate_args (portainer_url a) (api_key a) (stack_name a) (compose_file a).

Definition read_compose_file := Shared.read_compose_file.

Definition update_image_tags := Shared.update_image_tags.

Definition get_stack_id := Shared.get_stack_id.

Definition create_stack (portainer_url api_key : option string) (env_id : Z)
  (stack_name : option string) (compose_content : yaml_text) (prune pull : bool)
  : M pyval :=
  target <- urljoin portainer_url "/api/stacks" ;;
  let payload := mkCreate stack_name compose_content env_id "" [] prune pull in
  try_except
    (response <- send (POST target api_key payload) ;;
     raise_for_status response ;;
     print (Say "Stack {stack_name} created successfully!" [of_opt stack_name]) ;;
     body <- response_json response ;;
     lift (py_get body "Id" PNone))
    (fun e =>
       print (Say_exn "Error creating stack: {e}" e) ;;
       Shared.print_response e ;;
       sys_exit 1).

Definition update_stack := Shared.update_stack.

(** Lines 191 to 206 of [main]: look the stack up, then update or create. *)
Definition reconcile (a : args) (compose_content : yaml_text) : M unit :=
  stack_id <- get_stack_id (portainer_url a) (api_key a) (env_id a) (stack_name a) ;;
  if truthy stack_id then
    print (Say "Updating existing stack {args.stack_name} (ID: {stack_id})..."
               [of_opt (stack_name a); stack_id]) ;;
    update_stack (portainer_url a) (api_key a) stack_id (env_id a)
                 compose_content (prune a) (pull a) ;;
    ret tt
  else
    print (Say "Creating new stack {args.stack_name}..." [of_opt (stack_name a)]) ;;
    create_stack (portainer_url a) (api_key a) (env_id a) (stack_name a)
                 compose_content (prune a) (pull a) ;;
    ret tt.

(** Lines 181 to 189 of [main]: the document that is deployed. *)
Definition prepare (a : args) : M pyval :=
  compose_data <- read_compose_file (compose_file a) ;;
  if present (image_tag a) && present (registry_url a) && present (project_path a)
  then update_image_tags compose_data (registry_url a) (project_path a)
                         (of_opt (image_tag a))
  else ret compose_data.

Definition main (a : args) : M unit :=
  validate_args a ;;
  compose_data <- prepare a ;;
  let compose_content := yaml_dump compose_data in
  reconcile a compose_content ;;
  print (Say "Deployment completed successfully!" []).

End Deploy.

(** ** [scripts/rollback_portainer.py] *)

Module Rollback.
Import Python IO.

(** The namespace [parse_arguments] returns; [artifact_path] always has a
    value, by its default. *)
Record args : Type := mkArgs {
  portainer_url : option string;
  api_key : option string;
  env_id : Z;
  stack_name : option string;
  compose_file : option string;
  registry_url : option string;
  project_path : option string;
  previous_tag : option string;
  artifact_path : string }.

Definition validate_args (a : args) : M unit :=
  Shared.validate_args (portainer_url a) (api_key a) (stack_name a) (compose_file a).

Definition read_compose_file := Shared.read_compose_file.

Definition query_previous_tag_from_registry (a : args) : M pyval :=
  print (Say "Querying registry for previous tags..." []) ;;
  branch <- getenv "CI_COMMIT_REF_NAME" "main" ;;
  let fallback_tag := (branch ++ "-latest")%string in
  print (Say "Using fallback tag: {fallback_tag}" [PStr fallback_tag]) ;;
  ret (PStr fallback_tag).

(** The [try] block of [get_previous_tag] (lines 83 to 92): [Some tag] when
    the block returns [tag] from the function, [None] when control goes on
    past it. *)
Definition read_artifact_tag (a : args) : M (option pyval) :=
  try_except
    (found <- path_exists (Some (artifact_path a)) ;;
     if found : bool then
       data <- json_load (artifact_path a) ;;
       tag <- lift (py_get data "last_successful_tag" PNone) ;;
       if truthy tag then
         print (Say "Using last successful tag from artifact: {tag}" [tag]) ;;
         ret (Some tag)
       else ret None
     else ret None)
    (fun e =>
       print (Say_exn "Warning: Could not read previous tag from artifact: {e}" e) ;;
       ret None).

Definition get_previous_tag (a : args) : M pyval :=
  if present (previous_tag a) then
    print (Say "Using provided previous tag: {args.previous_tag}"
               [of_opt (previous_tag a)]) ;;
    ret (of_opt (previous_tag a))
  else
    from_artifact <- read_artifact_tag a ;;
    match from_artifact with
    | Some tag => ret tag
    | None =>
        tag <- query_previous_tag_from_registry a ;;
        if truthy tag then ret tag
        else
          print (Say "Error: Could not determine previous tag for rollback" []) ;;
          sys_exit 1
    end.

Definition update_image_tags := Shared.update_image_tags.

Definition get_stack_id := Shared.get_stack_id.

(** [update_stack(..., prune=False, pull=True)]: the defaults of the two
    keyword parameters. *)
Definition default_prune : bool := false.
Definition default_pull : bool := true.

Definition update_stack := Shared.update_stack.

(** [history.append(x)] *)
Definition py_append (history x : pyval) : outcome pyval :=
  match history with
  | PList items => Ret (PList (items ++ [x]))
  | _ => Raise AttributeError
  end.

Definition rollback_log_path (a : args) : string :=
  Posixpath.join (Posixpath.dirname (artifact_path a)) "rollback_history.json".

Definition rollback_record (timestamp : string) (stack : option string)
  (environment : string) (rolled_back_to : pyval) : pyval :=
  PDict [("timestamp", PStr timestamp);
         ("stack", of_opt stack);
         ("environment", PStr environment);
         ("rolled_back_to", rolled_back_to)].

(** Lines 217 to 236 of [main]: record the rollback in the history file. *)
Definition record_rollback (a : args) (previous_tag : pyval) : M unit :=
  try_except
    (let rollback_log := rollback_log_path a in
     found <- path_exists (Some rollback_log) ;;
     history <- (if found : bool then json_load rollback_log else ret (PList [])) ;;
     timestamp <- strftime ;;
     environment <- getenv "CI_COMMIT_REF_NAME" "unknown" ;;
     history' <- lift (py_append history
                         (rollback_record timestamp (stack_name a) environment
                                          previous_tag)) ;;
     makedirs (Posixpath.dirname rollback_log) ;;
     json_dump history' rollback_log)
    (fun e =>
       print (Say_exn "Warning: Could not record rollback history: {e}" e)).

Definition main (a : args) : M unit :=
  validate_args a ;;
  previous_tag <- get_previous_tag a ;;
  compose_data <- read_compose_file (compose_file a) ;;
  compose_data <- update_image_tags compose_data (registry_url a) (project_path a)
                                    previous_tag ;;
  let compose_content := yaml_dump compose_data in
  stack_id <- get_stack_id (portainer_url a) (api_key a) (env_id a) (stack_name a) ;;
  if negb (truthy stack_id) then
    print (Say "Error: Stack {args.stack_name} not found" [of_opt (stack_name a)]) ;;
    sys_exit 1
  else
    print (Say "Rolling back stack {args.stack_name} to tag {previous_tag}..."
               [of_opt (stack_name a); previous_tag]) ;;
    update_stack (portainer_url a) (api_key a) stack_id (env_id a) compose_content
                 default_prune true ;;
    print (Say "Rollback completed successfully!" []) ;;
    record_rollback a previous_tag.

(** *** Several invocations over one file system *)




End Rollback.

(** ** Vocabulary of the statements *)

Module Doc.
Import Python IO.

(** An image reference has the form [repository[:tag]].  The repository
    may name a registry host with its port ([host:5000/path]); a tag holds
    no slash.  So the tag is what follows the last colon of the reference,
    when no slash follows that colon, and the repository is all that comes
    before it; a reference without such a colon is all repository. *)
Fixpoint split_reference (image : string) : string * option string :=
  match image with
  | EmptyString => (EmptyString, None)
  | String c rest =>
      match split_reference rest with
      | (repo, Some tag) => (String c repo, Some tag)
      | (repo, None) =>
          if (c =? ":")%char && negb (Posixpath.has_slash rest)
          then (EmptyString, Some rest)
          else (String c repo, None)
      end
  end.

Definition repository (image : string) : string := fst (split_reference image).

Definition tag_of (image : string) : option string := snd (split_reference image).

(** The services of a composition document, in the order of the document. *)
Definition services (compose_data : pyval) : list (string * pyval) :=
  match compose_data with
  | PDict d =>
      match dict_get "services" d with
      | Some (PDict s) => s
      | _ => []
      end
  | _ => []
  end.

(** The image reference of a service, when it has one. *)
Definition image_of (service_config : pyval) : option string :=
  match service_config with
  | PDict c =>
      match dict_get "image" c with
      | Some (PStr image) => Some image
      | _ => None
      end
  | _ => None
  end.

(** The project path matches a service: its image reference contains the
    path, case ignored. *)
Definition matches (project_path : string) (service_config : pyval) : bool :=
  match image_of service_config with
  | Some image => contains (lower project_path) (lower image)
  | None => false
  end.

(** A service specification: a mapping whose image reference, if any, is a
    string. *)
Definition service_spec (service_config : pyval) : bool :=
  match service_config with
  | PDict c =>
      match dict_get "image" c with
      | Some (PStr _) | None => true
      | Some _ => false
      end
  | _ => false
  end.

(** A composition document: a mapping whose services, if any, map names to
    service specifications. *)
Definition composition (compose_data : pyval) : bool :=
  match compose_data with
  | PDict d =>
      match dict_get "services" d with
      | Some (PDict s) => forallb (fun item => service_spec (snd item)) s
      | Some _ => false
      | None => true
      end
  | _ => false
  end.

(** The top-level entry of a document under a key. *)
Definition entry (k : string) (compose_data : pyval) : option pyval :=
  match compose_data with
  | PDict d => dict_get k d
  | _ => None
  end.

(** A service configuration as the rewriter leaves it when it rewrites it:
    the image reference is now what stood before its first colon, a colon
    and [tag]. *)
Definition retag (tag : string) (service_config : pyval) : pyval :=
  match service_config with
  | PDict c =>
      match dict_get "image" c with
      | Some (PStr image) =>
          PDict (dict_set "image" (PStr (split_colon_first image ++ ":" ++ tag)) c)
      | _ => service_config
      end
  | _ => service_config
  end.

(** The line the rewriter prints for a service it rewrites. *)
Definition updated_line (tag service_name : string) (service_config : pyval) : line :=
  Say "Updated image for service {service_name}: {service_config['image']}"
      [PStr service_name;
       PStr (match image_of (retag tag service_config) with
             | Some image => image
             | None => ""
             end)].

(** The rewriter on one entry of the services, and the lines it prints for
    a list of entries. *)
Definition retag_item (project_path tag : string) (item : string * pyval)
  : string * pyval :=
  (fst item,
   if matches project_path (snd item) then retag tag (snd item) else snd item).

Definition updated_lines (project_path tag : string) (items : list (string * pyval))
  : list line :=
  map (fun item => updated_line tag (fst item) (snd item))
      (filter (fun item => matches project_path (snd item)) items).

(** The world after some more lines were printed. *)
Definition say (w : world) (lines : list line) : world :=
  mkWorld (fs w) (environ w) (now w) (refused w) (network w) (stdout w ++ lines) (calls w).

(** The world after one more call was issued. *)
Definition called (w : world) (r : request) : world :=
  mkWorld (fs w) (environ w) (now w) (refused w) (network w) (stdout w) (calls w ++ [r]).

(** A computation that at most prints and that exits, when it does, with
    status 1. *)
Definition quiet {A} (c : M A) : Prop :=
  forall w,
    (exists lines, snd (c w) = say w lines)
    /\ (forall code, fst (c w) = Exit code -> code = 1).

(** The listing call of [get_stack_id]. *)
Definition list_stacks (portainer_url api_key : option string) : request :=
  GET (mkUrl portainer_url "/api/stacks") api_key.

(** What the listing call yields in a world: the JSON body of a response
    that is no client or server error, or nothing when the call fails (no
    response, an error status, a body that is not JSON). *)
Definition listing (w : world) (portainer_url api_key : option string)
  : option pyval :=
  match server w (calls w) (list_stacks portainer_url api_key) with
  | Answer r => if ok r then json_body r else None
  | Transport_error _ => None
  | Not_sent => None
  end.

(** A stack as the API lists it: an object whose [Name], if any, is a
    string and whose [EndpointId], if any, is an integer. *)
Definition stack_object (stack : pyval) : bool :=
  match stack with
  | PDict d =>
      match dict_get "Name" d with
      | Some (PStr _) | None => true
      | Some _ => false
      end
      && match dict_get "EndpointId" d with
         | Some (PInt _) | None => true
         | Some _ => false
         end
  | _ => false
  end.

(** The stack has exactly this name and this environment id. *)
Definition names_stack (stack_name : string) (env_id : Z) (stack : pyval) : bool :=
  match stack with
  | PDict d =>
      match dict_get "Name" d, dict_get "EndpointId" d with
      | Some (PStr n), Some (PInt e) => (n =? stack_name)%string && (e =? env_id)
      | _, _ => false
      end
  | _ => false
  end.

(** The identifier of a listed stack, [None] when it has none. *)
Definition stack_id_of (stack : pyval) : pyval :=
  match stack with
  | PDict d => match dict_get "Id" d with Some v => v | None => PNone end
  | _ => PNone
  end.

(** The create call and the update call of the reconciler. *)
Definition create_call (portainer_url api_key : option string) (env_id : Z)
  (stack_name : option string) (compose_content : yaml_text) (prune pull : bool)
  : request :=
  POST (mkUrl portainer_url "/api/stacks") api_key
       (mkCreate stack_name compose_content env_id "" [] prune pull).

Definition update_call (portainer_url api_key : option string) (stack_id : pyval)
  (compose_content : yaml_text) (prune pull : bool) : request :=
  PUT (mkUrl portainer_url ("/api/stacks/" ++ py_str stack_id)) api_key
      (mkUpdate compose_content [] prune pull).

Definition is_create (r : request) : bool :=
  match r with POST _ _ _ => true | _ => false end.

Definition is_update (r : request) : bool :=
  match r with PUT _ _ _ => true | _ => false end.

(** The non-empty [last_successful_tag] of the artifact file, when the
    file is there, is a JSON object and has one. *)
Definition artifact_tag (w : world) (artifact_path : string) : option pyval :=
  match fs w artifact_path with
  | Some (Json (PDict d)) =>
      match dict_get "last_successful_tag" d with
      | Some tag => if truthy tag then Some tag else None
      | None => None
      end
  | _ => None
  end.

(** The branch name of the invocation, ["main"] when the environment has
    none. *)
Definition branch (w : world) : string :=
  match environ w "CI_COMMIT_REF_NAME" with
  | Some b => b
  | None => "main"
  end.

(** The tag the previous-tag resolver settles on. *)
Definition resolved_tag (previous_tag : option string) (artifact_path : string)
  (w : world) : pyval :=
  if present previous_tag then of_opt previous_tag
  else match artifact_tag w artifact_path with
       | Some tag => tag
       | None => PStr (branch w ++ "-latest")
       end.

(** Two worlds with the same files, environment, clock and API. *)
Definition undisturbed (w w' : world) : Prop :=
  fs w' = fs w /\ environ w' = environ w /\ now w' = now w /\ server w' = server w
  /\ refused w' = refused w.

(** The world after a file was written. *)
Definition written (w : world) (path : string) (f : file) : world :=
  mkWorld (fun p => if (p =? path)%string then Some f else fs w p)
          (environ w) (now w) (refused w) (network w) (stdout w) (calls w).

(** The records of a history file as the recorder reads them: none for a
    missing file, the elements of a JSON array; nothing for any other
    content. *)
Definition prior_records (files : string -> option file) (path : string)
  : option (list pyval) :=
  match files path with
  | None => Some []
  | Some (Json (PList records)) => Some records
  | Some _ => None
  end.

(** The environment label of a rollback record. *)
Definition environment_label (environ : string -> option string) : string :=
  match environ "CI_COMMIT_REF_NAME" with
  | Some b => b
  | None => "unknown"
  end.


End Doc.

(** ** Concrete inputs *)

Module Examples.
Import Python IO Doc.

(** A composition document with one service of the project, whose image
    reference is [image], and one service that is not of the project. *)
Definition doc_of (image : string) : pyval :=
  PDict [("version", PStr "3");
         ("services",
          PDict [("web", PDict [("image", PStr image);
                                ("ports", PList [PStr "80:80"])]);
                 ("db", PDict [("image", PStr "postgres:15")])])].

Definition doc_tagged : pyval := doc_of "registry.example.com/myorg/app:old".

Definition doc_untagged : pyval := doc_of "registry.example.com/myorg/app".

Definition stack (name : string) (endpoint id : Z) : pyval :=
  PDict [("Id", PInt id); ("Name", PStr name); ("EndpointId", PInt endpoint)].

(** An API that lists [stacks] and answers every write with [answer]. *)
Definition api (stacks : list pyval) (answer : response)
  : list request -> request -> sent :=
  fun _ r =>
    match r with
    | GET _ _ => Responded (mkResponse 200 "" (Some (PList stacks)))
    | _ => Responded answer
    end.

(** No base URL is refused. *)
Definition any_url : string -> bool := fun _ => false.

Definition accepted : response :=
  mkResponse 200 "{}" (Some (PDict [])).

Definition server_error : response := mkResponse 500 "boom" None.

Definition not_modified : response := mkResponse 304 "" None.

Definition compose_path : string := "docker-compose.yml".

Definition history_path : string := "artifacts/rollback_history.json".

(** Files: the composition document, and [history] at the history path. *)
Definition files_with (history : option file) : string -> option file :=
  fun p =>
    if (p =? compose_path)%string then Some (Yaml doc_tagged)
    else if (p =? history_path)%string then history
    else None.

Definition release_branch : string -> option string :=
  fun name => if (name =? "CI_COMMIT_REF_NAME")%string then Some "release/2.0" else None.

Definition world_with (history : option file) (stacks : list pyval)
  (answer : response) : world :=
  mkWorld (files_with history) release_branch "2024-05-01 10:00:00"
          any_url (api stacks answer) [] [].

Definition listed : list pyval :=
  [stack "other" 1 3; stack "qa-stack" 2 5; stack "qa-stack" 1 7; stack "qa-stack" 1 9].

Definition deploy_args : Deploy.args :=
  Deploy.mkArgs (Some "https://portainer.example.com") (Some "key") 1 (Some "qa-stack")
                (Some compose_path) (Some "v2") (Some "registry.example.com")
                (Some "myorg/app") false true.

Definition rollback_args (previous_tag : option string) : Rollback.args :=
  Rollback.mkArgs (Some "https://portainer.example.com") (Some "key") 1 (Some "qa-stack")
                  (Some compose_path) (Some "registry.example.com") (Some "myorg/app")
                  previous_tag "artifacts/last_successful_tag.json".



Definition portainer : option string := Some "https://portainer.example.com".


End Examples.


(** ** Vocabulary of the further properties *)

Module Cover.
Import Python IO Doc.

(** A compose file that is there. *)
Definition file_exists (w : world) (path : option string) : bool :=
  match path with
  | Some p => match fs w p with Some _ => true | None => false end
  | None => false
  end.

(** The four required arguments are given and the compose file exists. *)
Definition valid_arguments (portainer_url api_key stack_name compose_file : option string)
  (w : world) : bool :=
  present portainer_url && present api_key && present stack_name
  && present compose_file && file_exists w compose_file.

(** The line [validate_args] prints before it exits. *)
Definition validation_error (portainer_url api_key stack_name compose_file : option string)
  : line :=
  match Shared.missing_arguments portainer_url api_key stack_name compose_file with
  | [] => Say "Error: Compose file not found: {args.compose_file}" [of_opt compose_file]
  | missing =>
      Say "Error: Missing required arguments: {', '.join(missing)}"
          [PStr (join_with ", " missing)]
  end.

(** What [yaml.safe_load] makes of a file. *)
Definition yaml_view (f : file) : option pyval :=
  match f with
  | Text => None
  | Yaml v => Some v
  | Json v => Some v
  end.

(** The compose file as [yaml.safe_load] reads it, when it is there and
    parses. *)
Definition compose_document (w : world) (compose_file : option string) : option pyval :=
  match compose_file with
  | Some p => match fs w p with Some f => yaml_view f | None => None end
  | None => None
  end.

(** The document with every service the project path matches retagged. *)
Definition retag_document (project_path tag : string) (compose_data : pyval) : pyval :=
  Shared.store_services compose_data
    (map (retag_item project_path tag) (services compose_data)).

(** The value the stack lookup returns in a world. *)
Definition lookup_value (w : world) (portainer_url api_key : option string)
  (env_id : Z) (stack_name : option string) : pyval :=
  match listing w portainer_url api_key with
  | Some body =>
      match py_iter body with
      | Ret stacks =>
          match Shared.find_stack stacks env_id stack_name with
          | Ret v => v
          | _ => PNone
          end
      | _ => PNone
      end
  | None => PNone
  end.

(** The write call of a reconcile: an update of the stack the lookup found,
    a create when it found none. *)
Definition write_call (portainer_url api_key : option string) (env_id : Z)
  (stack_name : option string) (stack_id : pyval) (compose_content : yaml_text)
  (prune pull : bool) : request :=
  if truthy stack_id
  then update_call portainer_url api_key stack_id compose_content prune pull
  else create_call portainer_url api_key env_id stack_name compose_content prune pull.

(** What makes the loop of the rewriter raise on a service configuration,
    and the exception it raises. *)
Definition service_fault (service_config : pyval) : option exn :=
  match service_config with
  | PNone | PBool _ | PInt _ => Some TypeError
  | PStr s => if contains "image" s then Some TypeError else None
  | PList items =>
      if existsb (fun x => match x with PStr s => (s =? "image")%string | _ => false end)
                 items
      then Some TypeError else None
  | PDict c =>
      match dict_get "image" c with
      | Some (PStr _) | None => None
      | Some _ => Some AttributeError
      end
  end.

(** A document the rewriter cannot walk: it is no mapping, or its
    ['services'] entry is there and is no mapping. *)
Definition document_fault (compose_data : pyval) : bool :=
  match compose_data with
  | PDict d =>
      match dict_get "services" d with
      | Some (PDict _) | None => false
      | Some _ => true
      end
  | _ => true
  end.

(** A mapping, the only kind of value with a [get] method. *)
Definition mapping (v : pyval) : bool :=
  match v with
  | PDict _ => true
  | _ => false
  end.

(** The line printed for the response an exception carries: its body, when
    the response is there and is truthy. *)
Definition attached_lines (attached : option response) : list line :=
  match attached with
  | Some resp =>
      if ok resp then [Say "Response: {e.response.text}" [PStr (text resp)]] else []
  | None => []
  end.

(** The rollback arguments with another previous tag. *)
Definition with_previous_tag (a : Rollback.args) (t : option string) : Rollback.args :=
  Rollback.mkArgs (Rollback.portainer_url a) (Rollback.api_key a) (Rollback.env_id a)
                  (Rollback.stack_name a) (Rollback.compose_file a)
                  (Rollback.registry_url a) (Rollback.project_path a) t
                  (Rollback.artifact_path a).

(** The document a deploy sends: retagged when the three control inputs
    are given, as read otherwise. *)
Definition deployed_document (a : Deploy.args) (compose_data : pyval) : pyval :=
  match Deploy.image_tag a, Deploy.project_path a with
  | Some t, Some p =>
      if present (Deploy.image_tag a) && present (Deploy.registry_url a)
         && present (Deploy.project_path a)
      then retag_document p t compose_data
      else compose_data
  | _, _ => compose_data
  end.

(** The document a rollback sends: retagged with the resolved tag when the
    registry URL and the project path are given, as read otherwise. *)
Definition rolled_back_document (a : Rollback.args) (w : world) (compose_data : pyval)
  : pyval :=
  match Rollback.project_path a with
  | Some p =>
      if present (Rollback.registry_url a) && present (Rollback.project_path a)
      then retag_document p
             (py_str (resolved_tag (Rollback.previous_tag a) (Rollback.artifact_path a) w))
             compose_data
      else compose_data
  | None => compose_data
  end.

(** The rewriter returns on this document with these inputs: the inputs
    are not all given, or the document is a composition document. *)
Definition rewritable (registry_url project_path : option string) (compose_data : pyval)
  : bool :=
  negb (present registry_url && present project_path) || composition compose_data.

End Cover.

(** ** Strings and dictionaries *)

Module Facts.
Import Python IO Doc.

(** Unfold the monad. *)
Ltac run := unfold lift, raise, sys_exit, print; cbn [bind ret Monad_M Monad_outcome].

Lemma split_colon_first_has_no_colon (s : string) :
  has_colon (split_colon_first s) = false.
Proof.
  induction s as [|c r IH]; simpl; [reflexivity|].
  destruct (c =? ":")%char eqn:E; simpl; [reflexivity|].
  now rewrite E.
Qed.

Lemma split_colon_first_without_colon (s : string) :
  has_colon s = false -> split_colon_first s = s.
Proof.
  induction s as [|c r IH]; simpl; [reflexivity|].
  destruct (c =? ":")%char; simpl; [discriminate|].
  intros H. now rewrite IH.
Qed.

Lemma split_colon_first_append (a x : string) :
  has_colon a = false -> split_colon_first (a ++ String ":" x) = a.
Proof.
  induction a as [|c r IH]; simpl in *; [reflexivity|].
  destruct (c =? ":")%char; simpl; [discriminate|].
  intros H. now rewrite IH.
Qed.

(** A reference without a colon is all repository. *)
Lemma split_reference_without_colon (s : string) :
  has_colon s = false -> split_reference s = (s, None).
Proof.
  induction s as [|c r IH]; cbn [has_colon split_reference]; [reflexivity|].
  destruct (c =? ":")%char; cbn [orb andb]; [discriminate|].
  intros H. now rewrite (IH H).
Qed.

Lemma repository_without_colon (s : string) :
  has_colon s = false -> repository s = s.
Proof. intros H. unfold repository. now rewrite split_reference_without_colon. Qed.

Lemma dict_get_set_same (k : string) (v : pyval) (d : list (string * pyval)) :
  dict_get k (dict_set k v d) = Some v.
Proof.
  induction d as [|[k' v'] rest IH]; simpl.
  - now rewrite String.eqb_refl.
  - destruct (k' =? k)%string eqn:E; simpl; rewrite E; [reflexivity | exact IH].
Qed.

Lemma dict_get_set_other (k k0 : string) (v : pyval) (d : list (string * pyval)) :
  k0 <> k -> dict_get k0 (dict_set k v d) = dict_get k0 d.
Proof.
  intros N. induction d as [|[k' v'] rest IH]; simpl.
  - destruct (String.eqb_spec k k0); [congruence | reflexivity].
  - destruct (String.eqb_spec k' k) as [->|]; simpl.
    + destruct (String.eqb_spec k k0); [congruence | reflexivity].
    + now rewrite IH.
Qed.

Lemma dict_set_keys (k : string) (v v0 : pyval) (d : list (string * pyval)) :
  dict_get k d = Some v0 -> map fst (dict_set k v d) = map fst d.
Proof.
  induction d as [|[k' v'] rest IH]; simpl; [discriminate|].
  destruct (k' =? k)%string; simpl; [reflexivity|].
  intros H. now rewrite IH.
Qed.

Lemma dict_set_same_value (k : string) (v : pyval) (d : list (string * pyval)) :
  dict_get k d = Some v -> dict_set k v d = d.
Proof.
  induction d as [|[k' v'] rest IH]; simpl; [discriminate|].
  destruct (k' =? k)%string.
  - now intros [= ->].
  - intros H. now rewrite IH.
Qed.

Lemma dict_set_twice (k : string) (v v0 : pyval) (d : list (string * pyval)) :
  dict_set k v (dict_set k v0 d) = dict_set k v d.
Proof.
  induction d as [|[k' v'] rest IH]; simpl.
  - now rewrite String.eqb_refl.
  - destruct (k' =? k)%string eqn:E; simpl; rewrite E; [reflexivity | now rewrite IH].
Qed.

Lemma say_nothing (w : world) : say w [] = w.
Proof. destruct w; unfold say; simpl. now rewrite app_nil_r. Qed.

Lemma say_say (w : world) (l1 l2 : list line) : say (say w l1) l2 = say w (l1 ++ l2).
Proof. unfold say; simpl. now rewrite app_assoc. Qed.

End Facts.

(** ** Paths *)

Module PathFacts.
Import Posixpath.




Lemma has_slash_append (a b : string) :
  has_slash (a ++ b) = has_slash a || has_slash b.
Proof.
  induction a as [|c r IH]; cbn; [reflexivity|]. now rewrite IH, orb_assoc.
Qed.



End PathFacts.

(** ** The image reference rewriter *)

Module RewriterFacts.
Import Python IO Doc Facts Shared.

(** One turn of the loop on a service specification. *)
Lemma update_service_spec (p : string) (T : pyval) (name : string) (cfg : pyval)
  (w : world) :
  service_spec cfg = true ->
  update_service p T (name, cfg) w =
    if matches p cfg
    then (Ret (name, retag (py_str T) cfg), say w [updated_line (py_str T) name cfg])
    else (Ret (name, cfg), w).
Proof.
  unfold service_spec, matches, image_of, update_service, updated_line, retag.
  destruct cfg as [| | | |?|c]; try discriminate.
  cbn [py_in py_getitem]. run.
  destruct (dict_get "image" c) as [[| | |image|?|?]|] eqn:G; try discriminate; intros _.
  - run. cbn [py_lower]. run.
    destruct (contains (lower p) (lower image)); [|reflexivity].
    run. cbn [py_split_colon_first py_setitem image_of]. run.
    rewrite dict_get_set_same. reflexivity.
  - reflexivity.
Qed.

(** A second turn on an entry the loop has been through changes nothing. *)
Lemma update_service_again (p : string) (T : pyval) (item item' : string * pyval)
  (w w' w2 : world) :
  update_service p T item w = (Ret item', w') ->
  fst (update_service p T item' w2) = Ret item'.
Proof.
  destruct item as [name cfg].
  unfold update_service.
  destruct cfg as [| | |s|l|c]; cbn [py_in py_getitem fst snd]; run;
    try discriminate.
  - destruct (contains "image" s) eqn:E; run; [discriminate | intros [= <- _]].
    cbn [py_in]. run. now rewrite E.
  - destruct (existsb _ l) eqn:E; run; [discriminate | intros [= <- _]].
    cbn [py_in]. run. now rewrite E.
  - destruct (dict_get "image" c) as [[| | |image|?|?]|] eqn:G; run;
      cbn [py_lower]; run; try discriminate.
    + destruct (contains (lower p) (lower image)) eqn:E; run.
      * cbn [py_split_colon_first py_setitem]. run. intros [= <- _].
        cbn [py_in py_getitem]. run. rewrite dict_get_set_same. run.
        cbn [py_lower]. run. clear E.
        destruct (contains (lower p) _); run; [|reflexivity].
        cbn [py_split_colon_first py_setitem]. run.
        rewrite split_colon_first_append by apply split_colon_first_has_no_colon.
        now rewrite dict_set_twice.
      * intros [= <- _]. cbn [py_in py_getitem]. run. rewrite G. run.
        cbn [py_lower]. run. now rewrite E.
    + intros [= <- _]. cbn [py_in py_getitem]. run. now rewrite G.
Qed.

Lemma for_each_update_service_spec (p : string) (T : pyval)
  (items : list (string * pyval)) (w : world) :
  forallb (fun item => service_spec (snd item)) items = true ->
  for_each (update_service p T) items w =
    (Ret (map (retag_item p (py_str T)) items),
     say w (updated_lines p (py_str T) items)).
Proof.
  revert w. induction items as [|[name cfg] rest IH]; intros w; cbn [forallb snd].
  - intros _. cbn. now rewrite say_nothing.
  - intros [Hc Hr]%andb_prop.
    cbn [for_each]. run.
    rewrite (update_service_spec p T name cfg w Hc).
    unfold updated_lines, retag_item. cbn [map filter fst snd].
    destruct (matches p cfg); rewrite IH by exact Hr; cbn [map].
    + now rewrite say_say.
    + reflexivity.
Qed.

Lemma for_each_update_service_again (p : string) (T : pyval)
  (items items' : list (string * pyval)) (w w' : world) :
  for_each (update_service p T) items w = (Ret items', w') ->
  forall w2, fst (for_each (update_service p T) items' w2) = Ret items'.
Proof.
  revert items' w w'.
  induction items as [|item rest IH]; intros items' w w'; cbn [for_each]; run.
  - now intros [= <- _] w2.
  - destruct (update_service p T item w) as [[item1| |] w1] eqn:E1; try discriminate.
    destruct (for_each (update_service p T) rest w1) as [[rest1| |] w3] eqn:E2;
      try discriminate.
    intros [= <- _] w2. cbn [for_each]. run.
    pose proof (update_service_again p T item item1 w w1 w2 E1) as A.
    destruct (update_service p T item1 w2) as [o w4]. cbn [fst] in A. subst o.
    pose proof (IH rest1 w1 w3 E2 w4) as B.
    destruct (for_each (update_service p T) rest1 w4) as [o w5]. cbn [fst] in B.
    now subst o.
Qed.

End RewriterFacts.

Module Rewriter.
Import Python IO Doc Facts Shared RewriterFacts.

(** The rewriter on a composition document, when the three control inputs
    are there: it returns, having rewritten every service under
    ['services'] as [retag_item] says and printed one line for each service
    the project path matches. *)
Lemma update_image_tags_spec (D : pyval) (r : option string) (p : string) (T : pyval)
  (w : world) :
  composition D = true -> present r = true -> present (Some p) = true ->
  truthy T = true ->
  update_image_tags D r (Some p) T w =
    (Ret (store_services D (map (retag_item p (py_str T)) (services D))),
     say w (updated_lines p (py_str T) (services D))).
Proof.
  intros HD Hr Hp HT. unfold update_image_tags. rewrite Hr, Hp, HT. cbn [negb orb].
  unfold composition in HD. unfold services.
  destruct D as [| | | |?|d]; try discriminate.
  cbn [py_get]. run.
  destruct (dict_get "services" d) as [[| | | |?|s]|] eqn:G; try discriminate.
  - cbn [py_items]. run.
    rewrite (for_each_update_service_spec p T s w HD). reflexivity.
  - cbn [py_items for_each map]. run. cbn. now rewrite say_nothing.
Qed.

Lemma services_store (D : pyval) (items : list (string * pyval)) :
  composition D = true ->
  services (store_services D items) =
    match entry "services" D with
    | Some _ => items
    | None => []
    end.
Proof.
  unfold composition, services, store_services, entry.
  destruct D as [| | | |?|d]; try discriminate.
  destruct (dict_get "services" d) as [[| | | |?|s]|] eqn:G; try discriminate; intros _.
  - now rewrite dict_get_set_same.
  - now rewrite G.
Qed.

(** C1.  The rewriter does not leave the repository of an image reference
    untouched when the reference names a registry port.  With the registry
    [registry.example.com:5000], the project path [myorg/app] and the tag
    [v2], the service whose reference is
    [registry.example.com:5000/myorg/app:old] (repository
    [registry.example.com:5000/myorg/app], tag [old]) is rewritten to
    [registry.example.com:v2]: the text is cut at the colon of the port, so
    the port and the path are lost with the tag. *)
Theorem update_image_tags_loses_the_port_and_the_path :
  Deploy.update_image_tags (Examples.doc_of "registry.example.com:5000/myorg/app:old")
    (Some "registry.example.com:5000") (Some "myorg/app") (PStr "v2")
    (Examples.world_with None [] Examples.accepted)
  = (Ret (Examples.doc_of "registry.example.com:v2"),
     say (Examples.world_with None [] Examples.accepted)
         [Say "Updated image for service {service_name}: {service_config['image']}"
              [PStr "web"; PStr "registry.example.com:v2"]])
  /\ repository "registry.example.com:5000/myorg/app:old"
     = "registry.example.com:5000/myorg/app"
  /\ tag_of "registry.example.com:5000/myorg/app:old" = Some "old"
  /\ repository "registry.example.com:v2" = "registry.example.com"
  /\ tag_of "registry.example.com:v2" = Some "v2".
Proof.
  split; [|repeat split].
  unfold Deploy.update_image_tags.
  rewrite (update_image_tags_spec
             (Examples.doc_of "registry.example.com:5000/myorg/app:old")
             (Some "registry.example.com:5000") "myorg/app" (PStr "v2")
             (Examples.world_with None [] Examples.accepted));
    reflexivity.
Qed.

(** C5.  Applying [update_image_tags] to its own result, with the same
    inputs, ends as the first application did: with the same document when
    that one returned a document. *)
Theorem update_image_tags_idempotent
  (D : pyval) (r p : option string) (T : pyval) (w : world) :
  fst ((D' <- Deploy.update_image_tags D r p T ;;
        Deploy.update_image_tags D' r p T) w)
  = fst (Deploy.update_image_tags D r p T w).
Proof.
  unfold Deploy.update_image_tags, update_image_tags.
  destruct (negb (present r) || negb (present p) || negb (truthy T)) eqn:Guard.
  - run. reflexivity.
  - run.
    destruct D as [| | | |?|d]; cbn [py_get]; run; try reflexivity.
    destruct (dict_get "services" d) as [[| | | |?|s]|] eqn:G;
      cbn [py_items]; run; try reflexivity.
    + set (q := match p with Some p0 => p0 | None => "" end).
      destruct (for_each (update_service q T) s w) as [[s'| |] w1] eqn:E;
        cbn [fst]; try reflexivity.
      cbn [store_services]. rewrite G. cbn [py_get]. run.
      rewrite dict_get_set_same. cbn [py_items]. run.
      pose proof (for_each_update_service_again q T s s' w w1 E w1) as A.
      destruct (for_each (update_service q T) s' w1) as [o w2]. cbn [fst] in A.
      subst o. cbn [fst store_services]. rewrite dict_get_set_same.
      now rewrite dict_set_twice.
    + cbn [for_each]. run. cbn [store_services]. rewrite G.
      cbn [py_get]. run. rewrite G. cbn [py_items for_each]. run.
      cbn [store_services fst]. now rewrite G.
Qed.

Lemma nth_error_retag_item (p tag : string) (items : list (string * pyval)) (i : nat)
  (name : string) (cfg : pyval) :
  nth_error items i = Some (name, cfg) ->
  nth_error (map (retag_item p tag) items) i
  = Some (name, if matches p cfg then retag tag cfg else cfg).
Proof.
  intros H. rewrite nth_error_map, H. reflexivity.
Qed.

(** C6.  A service the project path matches whose image reference has no
    colon is rewritten all the same: the whole reference is the repository
    and the new reference is the old one, a colon and the tag. *)
Theorem update_image_tags_tags_an_untagged_image
  (D : pyval) (r : option string) (p : string) (T : pyval) (w : world)
  (i : nat) (name : string) (c : list (string * pyval)) (image : string) :
  composition D = true -> present r = true -> present (Some p) = true ->
  truthy T = true ->
  nth_error (services D) i = Some (name, PDict c) ->
  dict_get "image" c = Some (PStr image) ->
  contains (lower p) (lower image) = true ->
  has_colon image = false ->
  exists D' w',
    Deploy.update_image_tags D r (Some p) T w = (Ret D', w')
    /\ repository image = image
    /\ nth_error (services D') i
       = Some (name, PDict (dict_set "image" (PStr (image ++ ":" ++ py_str T)) c)).
Proof.
  intros HD Hr Hp HT Hi Hc Hm Hn.
  eexists. eexists. split; [now apply update_image_tags_spec|].
  pose proof (split_colon_first_without_colon image Hn) as R.
  split; [now apply repository_without_colon|].
  rewrite services_store by exact HD.
  assert (exists s, entry "services" D = Some s) as [s Hs].
  { unfold services in Hi. unfold entry.
    destruct D as [| | | |?|d]; try (destruct i; discriminate).
    destruct (dict_get "services" d); [eauto | destruct i; discriminate]. }
  rewrite Hs. rewrite (nth_error_retag_item _ _ _ _ _ _ Hi).
  unfold matches, image_of, retag. rewrite Hc, Hm, R. reflexivity.
Qed.

Lemma tags_an_untagged_image_witness :
  exists D' w',
    Deploy.update_image_tags Examples.doc_untagged (Some "registry.example.com")
      (Some "myorg/app") (PStr "v2") (Examples.world_with None [] Examples.accepted)
    = (Ret D', w')
    /\ repository "registry.example.com/myorg/app" = "registry.example.com/myorg/app"
    /\ nth_error (services D') 0
       = Some ("web",
               PDict [("image", PStr "registry.example.com/myorg/app:v2");
                      ("ports", PList [PStr "80:80"])]).
Proof.
  apply (update_image_tags_tags_an_untagged_image
           Examples.doc_untagged (Some "registry.example.com") "myorg/app" (PStr "v2")
           (Examples.world_with None [] Examples.accepted) 0 "web"
           [("image", PStr "registry.example.com/myorg/app");
            ("ports", PList [PStr "80:80"])]
           "registry.example.com/myorg/app");
    reflexivity.
Defined.



End Rewriter.

(** ** What the functions leave alone *)

Module Frame.
Import Python IO Doc Facts Shared RewriterFacts.

Lemma quiet_ret {A} (a : A) : quiet (ret a).
Proof.
  intros w. split; [|discriminate]. exists []. cbn. now rewrite say_nothing.
Qed.

Lemma quiet_lift_never_exits {A} (o : outcome A) :
  (forall code, o <> Exit code) -> quiet (lift o).
Proof.
  intros N w. split; [|intros code E; now apply N in E].
  exists []. cbn. now rewrite say_nothing.
Qed.

Lemma quiet_raise {A} (e : exn) : quiet (@raise A e).
Proof.
  intros w. split; [|discriminate]. exists []. cbn. now rewrite say_nothing.
Qed.

Lemma quiet_sys_exit {A} : quiet (@sys_exit A 1).
Proof.
  intros w. split; [|now intros code [= <-]]. exists []. cbn. now rewrite say_nothing.
Qed.

Lemma quiet_print (l : line) : quiet (print l).
Proof. intros w. split; [|discriminate]. now exists [l]. Qed.

Lemma quiet_bind {A B} (c : M A) (k : A -> M B) :
  quiet c -> (forall a, quiet (k a)) -> quiet (bind c k).
Proof.
  intros Hc Hk w. cbn [bind Monad_M].
  destruct (Hc w) as [[l1 E1] X1].
  destruct (c w) as [[a| |] w1]; cbn [fst snd] in *; subst w1.
  - destruct (Hk a (say w l1)) as [[l2 E2] X2]. split; [|exact X2].
    exists (l1 ++ l2). now rewrite E2, say_say.
  - split; [now exists l1 | discriminate].
  - split; [now exists l1 | intros n [= <-]; now apply X1].
Qed.

Lemma quiet_try_except {A} (body : M A) (handler : exn -> M A) :
  quiet body -> (forall e, quiet (handler e)) -> quiet (try_except body handler).
Proof.
  intros Hb Hh w. unfold try_except.
  destruct (Hb w) as [[l1 E1] X1].
  destruct (body w) as [[a| |] w1]; cbn [fst snd] in *; subst w1.
  - split; [now exists l1 | discriminate].
  - destruct (Hh e (say w l1)) as [[l2 E2] X2]. split; [|exact X2].
    exists (l1 ++ l2). now rewrite E2, say_say.
  - split; [now exists l1 | exact X1].
Qed.

Lemma quiet_getenv (name default : string) : quiet (getenv name default).
Proof.
  intros w. split; [|discriminate]. exists []. cbn. now rewrite say_nothing.
Qed.

Lemma quiet_strftime : quiet strftime.
Proof.
  intros w. split; [|discriminate]. exists []. cbn. now rewrite say_nothing.
Qed.

Lemma quiet_path_exists (path : option string) : quiet (path_exists path).
Proof.
  intros w. unfold path_exists. split; [|now destruct path].
  exists []. rewrite say_nothing. now destruct path.
Qed.

Lemma quiet_yaml_load (path : option string) : quiet (yaml_load path).
Proof.
  intros w. unfold yaml_load. split.
  - exists []. rewrite say_nothing.
    destruct path as [p|]; [|reflexivity]. now destruct (fs w p) as [[]|].
  - destruct path as [p|]; [|discriminate]. now destruct (fs w p) as [[]|].
Qed.

Lemma quiet_json_load (path : string) : quiet (json_load path).
Proof.
  intros w. unfold json_load. split.
  - exists []. rewrite say_nothing. now destruct (fs w path) as [[]|].
  - now destruct (fs w path) as [[]|].
Qed.

Lemma quiet_makedirs (name : string) : quiet (makedirs name).
Proof.
  unfold makedirs. destruct (name =? "")%string;
    [apply quiet_raise | apply quiet_ret].
Qed.

Lemma quiet_if {A} (b : bool) (c1 c2 : M A) :
  quiet c1 -> quiet c2 -> quiet (if b then c1 else c2).
Proof. now destruct b. Qed.

Lemma never_exits_py_get (v : pyval) (k : string) (d : pyval) (code : Z) :
  py_get v k d <> Exit code.
Proof. destruct v; discriminate. Qed.

Lemma never_exits_py_items (v : pyval) (code : Z) : py_items v <> Exit code.
Proof. destruct v; discriminate. Qed.

Lemma never_exits_py_in (k : string) (v : pyval) (code : Z) : py_in k v <> Exit code.
Proof. destruct v; discriminate. Qed.

Lemma never_exits_py_getitem (v : pyval) (k : string) (code : Z) :
  py_getitem v k <> Exit code.
Proof. destruct v; try discriminate. cbn. now destruct (dict_get k entries). Qed.

Lemma never_exits_py_lower (v : pyval) (code : Z) : py_lower v <> Exit code.
Proof. destruct v; discriminate. Qed.

Lemma never_exits_py_split (v : pyval) (code : Z) : py_split_colon_first v <> Exit code.
Proof. destruct v; discriminate. Qed.

Lemma never_exits_py_setitem (v : pyval) (k : string) (x : pyval) (code : Z) :
  py_setitem v k x <> Exit code.
Proof. destruct v; discriminate. Qed.

Lemma never_exits_py_iter (v : pyval) (code : Z) : py_iter v <> Exit code.
Proof. destruct v; discriminate. Qed.

Lemma never_exits_find_stack (stacks : list pyval) (env_id : Z)
  (name : option string) (code : Z) :
  find_stack stacks env_id name <> Exit code.
Proof.
  induction stacks as [|s rest IH]; cbn [find_stack]; [discriminate|].
  destruct s; cbn [py_get bind Monad_outcome]; try discriminate.
  destruct (eq_str _ name); [|exact IH].
  destruct (eq_int _ env_id); [|exact IH].
  now destruct (dict_get "Id" entries).
Qed.

Ltac quiet_step :=
  first
    [ apply quiet_bind; [|intro]
    | apply quiet_try_except; [|intro]
    | apply quiet_if
    | apply quiet_ret | apply quiet_raise | apply quiet_sys_exit
    | apply quiet_lift_never_exits; intro;
      first [ apply never_exits_py_get | apply never_exits_py_items
            | apply never_exits_py_in | apply never_exits_py_getitem
            | apply never_exits_py_lower | apply never_exits_py_split
            | apply never_exits_py_setitem | apply never_exits_py_iter
            | apply never_exits_find_stack ]
    | apply quiet_print | apply quiet_getenv | apply quiet_strftime
    | apply quiet_path_exists | apply quiet_yaml_load | apply quiet_json_load
    | apply quiet_makedirs ].

Ltac quiet_auto := repeat quiet_step.

Lemma quiet_validate_args (u k n c : option string) : quiet (validate_args u k n c).
Proof.
  unfold validate_args. destruct (missing_arguments u k n c); quiet_auto.
Qed.

Lemma quiet_read_compose_file (path : option string) : quiet (read_compose_file path).
Proof. unfold read_compose_file. quiet_auto. Qed.

Lemma quiet_update_service (p : string) (T : pyval) (item : string * pyval) :
  quiet (update_service p T item).
Proof. unfold update_service. destruct item. quiet_auto. Qed.

Lemma quiet_for_each {A B} (body : A -> M B) (items : list A) :
  (forall x, quiet (body x)) -> quiet (for_each body items).
Proof.
  intros H. induction items as [|x rest IH]; cbn [for_each]; quiet_auto; auto.
Qed.

Lemma quiet_update_image_tags (D : pyval) (r p : option string) (T : pyval) :
  quiet (update_image_tags D r p T).
Proof.
  unfold update_image_tags. quiet_auto.
  apply quiet_for_each. intro. apply quiet_update_service.
Qed.

Lemma quiet_print_response (e : exn) : quiet (print_response e).
Proof. unfold print_response. destruct (exn_response e); quiet_auto. Qed.

(** [send] issues its call, whatever comes back. *)
Lemma snd_send (r : request) (w : world) : snd (send r w) = called w r.
Proof. unfold send. now destruct (network w (calls w) r). Qed.

Lemma urljoin_joins (base : option string) (path : string) (w : world) :
  url_refused w base = false -> urljoin base path w = (Ret (mkUrl base path), w).
Proof. unfold urljoin. now intros ->. Qed.

Lemma urljoin_raises (base : option string) (path : string) (w : world) :
  url_refused w base = true -> urljoin base path w = (Raise ValueError, w).
Proof. unfold urljoin. now intros ->. Qed.

(** A call that has a reply is a call that can be made. *)
Lemma server_not_sent (w : world) (history : list request) (r : request) :
  server w history r = Not_sent <-> url_refused w (url_base (target_of r)) = true.
Proof.
  unfold server. destruct (url_refused w (url_base (target_of r))).
  - now split.
  - destruct (network w history r); now split.
Qed.

Lemma server_answer (w : world) (history : list request) (r : request)
  (resp : response) :
  server w history r = Answer resp ->
  url_refused w (url_base (target_of r)) = false
  /\ network w history r = Responded resp.
Proof.
  unfold server. destruct (url_refused w (url_base (target_of r))); [discriminate|].
  destruct (network w history r); [|discriminate]. now intros [= ->].
Qed.

(** Printing leaves the API as it is. *)
Lemma server_say (w : world) (lines : list line) : server (say w lines) = server w.
Proof. reflexivity. Qed.

Lemma undisturbed_url_refused (w w' : world) (base : option string) :
  undisturbed w w' -> url_refused w' base = url_refused w base.
Proof. intros (_ & _ & _ & _ & R). unfold url_refused. now rewrite R. Qed.

(** See the reply to a call in the world [w] the run started from. *)
Ltac server_at w history :=
  match goal with
  | |- context [server ?x ?h ?r] =>
      progress change (server x h r) with (server w history r)
  end.

(** [send] on a call that can be made. *)
Lemma send_server (r : request) (w : world) :
  url_refused w (url_base (target_of r)) = false ->
  send r w =
    match server w (calls w) r with
    | Answer resp => (Ret resp, called w r)
    | Transport_error attached => (Raise (RequestException attached), called w r)
    | Not_sent => (Raise (RequestException None), called w r)
    end.
Proof.
  intros H. unfold send, server. rewrite H.
  now destruct (network w (calls w) r).
Qed.

(** A computation that starts with one call and prints from then on. *)
Lemma call_then_quiet {A} (r : request) (k : response -> M A)
  (handler : exn -> M A) (w : world) :
  (forall x, quiet (k x)) -> (forall e, quiet (handler e)) ->
  (exists lines,
     snd (try_except (bind (send r) k) handler w) = say (called w r) lines)
  /\ (forall code,
        fst (try_except (bind (send r) k) handler w) = Exit code -> code = 1).
Proof.
  intros Hk Hh. unfold try_except. cbn [bind Monad_M].
  pose proof (snd_send r w) as S.
  assert (forall code, fst (send r w) <> Exit code) as NX.
  { intro. unfold send. now destruct (network w (calls w) r). }
  destruct (send r w) as [[x| |] w1]; cbn [fst snd] in S, NX; subst w1.
  - destruct (Hk x (called w r)) as [[l E] X].
    destruct (k x (called w r)) as [[a| |] w2]; cbn [fst snd] in *; subst w2.
    + split; [now exists l | discriminate].
    + destruct (Hh e (say (called w r) l)) as [[l2 E2] X2]. split; [|exact X2].
      exists (l ++ l2). now rewrite E2, say_say.
    + split; [now exists l | exact X].
  - destruct (Hh e (called w r)) as [[l E] X]. split; [now exists l | exact X].
  - now destruct (NX code).
Qed.

End Frame.

(** ** The stack reconciler *)

Module ReconcilerFacts.
Import Python IO Doc Facts Shared Frame.


(** [get_stack_id] when its URL can be built, and when it cannot. *)
Lemma get_stack_id_joined (url key : option string) (env_id : Z)
  (name : option string) (w : world) :
  url_refused w url = false ->
  get_stack_id url key env_id name w =
    try_except
      (response <- send (list_stacks url key) ;;
       raise_for_status response ;;
       body <- response_json response ;;
       stacks <- lift (py_iter body) ;;
       lift (find_stack stacks env_id name))
      (fun e =>
         print (Say_exn "Error getting stack ID: {e}" e) ;;
         ret PNone) w.
Proof.
  intros H. unfold get_stack_id. cbn [bind Monad_M].
  now rewrite (urljoin_joins _ _ _ H).
Qed.

Lemma get_stack_id_refused (url key : option string) (env_id : Z)
  (name : option string) (w : world) :
  url_refused w url = true ->
  get_stack_id url key env_id name w = (Raise ValueError, w).
Proof.
  intros H. unfold get_stack_id. cbn [bind Monad_M].
  now rewrite (urljoin_raises _ _ _ H).
Qed.

(** With a URL that can be built, [get_stack_id] always returns, after
    exactly one call. *)
Lemma get_stack_id_returns (url key : option string) (env_id : Z)
  (name : option string) (w : world) :
  url_refused w url = false ->
  exists v lines,
    get_stack_id url key env_id name w
    = (Ret v, say (called w (list_stacks url key)) lines).
Proof.
  intros J. rewrite (get_stack_id_joined _ _ _ _ _ J).
  match goal with
  | |- context [try_except (bind (send ?r) ?k) ?h] =>
      destruct (call_then_quiet r k h w) as [[lines E] _]
  end.
  { intro. unfold raise_for_status, response_json.
    destruct (ok x); destruct (json_body x); quiet_auto. }
  { intro. quiet_auto. }
  fold (list_stacks url key) in *.
  match type of E with snd ?c = _ => destruct c as [o w1] eqn:R end.
  cbn [snd] in E. subst w1.
  assert (exists v, o = Ret v) as [v ->]; [|now exists v, lines].
  revert R. unfold try_except. run. rewrite (send_server (list_stacks url key) w J).
  destruct (server w (calls w) (list_stacks url key)) as [resp|att|].
  - unfold raise_for_status. destruct (ok resp); run;
      [|intros [= <- _]; eauto].
    unfold response_json. destruct (json_body resp) as [body|]; run;
      [|intros [= <- _]; eauto].
    destruct (py_iter body) as [stacks| |] eqn:P;
      [| |now apply never_exits_py_iter in P].
    + destruct (find_stack stacks env_id name) as [v| |] eqn:F;
        [| |now apply never_exits_find_stack in F]; intros [= <- _]; eauto.
    + intros [= <- _]; eauto.
  - intros [= <- _]; eauto.
  - intros [= <- _]; eauto.
Qed.

(** A lookup that returns had a URL that can be built. *)
Lemma get_stack_id_ret_joinable (url key : option string) (env_id : Z)
  (name : option string) (w : world) (v : pyval) :
  fst (get_stack_id url key env_id name w) = Ret v -> url_refused w url = false.
Proof.
  destruct (url_refused w url) eqn:J; [|reflexivity].
  now rewrite (get_stack_id_refused _ _ _ _ _ J).
Qed.

(** The value [get_stack_id] returns, from what the listing call yields. *)
Lemma get_stack_id_value (url key : option string) (env_id : Z)
  (name : option string) (w : world) :
  url_refused w url = false ->
  fst (get_stack_id url key env_id name w) =
    Ret (match listing w url key with
         | Some body =>
             match py_iter body with
             | Ret stacks =>
                 match find_stack stacks env_id name with
                 | Ret v => v
                 | _ => PNone
                 end
             | _ => PNone
             end
         | None => PNone
         end).
Proof.
  intros J. rewrite (get_stack_id_joined _ _ _ _ _ J).
  unfold listing, try_except. run. rewrite (send_server (list_stacks url key) w J).
  destruct (server w (calls w) (list_stacks url key)) as [resp|att|];
    [|reflexivity|reflexivity].
  unfold raise_for_status. destruct (ok resp); run; [|reflexivity].
  unfold response_json. destruct (json_body resp) as [body|]; run; [|reflexivity].
  destruct (py_iter body) as [stacks| |] eqn:P;
    [| reflexivity | now apply never_exits_py_iter in P].
  destruct (find_stack stacks env_id name) eqn:F;
    [reflexivity | reflexivity | now apply never_exits_find_stack in F].
Qed.

End ReconcilerFacts.

Module WriteFacts.
Import Python IO Doc Facts Shared Frame ReconcilerFacts.

(** [update_stack], by what its one call comes back with; it raises before
    any call when the URL cannot be built. *)
Lemma update_stack_spec (url key : option string) (id : pyval) (env_id : Z)
  (content : yaml_text) (prune pull : bool) (w : world) :
  update_stack url key id env_id content prune pull w =
    let r := update_call url key id content prune pull in
    match server w (calls w) r with
    | Answer resp =>
        if ok resp
        then (Ret true, say (called w r) [Say "Stack updated successfully!" []])
        else (Exit 1,
              say (called w r) [Say_exn "Error updating stack: {e}" (HTTPError resp)])
    | Transport_error attached =>
        (Exit 1,
         say (called w r)
             (Say_exn "Error updating stack: {e}" (RequestException attached)
              :: match attached with
                 | Some resp =>
                     if ok resp then [Say "Response: {e.response.text}" [PStr (text resp)]]
                     else []
                 | None => []
                 end))
    | Not_sent => (Raise ValueError, w)
    end.
Proof.
  cbv zeta. unfold update_stack. cbn [bind Monad_M].
  destruct (url_refused w url) eqn:J.
  - rewrite (urljoin_raises _ _ _ J).
    now rewrite (proj2 (server_not_sent w (calls w)
                          (update_call url key id content prune pull)) J).
  - rewrite (urljoin_joins _ _ _ J). unfold try_except. cbn [bind Monad_M].
    change (PUT (mkUrl url ("/api/stacks/" ++ py_str id)) key
                (mkUpdate content [] prune pull))
      with (update_call url key id content prune pull).
    rewrite (send_server (update_call url key id content prune pull) w J).
    destruct (server w (calls w) _) as [resp|att|] eqn:S.
    + unfold raise_for_status. destruct (ok resp) eqn:O; run.
      * reflexivity.
      * unfold print_response. cbn [exn_response]. rewrite O. run. reflexivity.
    + unfold print_response. cbn [exn_response].
      destruct att as [resp|]; run; [|reflexivity].
      destruct (ok resp); run; [|reflexivity].
      unfold say, called. cbn. now rewrite <- app_assoc.
    + apply server_not_sent in S. cbn in S. congruence.
Qed.

(** [create_stack], by what its one call comes back with; it raises before
    any call when the URL cannot be built. *)
Lemma create_stack_spec (url key : option string) (env_id : Z) (name : option string)
  (content : yaml_text) (prune pull : bool) (w : world) :
  Deploy.create_stack url key env_id name content prune pull w =
    let r := create_call url key env_id name content prune pull in
    let created := Say "Stack {stack_name} created successfully!" [of_opt name] in
    match server w (calls w) r with
    | Answer resp =>
        if ok resp
        then match json_body resp with
             | Some (PDict d) =>
                 (Ret (stack_id_of (PDict d)), say (called w r) [created])
             | Some _ =>
                 (Exit 1,
                  say (called w r)
                      [created; Say_exn "Error creating stack: {e}" AttributeError])
             | None =>
                 (Exit 1,
                  say (called w r)
                      [created; Say_exn "Error creating stack: {e}" JSONDecodeError])
             end
        else (Exit 1,
              say (called w r) [Say_exn "Error creating stack: {e}" (HTTPError resp)])
    | Transport_error attached =>
        (Exit 1,
         say (called w r)
             (Say_exn "Error creating stack: {e}" (RequestException attached)
              :: match attached with
                 | Some resp =>
                     if ok resp then [Say "Response: {e.response.text}" [PStr (text resp)]]
                     else []
                 | None => []
                 end))
    | Not_sent => (Raise ValueError, w)
    end.
Proof.
  cbv zeta. unfold Deploy.create_stack. cbn [bind Monad_M].
  destruct (url_refused w url) eqn:J.
  - rewrite (urljoin_raises _ _ _ J).
    now rewrite (proj2 (server_not_sent w (calls w)
                          (create_call url key env_id name content prune pull)) J).
  - rewrite (urljoin_joins _ _ _ J). unfold try_except. cbn [bind Monad_M].
    change (POST (mkUrl url "/api/stacks") key
                 (mkCreate name content env_id "" [] prune pull))
      with (create_call url key env_id name content prune pull).
    rewrite (send_server (create_call url key env_id name content prune pull) w J).
    destruct (server w (calls w) _) as [resp|att|] eqn:S.
    + unfold raise_for_status. destruct (ok resp) eqn:O; run.
      * unfold response_json.
        destruct (json_body resp) as [[| | | |?|d]|]; run; cbn [py_get];
          unfold print_response; cbn [exn_response]; run;
          unfold say, called; cbn; rewrite <- ?app_assoc; reflexivity.
      * unfold print_response. cbn [exn_response]. rewrite O. run. reflexivity.
    + unfold print_response. cbn [exn_response].
      destruct att as [resp|]; run; [|reflexivity].
      destruct (ok resp); run; [|reflexivity].
      unfold say, called. cbn. now rewrite <- app_assoc.
    + apply server_not_sent in S. cbn in S. congruence.
Qed.

(** [create_stack] on an error status. *)
Lemma create_stack_error (url key : option string) (env_id : Z) (name : option string)
  (content : yaml_text) (prune pull : bool) (w : world) (resp : response) :
  server w (calls w) (create_call url key env_id name content prune pull) = Answer resp ->
  error_status resp = true ->
  Deploy.create_stack url key env_id name content prune pull w =
    (Exit 1,
     say (called w (create_call url key env_id name content prune pull))
         [Say_exn "Error creating stack: {e}" (HTTPError resp)]).
Proof.
  intros S E. rewrite create_stack_spec. cbv zeta. rewrite S.
  unfold ok. now rewrite E.
Qed.

(** A write call whose URL can be built is issued. *)
Lemma update_stack_calls (url key : option string) (id : pyval) (env_id : Z)
  (content : yaml_text) (prune pull : bool) (w : world) :
  url_refused w url = false ->
  calls (snd (update_stack url key id env_id content prune pull w))
  = calls w ++ [update_call url key id content prune pull].
Proof.
  intros J. rewrite update_stack_spec. cbv zeta.
  destruct (server w (calls w) _) as [resp|att|] eqn:S;
    [destruct (ok resp)| |]; try reflexivity.
  apply server_not_sent in S. cbn in S. congruence.
Qed.

Lemma create_stack_calls (url key : option string) (env_id : Z) (name : option string)
  (content : yaml_text) (prune pull : bool) (w : world) :
  url_refused w url = false ->
  calls (snd (Deploy.create_stack url key env_id name content prune pull w))
  = calls w ++ [create_call url key env_id name content prune pull].
Proof.
  intros J. rewrite create_stack_spec. cbv zeta.
  destruct (server w (calls w) _) as [resp|att|] eqn:S;
    [destruct (ok resp); [destruct (json_body resp) as [[| | | |?|?]|]|]| |];
    try reflexivity.
  apply server_not_sent in S. cbn in S. congruence.
Qed.

End WriteFacts.

Module Reconciler.
Import Python IO Doc Facts Shared Frame ReconcilerFacts WriteFacts.



(** What [reconcile] does after the lookup. *)
Lemma reconcile_calls (a : Deploy.args) (content : yaml_text) (w : world)
  (v : pyval) (lines : list line) :
  Deploy.get_stack_id (Deploy.portainer_url a) (Deploy.api_key a) (Deploy.env_id a)
                      (Deploy.stack_name a) w
  = (Ret v, say (called w (list_stacks (Deploy.portainer_url a) (Deploy.api_key a))) lines) ->
  calls (snd (Deploy.reconcile a content w)) =
    calls w
    ++ [list_stacks (Deploy.portainer_url a) (Deploy.api_key a);
        if truthy v
        then update_call (Deploy.portainer_url a) (Deploy.api_key a) v content
                         (Deploy.prune a) (Deploy.pull a)
        else create_call (Deploy.portainer_url a) (Deploy.api_key a) (Deploy.env_id a)
                         (Deploy.stack_name a) content (Deploy.prune a) (Deploy.pull a)].
Proof.
  intros E.
  assert (url_refused w (Deploy.portainer_url a) = false) as J.
  { apply (get_stack_id_ret_joinable _ (Deploy.api_key a) (Deploy.env_id a)
             (Deploy.stack_name a) w v).
    unfold Deploy.get_stack_id in E. now rewrite E. }
  unfold Deploy.reconcile. run. rewrite E.
  destruct (truthy v); run.
  - match goal with
    | |- context [Deploy.update_stack ?u ?k ?i ?e ?c ?p ?q ?w0] =>
        pose proof (update_stack_calls u k i e c p q w0 J) as C;
        unfold Deploy.update_stack;
        destruct (update_stack u k i e c p q w0) as [[x| |] w2];
        cbn [snd] in C |- *; rewrite C
    end; cbn; now rewrite <- app_assoc.
  - match goal with
    | |- context [Deploy.create_stack ?u ?k ?e ?n ?c ?p ?q ?w0] =>
        pose proof (create_stack_calls u k e n c p q w0 J) as C;
        destruct (Deploy.create_stack u k e n c p q w0) as [[x| |] w2];
        cbn [snd] in C |- *; rewrite C
    end; cbn; now rewrite <- app_assoc.
Qed.

(** In one reconcile ([main], lines 191 to 206), after the listing call of
    the lookup exactly one more call is issued: when the lookup returned no
    identifier, the create call for the stack name and environment id, and
    no update call; when it returned an identifier that is truthy (an
    integer other than 0), the update call against that identifier, and no
    create call. *)
Lemma reconcile_creates_or_updates
  (a : Deploy.args) (content : yaml_text) (w : world) (v : pyval) :
  fst (Deploy.get_stack_id (Deploy.portainer_url a) (Deploy.api_key a) (Deploy.env_id a)
                           (Deploy.stack_name a) w) = Ret v ->
  (v = PNone ->
   calls (snd (Deploy.reconcile a content w)) =
     calls w
     ++ [list_stacks (Deploy.portainer_url a) (Deploy.api_key a);
         create_call (Deploy.portainer_url a) (Deploy.api_key a) (Deploy.env_id a)
                     (Deploy.stack_name a) content (Deploy.prune a) (Deploy.pull a)])
  /\ (truthy v = true ->
      calls (snd (Deploy.reconcile a content w)) =
        calls w
        ++ [list_stacks (Deploy.portainer_url a) (Deploy.api_key a);
            update_call (Deploy.portainer_url a) (Deploy.api_key a) v content
                        (Deploy.prune a) (Deploy.pull a)]).
Proof.
  intros V.
  pose proof (get_stack_id_ret_joinable _ _ _ _ _ _ V) as J.
  destruct (get_stack_id_returns (Deploy.portainer_url a) (Deploy.api_key a)
              (Deploy.env_id a) (Deploy.stack_name a) w J) as (v' & lines & E).
  unfold Deploy.get_stack_id in V. rewrite E in V. cbn [fst] in V.
  injection V as ->.
  pose proof (reconcile_calls a content w v lines E) as C.
  split.
  - intros ->. exact C.
  - intros Tv. now rewrite Tv in C.
Qed.

Lemma reconcile_creates_or_updates_at_examples :
  calls (snd (Deploy.reconcile Examples.deploy_args (yaml_dump Examples.doc_tagged)
                (Examples.world_with None [] Examples.accepted)))
  = [list_stacks Examples.portainer (Some "key");
     create_call Examples.portainer (Some "key") 1 (Some "qa-stack")
                 (yaml_dump Examples.doc_tagged) false true]
  /\ calls (snd (Deploy.reconcile Examples.deploy_args (yaml_dump Examples.doc_tagged)
                   (Examples.world_with None Examples.listed Examples.accepted)))
     = [list_stacks Examples.portainer (Some "key");
        update_call Examples.portainer (Some "key") (PInt 7)
                    (yaml_dump Examples.doc_tagged) false true].
Proof.
  split.
  - apply (reconcile_creates_or_updates Examples.deploy_args
             (yaml_dump Examples.doc_tagged)
             (Examples.world_with None [] Examples.accepted) PNone);
      reflexivity.
  - apply (reconcile_creates_or_updates Examples.deploy_args
             (yaml_dump Examples.doc_tagged)
             (Examples.world_with None Examples.listed Examples.accepted) (PInt 7));
      reflexivity.
Qed.

(** C2.  A reconcile whose lookup returns the identifier 0 issues a create
    call and no update call: the API lists the stack [qa-stack] of
    environment 1 with [Id] 0, the lookup returns that identifier, and
    [main], which tests the identifier by its truth value, prints that it
    creates a new stack and issues the create call. *)
Theorem reconcile_creates_when_the_identifier_is_zero :
  fst (Deploy.get_stack_id Examples.portainer (Some "key") 1 (Some "qa-stack")
         (Examples.world_with None [Examples.stack "qa-stack" 1 0] Examples.accepted))
  = Ret (PInt 0)
  /\ calls (snd (Deploy.reconcile Examples.deploy_args (yaml_dump Examples.doc_tagged)
                   (Examples.world_with None [Examples.stack "qa-stack" 1 0]
                                        Examples.accepted)))
     = [list_stacks Examples.portainer (Some "key");
        create_call Examples.portainer (Some "key") 1 (Some "qa-stack")
                    (yaml_dump Examples.doc_tagged) false true]
  /\ stdout (snd (Deploy.reconcile Examples.deploy_args (yaml_dump Examples.doc_tagged)
                    (Examples.world_with None [Examples.stack "qa-stack" 1 0]
                                         Examples.accepted)))
     = [Say "Creating new stack {args.stack_name}..." [PStr "qa-stack"];
        Say "Stack {stack_name} created successfully!" [PStr "qa-stack"]].
Proof.
  assert (Deploy.get_stack_id Examples.portainer (Some "key") 1 (Some "qa-stack")
            (Examples.world_with None [Examples.stack "qa-stack" 1 0] Examples.accepted)
          = (Ret (PInt 0),
             say (called (Examples.world_with None [Examples.stack "qa-stack" 1 0]
                                              Examples.accepted)
                         (list_stacks Examples.portainer (Some "key"))) []))
    as E by reflexivity.
  split; [now rewrite E|].
  split.
  - now rewrite (reconcile_calls Examples.deploy_args (yaml_dump Examples.doc_tagged)
                   _ (PInt 0) [] E).
  - reflexivity.
Qed.

End Reconciler.

(** ** The previous-tag resolver *)

Module ResolverFacts.
Import Python IO Doc Facts Shared Frame.

Lemma read_artifact_tag_value (a : Rollback.args) (w : world) :
  fst (Rollback.read_artifact_tag a w) = Ret (artifact_tag w (Rollback.artifact_path a)).
Proof.
  unfold Rollback.read_artifact_tag, artifact_tag, try_except, path_exists, json_load.
  run.
  destruct (fs w (Rollback.artifact_path a)) as [[|y|v]|] eqn:F;
    cbv beta iota; rewrite ?F; try reflexivity.
  destruct v as [| | | |?|d]; cbn [py_get]; run; try reflexivity.
  destruct (dict_get "last_successful_tag" d) as [tag|]; [|reflexivity].
  destruct (truthy tag); reflexivity.
Qed.

Lemma quiet_read_artifact_tag (a : Rollback.args) : quiet (Rollback.read_artifact_tag a).
Proof. unfold Rollback.read_artifact_tag. quiet_auto. Qed.

Lemma quiet_get_previous_tag (a : Rollback.args) : quiet (Rollback.get_previous_tag a).
Proof.
  unfold Rollback.get_previous_tag. apply quiet_if; [quiet_auto|].
  apply quiet_bind; [apply quiet_read_artifact_tag|].
  intros [tag|]; quiet_auto.
Qed.

Lemma append_latest_nonempty (b : string) : ((b ++ "-latest")%string =? "")%string = false.
Proof. now destruct b. Qed.

(** The tag the resolver settles on. *)
Lemma get_previous_tag_value (a : Rollback.args) (w : world) :
  fst (Rollback.get_previous_tag a w) =
    Ret (resolved_tag (Rollback.previous_tag a) (Rollback.artifact_path a) w).
Proof.
  unfold Rollback.get_previous_tag, resolved_tag.
  destruct (present (Rollback.previous_tag a)); [reflexivity|].
  run.
  pose proof (read_artifact_tag_value a w) as V.
  destruct (quiet_read_artifact_tag a w) as [[l Q] _].
  destruct (Rollback.read_artifact_tag a w) as [o w1]. cbn [fst snd] in V, Q.
  subst o w1.
  destruct (artifact_tag w (Rollback.artifact_path a)) as [tag|]; [reflexivity|].
  unfold Rollback.query_previous_tag_from_registry, getenv, branch. run.
  cbn [truthy environ say]. now rewrite append_latest_nonempty.
Qed.

End ResolverFacts.

Module Resolver.
Import Python IO Doc Facts Shared Frame ResolverFacts.

(** C3.  [get_previous_tag] always returns a tag, and a non-empty one, so
    the fatal exit at its end is never taken.  A tag given by the caller is
    the result; without one, a non-empty [last_successful_tag] of the
    artifact file is the result; without that either, the result is the
    branch name, ["main"] by default, followed by ["-latest"]. *)
Theorem get_previous_tag_follows_the_chain (a : Rollback.args) (w : world) :
  (exists tag, fst (Rollback.get_previous_tag a w) = Ret tag /\ truthy tag = true)
  /\ (forall t, Rollback.previous_tag a = Some t -> t <> "" ->
        fst (Rollback.get_previous_tag a w) = Ret (PStr t))
  /\ (forall tag, present (Rollback.previous_tag a) = false ->
        artifact_tag w (Rollback.artifact_path a) = Some tag ->
        fst (Rollback.get_previous_tag a w) = Ret tag)
  /\ (present (Rollback.previous_tag a) = false ->
      artifact_tag w (Rollback.artifact_path a) = None ->
      fst (Rollback.get_previous_tag a w) = Ret (PStr (branch w ++ "-latest"))
      /\ (environ w "CI_COMMIT_REF_NAME" = None -> branch w = "main")).
Proof.
  rewrite get_previous_tag_value. unfold resolved_tag. split; [|split; [|split]].
  - eexists. split; [reflexivity|].
    destruct (present (Rollback.previous_tag a)) eqn:P; [exact P|].
    unfold artifact_tag.
    destruct (fs w (Rollback.artifact_path a)) as [[|?|[| | | |?|d]]|];
      cbn [truthy]; try now rewrite append_latest_nonempty.
    destruct (dict_get "last_successful_tag" d) as [tag|];
      [destruct (truthy tag) eqn:Tt; [exact Tt|]|];
      cbn [truthy]; now rewrite append_latest_nonempty.
  - intros t -> N. unfold present. cbn [of_opt truthy].
    destruct (String.eqb_spec t ""); [contradiction | reflexivity].
  - intros tag -> ->. reflexivity.
  - intros -> ->. split; [reflexivity|]. unfold branch. now intros ->.
Qed.

Lemma get_previous_tag_follows_the_chain_witness :
  fst (Rollback.get_previous_tag (Examples.rollback_args (Some "v1"))
         (Examples.world_with None [] Examples.accepted))
  = Ret (PStr "v1")
  /\ fst (Rollback.get_previous_tag (Examples.rollback_args None)
            (Examples.world_with None [] Examples.accepted))
     = Ret (PStr "release/2.0-latest").
Proof.
  split.
  - apply (proj1 (proj2 (get_previous_tag_follows_the_chain
                           (Examples.rollback_args (Some "v1"))
                           (Examples.world_with None [] Examples.accepted))));
      [reflexivity | discriminate].
  - apply (proj2 (proj2 (proj2 (get_previous_tag_follows_the_chain
                                  (Examples.rollback_args None)
                                  (Examples.world_with None [] Examples.accepted)))));
      reflexivity.
Defined.

End Resolver.

(** ** The rollback flow *)

Module RollbackFacts.
Import Python IO Doc Facts Shared Frame ReconcilerFacts WriteFacts ResolverFacts.

(** The recorder appends to a history it can read, when the history file
    has a directory to be in. *)
Lemma record_rollback_writes (a : Rollback.args) (tag : pyval) (w : world)
  (records : list pyval) :
  prior_records (fs w) (Rollback.rollback_log_path a) = Some records ->
  Posixpath.dirname (Rollback.rollback_log_path a) <> "" ->
  Rollback.record_rollback a tag w =
    (Ret tt,
     written w (Rollback.rollback_log_path a)
       (Json (PList (records
                     ++ [Rollback.rollback_record (now w) (Rollback.stack_name a)
                           (environment_label (environ w)) tag])))).
Proof.
  unfold prior_records, Rollback.record_rollback, try_except, path_exists, json_load,
    strftime, getenv, makedirs, json_dump, written, environment_label.
  intros P N. run. cbv zeta.
  destruct (String.eqb_spec (Posixpath.dirname (Rollback.rollback_log_path a)) "")
    as [E|_]; [contradiction|].
  destruct (fs w (Rollback.rollback_log_path a)) as [[|?|[| | | |h|?]]|] eqn:F;
    try discriminate; cbv beta iota; rewrite ?F; injection P as <-;
    cbn [Rollback.py_append]; run; reflexivity.
Qed.

(** Otherwise it warns and leaves the files alone. *)
Lemma record_rollback_skips (a : Rollback.args) (tag : pyval) (w : world) :
  prior_records (fs w) (Rollback.rollback_log_path a) = None
  \/ Posixpath.dirname (Rollback.rollback_log_path a) = "" ->
  exists e,
    Rollback.record_rollback a tag w =
      (Ret tt, say w [Say_exn "Warning: Could not record rollback history: {e}" e]).
Proof.
  unfold prior_records, Rollback.record_rollback, try_except, path_exists, json_load,
    strftime, getenv, makedirs, json_dump.
  intros H. run. cbv zeta.
  destruct (fs w (Rollback.rollback_log_path a)) as [[|?|v]|] eqn:F;
    cbv beta iota; rewrite ?F.
  - eexists; reflexivity.
  - eexists; reflexivity.
  - destruct v as [| | | |h|?]; cbn [Rollback.py_append]; run;
      try (eexists; reflexivity).
    destruct H as [H|H]; [discriminate|]. rewrite H. eexists; reflexivity.
  - destruct H as [H|H]; [discriminate|]. rewrite H. cbn [Rollback.py_append]. run.
    eexists; reflexivity.
Qed.

Lemma record_rollback_returns (a : Rollback.args) (tag : pyval) (w : world) :
  fst (Rollback.record_rollback a tag w) = Ret tt
  /\ calls (snd (Rollback.record_rollback a tag w)) = calls w
  /\ environ (snd (Rollback.record_rollback a tag w)) = environ w.
Proof.
  destruct (prior_records (fs w) (Rollback.rollback_log_path a)) as [h|] eqn:P.
  - destruct (String.eqb_spec (Posixpath.dirname (Rollback.rollback_log_path a)) "")
      as [E|N].
    + destruct (record_rollback_skips a tag w (or_intror E)) as [e ->]. now cbn.
    + rewrite (record_rollback_writes a tag w h P N). now cbn.
  - destruct (record_rollback_skips a tag w (or_introl P)) as [e ->]. now cbn.
Qed.

(** How a run of [main] goes: it stops before any call, with status 1; or
    it looks the stack up, finds none and exits with status 1; or it finds
    one and goes on, from a world with the same files, to update it and
    record the rollback.  It stops before any call on an argument or a
    compose file it cannot use, on an exception of the rewriter, and on a
    base URL that [urljoin] refuses. *)
Lemma rollback_main_run (a : Rollback.args) (w : world) :
  let lookup := list_stacks (Rollback.portainer_url a) (Rollback.api_key a) in
  (exit_status (fst (Rollback.main a w)) = 1
   /\ fs (snd (Rollback.main a w)) = fs w
   /\ calls (snd (Rollback.main a w)) = calls w)
  \/ (fst (Rollback.main a w) = Exit 1
      /\ fs (snd (Rollback.main a w)) = fs w
      /\ calls (snd (Rollback.main a w)) = calls w ++ [lookup])
  \/ (exists id D w1,
        truthy id = true
        /\ undisturbed w w1
        /\ calls w1 = calls w ++ [lookup]
        /\ Rollback.main a w =
             (Rollback.update_stack (Rollback.portainer_url a) (Rollback.api_key a) id
                (Rollback.env_id a) (yaml_dump D) Rollback.default_prune true ;;
              print (Say "Rollback completed successfully!" []) ;;
              Rollback.record_rollback a
                (resolved_tag (Rollback.previous_tag a) (Rollback.artifact_path a) w))
               w1
        /\ url_refused w1 (Rollback.portainer_url a) = false).
Proof.
  cbv zeta. unfold Rollback.main. run.
  unfold Rollback.validate_args.
  destruct (quiet_validate_args (Rollback.portainer_url a) (Rollback.api_key a)
              (Rollback.stack_name a) (Rollback.compose_file a) w) as [[l0 Q0] X0].
  destruct (validate_args _ _ _ _ w) as [[[]| |] w0]; cbn [fst snd] in Q0, X0; subst w0;
    [|left; now cbn|left; cbn; now rewrite (X0 code)].
  pose proof (get_previous_tag_value a (say w l0)) as V.
  destruct (quiet_get_previous_tag a (say w l0)) as [[l1 Q1] _].
  destruct (Rollback.get_previous_tag a (say w l0)) as [o1 w1].
  cbn [fst snd] in V, Q1. subst o1 w1.
  change (resolved_tag (Rollback.previous_tag a) (Rollback.artifact_path a) (say w l0))
    with (resolved_tag (Rollback.previous_tag a) (Rollback.artifact_path a) w).
  set (tag := resolved_tag _ _ w).
  unfold Rollback.read_compose_file.
  destruct (quiet_read_compose_file (Rollback.compose_file a) (say (say w l0) l1))
    as [[l2 Q2] X2].
  destruct (read_compose_file _ _) as [[D| |] w2]; cbn [fst snd] in Q2, X2; subst w2;
    [|left; now cbn|left; cbn; now rewrite (X2 code)].
  unfold Rollback.update_image_tags.
  destruct (quiet_update_image_tags D (Rollback.registry_url a) (Rollback.project_path a)
              tag (say (say (say w l0) l1) l2)) as [[l3 Q3] X3].
  destruct (update_image_tags _ _ _ _ _) as [[D'| |] w3]; cbn [fst snd] in Q3, X3;
    subst w3; [|left; now cbn|left; cbn; now rewrite (X3 code)].
  unfold Rollback.get_stack_id.
  destruct (url_refused (say (say (say (say w l0) l1) l2) l3)
              (Rollback.portainer_url a)) eqn:J.
  { rewrite (get_stack_id_refused _ _ _ _ _ J). left. now cbn. }
  destruct (get_stack_id_returns (Rollback.portainer_url a) (Rollback.api_key a)
              (Rollback.env_id a) (Rollback.stack_name a)
              (say (say (say (say w l0) l1) l2) l3) J) as (id & l4 & ->).
  destruct (truthy id) eqn:Tid; cbn [negb]; run.
  - right. right. eexists id, D', _. split; [exact Tid|].
    split; [|split; [|split; [reflexivity|exact J]]].
    + now repeat split.
    + reflexivity.
  - right. left. now cbn.
Qed.

(** The last part of a run that found the stack, by what the API answers
    to the update call. *)
Lemma update_then_record (url key : option string) (id : pyval) (env_id : Z)
  (content : yaml_text) (a : Rollback.args) (tag : pyval) (w1 : world) :
  let put := update_call url key id content Rollback.default_prune true in
  let run :=
    (Rollback.update_stack url key id env_id content Rollback.default_prune true ;;
     print (Say "Rollback completed successfully!" []) ;;
     Rollback.record_rollback a tag) w1 in
  url_refused w1 url = false ->
  calls (snd run) = calls w1 ++ [put]
  /\ match server w1 (calls w1) put with
     | Answer resp =>
         if ok resp
         then exists w2,
                undisturbed w1 w2
                /\ run = Rollback.record_rollback a tag w2
         else fst run = Exit 1 /\ fs (snd run) = fs w1
     | Transport_error _ => fst run = Exit 1 /\ fs (snd run) = fs w1
     | Not_sent => False
     end.
Proof.
  cbv zeta. intros J. run. unfold Rollback.update_stack. rewrite update_stack_spec.
  cbv zeta.
  destruct (server w1 (calls w1) _) as [resp|att|] eqn:S; [destruct (ok resp)| |];
    [| | |apply server_not_sent in S; cbn in S; congruence].
  - split.
    + match goal with
      | |- context [Rollback.record_rollback a tag ?w2] =>
          destruct (record_rollback_returns a tag w2) as (_ & C & _); rewrite C
      end.
      reflexivity.
    + eexists. split; [|reflexivity]. now repeat split.
  - now cbn.
  - now cbn.
Qed.

End RollbackFacts.

Module RollbackFlow.
Import Python IO Doc Facts PathFacts Shared Frame ReconcilerFacts WriteFacts
  ResolverFacts RollbackFacts.

(** A rollback that finds its stack: the update call it issues. *)
Example rollback_update_call :
  calls (snd (Rollback.main (Examples.rollback_args (Some "v1"))
                (Examples.world_with None Examples.listed Examples.accepted)))
  = [list_stacks Examples.portainer (Some "key");
     update_call Examples.portainer (Some "key") (PInt 7)
       (yaml_dump (Examples.doc_of "registry.example.com/myorg/app:v1"))
       false true].
Proof. reflexivity. Qed.








End RollbackFlow.

(** ** Failed writes to the registry *)

Module DeployFacts.
Import Python IO Doc Facts Shared Frame ReconcilerFacts WriteFacts.

Lemma quiet_prepare (a : Deploy.args) : quiet (Deploy.prepare a).
Proof.
  unfold Deploy.prepare. apply quiet_bind; [apply quiet_read_compose_file|].
  intro. apply quiet_if; [apply quiet_update_image_tags | apply quiet_ret].
Qed.

(** How a run of the deploy [main] goes: it stops before any call, with
    status 1, or it reconciles a document from a world with the same files
    and no call yet. *)
Lemma deploy_main_run (a : Deploy.args) (w : world) :
  (exit_status (fst (Deploy.main a w)) = 1
   /\ calls (snd (Deploy.main a w)) = calls w)
  \/ (exists D w1,
        undisturbed w w1
        /\ calls w1 = calls w
        /\ Deploy.main a w =
             (Deploy.reconcile a (yaml_dump D) ;;
              print (Say "Deployment completed successfully!" [])) w1).
Proof.
  unfold Deploy.main. run. unfold Deploy.validate_args.
  destruct (quiet_validate_args (Deploy.portainer_url a) (Deploy.api_key a)
              (Deploy.stack_name a) (Deploy.compose_file a) w) as [[l0 Q0] X0].
  destruct (validate_args _ _ _ _ w) as [[[]| |] w0]; cbn [fst snd] in Q0, X0; subst w0;
    [|left; now cbn|left; cbn; now rewrite (X0 code)].
  destruct (quiet_prepare a (say w l0)) as [[l1 Q1] X1].
  destruct (Deploy.prepare a (say w l0)) as [[D| |] w1]; cbn [fst snd] in Q1, X1; subst w1;
    [|left; now cbn|left; cbn; now rewrite (X1 code)].
  right. exists D. eexists. split; [|split; [|reflexivity]].
  - now repeat split.
  - reflexivity.
Qed.

(** The end of a reconcile whose second call is answered with an error
    status. *)
Lemma reconcile_error (a : Deploy.args) (content : yaml_text) (w : world)
  (v : pyval) (lines : list line) (resp : response) :
  let lookup := list_stacks (Deploy.portainer_url a) (Deploy.api_key a) in
  let write :=
    if truthy v
    then update_call (Deploy.portainer_url a) (Deploy.api_key a) v content
                     (Deploy.prune a) (Deploy.pull a)
    else create_call (Deploy.portainer_url a) (Deploy.api_key a) (Deploy.env_id a)
                     (Deploy.stack_name a) content (Deploy.prune a) (Deploy.pull a) in
  Deploy.get_stack_id (Deploy.portainer_url a) (Deploy.api_key a) (Deploy.env_id a)
                      (Deploy.stack_name a) w
  = (Ret v, say (called w lookup) lines) ->
  server w (calls w ++ [lookup]) write = Answer resp ->
  error_status resp = true ->
  fst (Deploy.reconcile a content w) = Exit 1.
Proof.
  cbv zeta. intros E R S. unfold Deploy.reconcile. run. rewrite E.
  destruct (truthy v); run.
  - unfold Deploy.update_stack. rewrite update_stack_spec. cbv zeta.
    server_at w (calls w ++ [list_stacks (Deploy.portainer_url a) (Deploy.api_key a)]).
    rewrite R. unfold ok. now rewrite S.
  - rewrite (create_stack_error _ _ _ _ _ _ _ _ resp); [reflexivity | exact R | exact S].
Qed.

End DeployFacts.

Module Registry.
Import Python IO Doc Facts Shared Frame ReconcilerFacts WriteFacts RollbackFacts.

Lemma last_of_two (A : Type) (x y r : A) (pre post : list A) (p : A -> bool) :
  [x; y] = pre ++ r :: post -> p x = false -> p r = true ->
  pre = [x] /\ r = y /\ post = [].
Proof.
  intros E Px Pr.
  destruct pre as [|a [|b pre]]; cbn in E.
  - injection E as <- _. congruence.
  - injection E as <- <- <-. auto.
  - injection E as _ _ E. now destruct pre.
Qed.

(** C7, amended.  When the API answers a create or an update call with a
    client or server error status (400 to 599), the function exits with
    status 1, having issued that one call and no other; a deploy ends there
    with status 1, and so does a rollback, which leaves every file as it
    was, the rollback history among them. *)
Theorem registry_write_error_is_fatal :
  (forall url key id env_id content prune pull w resp,
      server w (calls w) (update_call url key id content prune pull) = Answer resp ->
      error_status resp = true ->
      exists lines,
        Rollback.update_stack url key id env_id content prune pull w
        = (Exit 1, say (called w (update_call url key id content prune pull)) lines))
  /\ (forall url key env_id name content prune pull w resp,
        server w (calls w) (create_call url key env_id name content prune pull)
        = Answer resp ->
        error_status resp = true ->
        exists lines,
          Deploy.create_stack url key env_id name content prune pull w
          = (Exit 1,
             say (called w (create_call url key env_id name content prune pull)) lines))
  /\ (forall a w pre r post resp,
        calls w = [] ->
        calls (snd (Deploy.main a w)) = pre ++ r :: post ->
        is_create r || is_update r = true ->
        server w pre r = Answer resp ->
        error_status resp = true ->
        fst (Deploy.main a w) = Exit 1 /\ post = [])
  /\ (forall a w pre r post resp,
        calls w = [] ->
        calls (snd (Rollback.main a w)) = pre ++ r :: post ->
        is_update r = true ->
        server w pre r = Answer resp ->
        error_status resp = true ->
        fst (Rollback.main a w) = Exit 1
        /\ post = []
        /\ fs (snd (Rollback.main a w)) = fs w).
Proof.
  split; [|split; [|split]].
  - intros url key id env_id content prune pull w resp R S.
    unfold Rollback.update_stack. rewrite update_stack_spec. cbv zeta. rewrite R.
    unfold ok. rewrite S. cbn [negb]. eauto.
  - intros url key env_id name content prune pull w resp R S.
    rewrite (create_stack_error _ _ _ _ _ _ _ _ resp R S). eauto.
  - intros a w pre r post resp C0 C Kind R S.
    destruct (DeployFacts.deploy_main_run a w) as [(_ & C1) | (D & w1 & U & C1 & E)].
    + rewrite C1, C0 in C. now destruct pre.
    + rewrite E in C |- *. cbn [bind Monad_M] in C |- *.
      destruct (url_refused w1 (Deploy.portainer_url a)) eqn:J.
      { unfold Deploy.reconcile, Deploy.get_stack_id in C. cbn [bind Monad_M] in C.
        rewrite (get_stack_id_refused _ _ _ _ _ J) in C. cbn [snd] in C.
        rewrite C1, C0 in C. now destruct pre. }
      destruct (get_stack_id_returns (Deploy.portainer_url a) (Deploy.api_key a)
                  (Deploy.env_id a) (Deploy.stack_name a) w1 J) as (v & lines & G).
      pose proof (Reconciler.reconcile_calls a (yaml_dump D) w1 v lines G) as RC.
      pose proof (DeployFacts.reconcile_error a (yaml_dump D) w1 v lines resp G) as RE.
      cbv zeta in RE. rewrite C1, C0 in RC, RE. cbn [app] in RC, RE.
      destruct U as (_ & _ & _ & Sv & _). rewrite Sv in RE.
      destruct (Deploy.reconcile a (yaml_dump D) w1) as [[[]| |] w2];
        cbn [fst snd] in *.
      * unfold print in C. cbn [snd calls] in C. rewrite RC in C.
        apply last_of_two with (p := fun q => is_create q || is_update q) in C;
          [|reflexivity|exact Kind].
        destruct C as (-> & -> & ->). now specialize (RE R S).
      * rewrite RC in C.
        apply last_of_two with (p := fun q => is_create q || is_update q) in C;
          [|reflexivity|exact Kind].
        destruct C as (-> & -> & ->). now specialize (RE R S).
      * rewrite RC in C.
        apply last_of_two with (p := fun q => is_create q || is_update q) in C;
          [|reflexivity|exact Kind].
        destruct C as (-> & -> & ->). split; [|reflexivity]. now apply RE.
  - intros a w pre r post resp C0 C Kind R S.
    destruct (rollback_main_run a w)
      as [(_ & _ & C1) | [(_ & _ & C1) | (id & D & w1 & _ & U & C1 & E & J)]].
    + rewrite C1, C0 in C. now destruct pre.
    + rewrite C1, C0 in C. cbn [app] in C.
      destruct pre as [|? [|? ?]]; cbn in C; try discriminate.
      injection C as <- _. discriminate.
    + rewrite E in C |- *.
      destruct (update_then_record (Rollback.portainer_url a) (Rollback.api_key a) id
                  (Rollback.env_id a) (yaml_dump D) a
                  (resolved_tag (Rollback.previous_tag a) (Rollback.artifact_path a) w)
                  w1 J) as [CU RU].
      cbv zeta in CU, RU. rewrite CU, C1, C0 in C. cbn [app] in C.
      apply last_of_two with (p := is_update) in C; [|reflexivity|exact Kind].
      destruct C as (-> & -> & ->).
      destruct U as (F & _ & _ & Sv & _). rewrite C1, C0, Sv in RU. cbn [app] in RU.
      rewrite R in RU. unfold ok in RU. rewrite S in RU.
      cbn [negb] in RU. destruct RU as [RU1 RU2]. now rewrite RU1, RU2, F.
Qed.

Lemma registry_write_error_is_fatal_witness :
  fst (Rollback.main (Examples.rollback_args (Some "v1"))
         (Examples.world_with None Examples.listed Examples.server_error))
  = Exit 1
  /\ @nil request = []
  /\ fs (snd (Rollback.main (Examples.rollback_args (Some "v1"))
                (Examples.world_with None Examples.listed Examples.server_error)))
     = fs (Examples.world_with None Examples.listed Examples.server_error).
Proof.
  apply (proj2 (proj2 (proj2 registry_write_error_is_fatal))
           (Examples.rollback_args (Some "v1"))
           (Examples.world_with None Examples.listed Examples.server_error)
           [list_stacks Examples.portainer (Some "key")]
           (update_call Examples.portainer (Some "key") (PInt 7)
              (yaml_dump (Examples.doc_of "registry.example.com/myorg/app:v1"))
              false true)
           [] Examples.server_error);
    reflexivity.
Defined.

(** C7 as stated fails in two ways.  An update answered with status 500
    and the body [boom] ends the flow with status 1 after one line that
    does not show the body.  An update answered with status 304, which is
    not a 2xx status, is taken as a success and the deploy completes. *)
Lemma registry_error_body_is_not_printed :
  (Deploy.update_stack Examples.portainer (Some "key") (PInt 7) 1
     (yaml_dump Examples.doc_tagged) false true
     (Examples.world_with None Examples.listed Examples.server_error)
   = (Exit 1,
      say (called (Examples.world_with None Examples.listed Examples.server_error)
                  (update_call Examples.portainer (Some "key") (PInt 7)
                               (yaml_dump Examples.doc_tagged) false true))
          [Say_exn "Error updating stack: {e}" (HTTPError Examples.server_error)])
   /\ text Examples.server_error = "boom")
  /\ (status_code Examples.not_modified = 304
      /\ fst (Deploy.main Examples.deploy_args
                (Examples.world_with None Examples.listed Examples.not_modified))
         = Ret tt).
Proof. repeat split; reflexivity. Qed.

End Registry.

(** ** Argument validation and the compose file *)

Module StartFacts.
Import Python IO Doc Cover Facts Shared Frame.

Lemma missing_arguments_none (u k n c : option string) :
  missing_arguments u k n c = []
  <-> present u && present k && present n && present c = true.
Proof.
  unfold missing_arguments.
  destruct (present u), (present k), (present n), (present c); cbn;
    split; intros H; try reflexivity; discriminate.
Qed.

(** [validate_args] returns silently on valid arguments, and prints one
    line and exits with status 1 otherwise. *)
Lemma validate_args_spec (u k n c : option string) (w : world) :
  validate_args u k n c w =
    if valid_arguments u k n c w then (Ret tt, w)
    else (Exit 1, say w [validation_error u k n c]).
Proof.
  unfold validate_args, valid_arguments, validation_error.
  destruct (missing_arguments u k n c) as [|m ms] eqn:E.
  - apply missing_arguments_none in E. rewrite E. cbn [andb].
    unfold file_exists, path_exists. run.
    destruct c as [p|]; [|now destruct (present u), (present k), (present n)].
    destruct (fs w p); reflexivity.
  - assert (present u && present k && present n && present c = false) as F.
    { destruct (present u && present k && present n && present c) eqn:G;
        [|reflexivity].
      apply missing_arguments_none in G. congruence. }
    rewrite F. reflexivity.
Qed.

(** [read_compose_file] on a compose file that is there. *)
Lemma read_compose_file_spec (c : option string) (w : world) :
  file_exists w c = true ->
  read_compose_file c w =
    match compose_document w c with
    | Some D => (Ret D, w)
    | None => (Exit 1, say w [Say_exn "Error reading compose file: {e}" YAMLError])
    end.
Proof.
  unfold file_exists, read_compose_file, compose_document, try_except, yaml_load.
  destruct c as [p|]; [|discriminate].
  destruct (fs w p) as [[| |]|]; try discriminate; reflexivity.
Qed.

End StartFacts.

(** ** The two flows, step by step *)

Module FlowFacts.
Import Python IO Doc Cover Facts Shared Frame ReconcilerFacts WriteFacts ResolverFacts
  RewriterFacts StartFacts.

Lemma valid_arguments_file (u k n c : option string) (w : world) :
  valid_arguments u k n c w = true -> file_exists w c = true.
Proof. unfold valid_arguments. now intros [_ H]%andb_prop. Qed.

(** With a URL that can be built, the lookup returns [lookup_value] after
    its one call. *)
Lemma get_stack_id_lookup (url key : option string) (env_id : Z)
  (name : option string) (w : world) :
  url_refused w url = false ->
  exists lines,
    get_stack_id url key env_id name w
    = (Ret (lookup_value w url key env_id name),
       say (called w (list_stacks url key)) lines).
Proof.
  intros J.
  destruct (get_stack_id_returns url key env_id name w J) as (v & lines & E).
  pose proof (get_stack_id_value url key env_id name w J) as V.
  rewrite E in V. cbn [fst] in V. injection V as ->.
  exists lines. exact E.
Qed.

(** A listing that was obtained came from a URL that can be built. *)
Lemma listing_joinable (w : world) (url key : option string) (body : pyval) :
  listing w url key = Some body -> url_refused w url = false.
Proof.
  unfold listing.
  destruct (server w (calls w) (list_stacks url key)) as [resp|att|] eqn:S;
    try discriminate.
  intros _. now apply server_answer in S.
Qed.

Lemma lookup_value_joinable (w : world) (url key : option string) (env_id : Z)
  (name : option string) :
  truthy (lookup_value w url key env_id name) = true -> url_refused w url = false.
Proof.
  unfold lookup_value. destruct (listing w url key) as [body|] eqn:L; [|discriminate].
  intros _. now apply listing_joinable in L.
Qed.

Lemma resolved_tag_truthy (t : option string) (path : string) (w : world) :
  truthy (resolved_tag t path w) = true.
Proof.
  unfold resolved_tag. destruct (present t) eqn:P; [exact P|].
  unfold artifact_tag.
  destruct (fs w path) as [[|?|[| | | |?|d]]|];
    cbn [truthy]; try now rewrite append_latest_nonempty.
  destruct (dict_get "last_successful_tag" d) as [tag|];
    [destruct (truthy tag) eqn:Tt; [exact Tt|]|];
    cbn [truthy]; now rewrite append_latest_nonempty.
Qed.

(** The rewriter without one of its inputs. *)
Lemma update_image_tags_without_input (D : pyval) (r p : option string) (T : pyval)
  (w : world) :
  present r && present p && truthy T = false ->
  update_image_tags D r p T w =
    (Ret D,
     say w [Say "Warning: Missing registry URL, project path, or image tag. Skipping image tag update." []]).
Proof.
  intros H. unfold update_image_tags.
  replace (negb (present r) || negb (present p) || negb (truthy T)) with true;
    [reflexivity|].
  destruct (present r), (present p), (truthy T); cbn in *; congruence.
Qed.

(** The rewriter as the rollback flow calls it. *)
Lemma rollback_rewrite (a : Rollback.args) (D : pyval) (w w0 : world) :
  rewritable (Rollback.registry_url a) (Rollback.project_path a) D = true ->
  exists lines,
    update_image_tags D (Rollback.registry_url a) (Rollback.project_path a)
      (resolved_tag (Rollback.previous_tag a) (Rollback.artifact_path a) w) w0
    = (Ret (rolled_back_document a w D), say w0 lines).
Proof.
  unfold rewritable, rolled_back_document. intros R.
  set (tag := resolved_tag _ _ w).
  destruct (present (Rollback.registry_url a) && present (Rollback.project_path a)) eqn:G.
  - cbn in R. apply andb_prop in G as [Gr Gp].
    destruct (Rollback.project_path a) as [p|] eqn:Ep; [|discriminate].
    eexists. unfold retag_document.
    apply (Rewriter.update_image_tags_spec D (Rollback.registry_url a) p tag w0 R Gr Gp).
    apply resolved_tag_truthy.
  - eexists. rewrite update_image_tags_without_input by now rewrite G.
    now destruct (Rollback.project_path a).
Qed.

(** A rollback whose arguments are valid and whose compose file reads as a
    document the rewriter returns on: it looks the stack up, and either
    exits because there is none or goes on to update it. *)
Lemma rollback_main_steps (a : Rollback.args) (w : world) (D : pyval) :
  valid_arguments (Rollback.portainer_url a) (Rollback.api_key a) (Rollback.stack_name a)
                  (Rollback.compose_file a) w = true ->
  compose_document w (Rollback.compose_file a) = Some D ->
  rewritable (Rollback.registry_url a) (Rollback.project_path a) D = true ->
  url_refused w (Rollback.portainer_url a) = false ->
  let tag := resolved_tag (Rollback.previous_tag a) (Rollback.artifact_path a) w in
  let v := lookup_value w (Rollback.portainer_url a) (Rollback.api_key a)
             (Rollback.env_id a) (Rollback.stack_name a) in
  exists w1,
    undisturbed w w1
    /\ (exists lines, stdout w1 = stdout w ++ lines)
    /\ calls w1 = calls w ++ [list_stacks (Rollback.portainer_url a) (Rollback.api_key a)]
    /\ Rollback.main a w =
         if truthy v
         then (Rollback.update_stack (Rollback.portainer_url a) (Rollback.api_key a) v
                 (Rollback.env_id a) (yaml_dump (rolled_back_document a w D))
                 Rollback.default_prune true ;;
               print (Say "Rollback completed successfully!" []) ;;
               Rollback.record_rollback a tag)
                (say w1 [Say "Rolling back stack {args.stack_name} to tag {previous_tag}..."
                             [of_opt (Rollback.stack_name a); tag]])
         else (Exit 1,
               say w1 [Say "Error: Stack {args.stack_name} not found"
                           [of_opt (Rollback.stack_name a)]]).
Proof.
  intros V C R J. cbv zeta.
  unfold Rollback.main. run. unfold Rollback.validate_args.
  rewrite validate_args_spec, V.
  pose proof (get_previous_tag_value a w) as Tv.
  destruct (quiet_get_previous_tag a w) as [[l1 Q1] _].
  destruct (Rollback.get_previous_tag a w) as [o1 w1]. cbn [fst snd] in Tv, Q1.
  subst o1 w1.
  unfold Rollback.read_compose_file.
  rewrite (read_compose_file_spec _ (say w l1)
             (valid_arguments_file _ _ _ _ _ V)).
  change (compose_document (say w l1) (Rollback.compose_file a))
    with (compose_document w (Rollback.compose_file a)).
  rewrite C.
  unfold Rollback.update_image_tags.
  destruct (rollback_rewrite a D w (say w l1) R) as [l2 ->].
  unfold Rollback.get_stack_id.
  destruct (get_stack_id_lookup (Rollback.portainer_url a) (Rollback.api_key a)
              (Rollback.env_id a) (Rollback.stack_name a) (say (say w l1) l2) J)
    as [l3 ->].
  change (lookup_value (say (say w l1) l2) (Rollback.portainer_url a) (Rollback.api_key a)
            (Rollback.env_id a) (Rollback.stack_name a))
    with (lookup_value w (Rollback.portainer_url a) (Rollback.api_key a)
            (Rollback.env_id a) (Rollback.stack_name a)).
  exists (say (called (say (say w l1) l2)
                 (list_stacks (Rollback.portainer_url a) (Rollback.api_key a))) l3).
  split; [now repeat split|].
  split; [exists ((l1 ++ l2) ++ l3); cbn; now rewrite <- !app_assoc|].
  split; [reflexivity|].
  destruct (truthy (lookup_value w _ _ _ _)); reflexivity.
Qed.

(** Such a rollback with a base URL that [urljoin] refuses ends on the
    exception of the lookup, before any call. *)
Lemma rollback_main_refused (a : Rollback.args) (w : world) (D : pyval) :
  valid_arguments (Rollback.portainer_url a) (Rollback.api_key a) (Rollback.stack_name a)
                  (Rollback.compose_file a) w = true ->
  compose_document w (Rollback.compose_file a) = Some D ->
  rewritable (Rollback.registry_url a) (Rollback.project_path a) D = true ->
  url_refused w (Rollback.portainer_url a) = true ->
  exists lines, Rollback.main a w = (Raise ValueError, say w lines).
Proof.
  intros V C R J.
  unfold Rollback.main. run. unfold Rollback.validate_args.
  rewrite validate_args_spec, V.
  pose proof (get_previous_tag_value a w) as Tv.
  destruct (quiet_get_previous_tag a w) as [[l1 Q1] _].
  destruct (Rollback.get_previous_tag a w) as [o1 w1]. cbn [fst snd] in Tv, Q1.
  subst o1 w1.
  unfold Rollback.read_compose_file.
  rewrite (read_compose_file_spec _ (say w l1)
             (valid_arguments_file _ _ _ _ _ V)).
  change (compose_document (say w l1) (Rollback.compose_file a))
    with (compose_document w (Rollback.compose_file a)).
  rewrite C.
  unfold Rollback.update_image_tags.
  destruct (rollback_rewrite a D w (say w l1) R) as [l2 ->].
  unfold Rollback.get_stack_id.
  rewrite (get_stack_id_refused (Rollback.portainer_url a) (Rollback.api_key a)
             (Rollback.env_id a) (Rollback.stack_name a) (say (say w l1) l2) J).
  exists (l1 ++ l2). now rewrite say_say.
Qed.

End FlowFacts.

Module DeployFlowFacts.
Import Python IO Doc Cover Facts Shared Frame ReconcilerFacts WriteFacts RewriterFacts
  StartFacts FlowFacts.

(** The rewriter as the deploy flow calls it. *)
Lemma deploy_prepare (a : Deploy.args) (D : pyval) (w : world) :
  file_exists w (Deploy.compose_file a) = true ->
  compose_document w (Deploy.compose_file a) = Some D ->
  negb (present (Deploy.image_tag a) && present (Deploy.registry_url a)
        && present (Deploy.project_path a))
  || composition D = true ->
  exists lines,
    Deploy.prepare a w = (Ret (deployed_document a D), say w lines).
Proof.
  intros F C R. unfold Deploy.prepare, Deploy.read_compose_file. run.
  rewrite (read_compose_file_spec _ w F), C.
  unfold deployed_document.
  destruct (present (Deploy.image_tag a) && present (Deploy.registry_url a)
            && present (Deploy.project_path a)) eqn:G.
  - cbn in R. apply andb_prop in G as [G Gp]. apply andb_prop in G as [Gt Gr].
    destruct (Deploy.image_tag a) as [t|] eqn:Et; [|discriminate].
    destruct (Deploy.project_path a) as [p|] eqn:Ep; [|discriminate].
    eexists. unfold retag_document, Deploy.update_image_tags.
    apply (Rewriter.update_image_tags_spec D (Deploy.registry_url a) p (PStr t) w R Gr Gp Gt).
  - exists []. rewrite say_nothing.
    now destruct (Deploy.image_tag a), (Deploy.project_path a).
Qed.

(** A deploy whose arguments are valid and whose compose file reads as a
    document the rewriter returns on: it reconciles that document. *)
Lemma deploy_main_steps (a : Deploy.args) (w : world) (D : pyval) :
  valid_arguments (Deploy.portainer_url a) (Deploy.api_key a) (Deploy.stack_name a)
                  (Deploy.compose_file a) w = true ->
  compose_document w (Deploy.compose_file a) = Some D ->
  negb (present (Deploy.image_tag a) && present (Deploy.registry_url a)
        && present (Deploy.project_path a))
  || composition D = true ->
  exists lines,
    Deploy.main a w =
      (Deploy.reconcile a (yaml_dump (deployed_document a D)) ;;
       print (Say "Deployment completed successfully!" [])) (say w lines).
Proof.
  intros V C R. unfold Deploy.main. run. unfold Deploy.validate_args.
  rewrite validate_args_spec, V.
  destruct (deploy_prepare a D w (valid_arguments_file _ _ _ _ _ V) C R) as [lines ->].
  exists lines. reflexivity.
Qed.

(** A reconcile with a base URL that [urljoin] refuses ends on the
    exception of the lookup, before any call. *)
Lemma reconcile_refused (a : Deploy.args) (content : yaml_text) (w : world) :
  url_refused w (Deploy.portainer_url a) = true ->
  Deploy.reconcile a content w = (Raise ValueError, w).
Proof.
  intros J. unfold Deploy.reconcile, Deploy.get_stack_id. cbn [bind Monad_M].
  now rewrite (get_stack_id_refused _ _ _ _ _ J).
Qed.

(** The outcome and the world of a reconcile whose URLs can be built, by
    the answer to its write call. *)
Lemma reconcile_spec (a : Deploy.args) (content : yaml_text) (w : world) :
  let lookup := list_stacks (Deploy.portainer_url a) (Deploy.api_key a) in
  let v := lookup_value w (Deploy.portainer_url a) (Deploy.api_key a) (Deploy.env_id a)
             (Deploy.stack_name a) in
  let write := write_call (Deploy.portainer_url a) (Deploy.api_key a) (Deploy.env_id a)
                 (Deploy.stack_name a) v content (Deploy.prune a) (Deploy.pull a) in
  url_refused w (Deploy.portainer_url a) = false ->
  (exists lines,
      snd (Deploy.reconcile a content w) = say (called (called w lookup) write) lines)
  /\ (fst (Deploy.reconcile a content w) = Ret tt
      \/ fst (Deploy.reconcile a content w) = Exit 1)
  /\ (fst (Deploy.reconcile a content w) = Ret tt <->
      exists resp,
        server w (calls w ++ [lookup]) write = Answer resp
        /\ ok resp = true
        /\ (truthy v = false -> exists d, json_body resp = Some (PDict d))).
Proof.
  cbv zeta. intros U. unfold Deploy.reconcile, write_call. run.
  unfold Deploy.get_stack_id.
  destruct (get_stack_id_lookup (Deploy.portainer_url a) (Deploy.api_key a)
              (Deploy.env_id a) (Deploy.stack_name a) w U) as [l0 ->].
  set (v := lookup_value w _ _ _ _).
  destruct (truthy v) eqn:Tv; run.
  - unfold Deploy.update_stack. rewrite update_stack_spec. cbv zeta.
    server_at w (calls w ++ [list_stacks (Deploy.portainer_url a) (Deploy.api_key a)]).
    destruct (server w _ _) as [resp|att|] eqn:S; [destruct (ok resp) eqn:O| |];
      cbn [fst snd].
    + split; [|split; [now left|]].
      * eexists. unfold say, called. cbn. rewrite <- !app_assoc. reflexivity.
      * split; [|reflexivity]. intros _. exists resp. repeat split; [exact O|discriminate].
    + split; [|split; [now right|]].
      * eexists. unfold say, called. cbn. rewrite <- !app_assoc. reflexivity.
      * split; [discriminate|]. intros (r & [= <-] & O' & _). congruence.
    + split; [|split; [now right|]].
      * eexists. unfold say, called. cbn. rewrite <- !app_assoc. reflexivity.
      * split; [discriminate|]. intros (r & E & _). discriminate.
    + apply server_not_sent in S. cbn in S. congruence.
  - rewrite create_stack_spec. cbv zeta.
    server_at w (calls w ++ [list_stacks (Deploy.portainer_url a) (Deploy.api_key a)]).
    destruct (server w _ _) as [resp|att|] eqn:S;
      [destruct (ok resp) eqn:O; [destruct (json_body resp) as [[| | | |?|d]|] eqn:J|]
      | |apply server_not_sent in S; cbn in S; congruence];
      cbn [fst snd];
      (split; [eexists; unfold say, called; cbn; rewrite <- !app_assoc; reflexivity|]).
    all: split; [first [now left | now right]|].
    all: split;
      [first [discriminate | intros _; exists resp; repeat split; [exact O|]; eauto]|].
    all: try (intros (r & [= <-] & O' & K); specialize (K eq_refl) as [d' K]; congruence).
Qed.

End DeployFlowFacts.

(** ** Further properties of the two flows *)

Module Flows.
Import Python IO Doc Cover Facts Shared Frame ReconcilerFacts WriteFacts ResolverFacts
  RollbackFacts RewriterFacts StartFacts FlowFacts DeployFlowFacts.

(** X1.  When a required argument (Portainer URL, API key, stack name,
    compose file) is missing or empty, or the compose file does not exist,
    the deploy and the rollback print one error line and exit with status
    1: no call is issued and no file is read or written. *)
Theorem invalid_arguments_end_both_flows :
  (forall (a : Deploy.args) (w : world),
      valid_arguments (Deploy.portainer_url a) (Deploy.api_key a) (Deploy.stack_name a)
                      (Deploy.compose_file a) w = false ->
      Deploy.main a w
      = (Exit 1,
         say w [validation_error (Deploy.portainer_url a) (Deploy.api_key a)
                  (Deploy.stack_name a) (Deploy.compose_file a)]))
  /\ (forall (a : Rollback.args) (w : world),
        valid_arguments (Rollback.portainer_url a) (Rollback.api_key a)
                        (Rollback.stack_name a) (Rollback.compose_file a) w = false ->
        Rollback.main a w
        = (Exit 1,
           say w [validation_error (Rollback.portainer_url a) (Rollback.api_key a)
                    (Rollback.stack_name a) (Rollback.compose_file a)])).
Proof.
  split; intros a w V.
  - unfold Deploy.main, Deploy.validate_args. run. now rewrite validate_args_spec, V.
  - unfold Rollback.main, Rollback.validate_args. run. now rewrite validate_args_spec, V.
Qed.

Lemma invalid_arguments_end_both_flows_witness :
  Deploy.main (Deploy.mkArgs Examples.portainer None 1 (Some "qa-stack")
                 (Some Examples.compose_path) None None None false false)
    (Examples.world_with None [] Examples.accepted)
  = (Exit 1,
     say (Examples.world_with None [] Examples.accepted)
         [Say "Error: Missing required arguments: {', '.join(missing)}"
              [PStr "--api-key or PORTAINER_API_KEY"]])
  /\ Rollback.main (Rollback.mkArgs Examples.portainer (Some "key") 1 (Some "qa-stack")
                      (Some "missing.yml") None None None "artifacts/tag.json")
       (Examples.world_with None [] Examples.accepted)
     = (Exit 1,
        say (Examples.world_with None [] Examples.accepted)
            [Say "Error: Compose file not found: {args.compose_file}"
                 [PStr "missing.yml"]]).
Proof.
  split.
  - apply (proj1 invalid_arguments_end_both_flows
             (Deploy.mkArgs Examples.portainer None 1 (Some "qa-stack")
                (Some Examples.compose_path) None None None false false)
             (Examples.world_with None [] Examples.accepted)).
    reflexivity.
  - apply (proj2 invalid_arguments_end_both_flows
             (Rollback.mkArgs Examples.portainer (Some "key") 1 (Some "qa-stack")
                (Some "missing.yml") None None None "artifacts/tag.json")
             (Examples.world_with None [] Examples.accepted)).
    reflexivity.
Defined.

(** X2.  With valid arguments and a compose file that is not valid YAML,
    the deploy prints the reading error and exits with status 1, and the
    rollback exits with status 1 as well; neither issues a call or writes
    a file. *)
Theorem unreadable_compose_file_ends_both_flows :
  (forall (a : Deploy.args) (w : world),
      valid_arguments (Deploy.portainer_url a) (Deploy.api_key a) (Deploy.stack_name a)
                      (Deploy.compose_file a) w = true ->
      compose_document w (Deploy.compose_file a) = None ->
      Deploy.main a w
      = (Exit 1, say w [Say_exn "Error reading compose file: {e}" YAMLError]))
  /\ (forall (a : Rollback.args) (w : world),
        valid_arguments (Rollback.portainer_url a) (Rollback.api_key a)
                        (Rollback.stack_name a) (Rollback.compose_file a) w = true ->
        compose_document w (Rollback.compose_file a) = None ->
        exists lines,
          Rollback.main a w
          = (Exit 1,
             say w (lines ++ [Say_exn "Error reading compose file: {e}" YAMLError]))).
Proof.
  split; intros a w V C.
  - unfold Deploy.main, Deploy.validate_args. run. rewrite validate_args_spec, V.
    unfold Deploy.prepare, Deploy.read_compose_file. run.
    now rewrite (read_compose_file_spec _ w (valid_arguments_file _ _ _ _ _ V)), C.
  - unfold Rollback.main, Rollback.validate_args. run. rewrite validate_args_spec, V.
    destruct (quiet_get_previous_tag a w) as [[l1 Q1] _].
    pose proof (get_previous_tag_value a w) as Tv.
    destruct (Rollback.get_previous_tag a w) as [o1 w1]. cbn [fst snd] in Tv, Q1.
    subst o1 w1. unfold Rollback.read_compose_file.
    rewrite (read_compose_file_spec _ (say w l1) (valid_arguments_file _ _ _ _ _ V)).
    change (compose_document (say w l1) (Rollback.compose_file a))
      with (compose_document w (Rollback.compose_file a)).
    rewrite C. exists l1. now rewrite say_say.
Qed.

Lemma unreadable_compose_file_ends_both_flows_witness :
  Deploy.main Examples.deploy_args
    (mkWorld (fun _ => Some Text) (fun _ => None) EmptyString
             Examples.any_url (Examples.api [] Examples.accepted) [] [])
  = (Exit 1,
     say (mkWorld (fun _ => Some Text) (fun _ => None) EmptyString
                  Examples.any_url (Examples.api [] Examples.accepted) [] [])
         [Say_exn "Error reading compose file: {e}" YAMLError]).
Proof.
  apply (proj1 unreadable_compose_file_ends_both_flows Examples.deploy_args
           (mkWorld (fun _ => Some Text) (fun _ => None) EmptyString
                    Examples.any_url (Examples.api [] Examples.accepted) [] []));
    reflexivity.
Defined.

(** X3.  A deploy with valid arguments and a Portainer URL that [urljoin]
    accepts, whose compose file reads as a document the rewriter returns
    on, changes no file and issues exactly two calls: the listing call, and
    then an update of the stack the lookup found or, when it found none, a
    create.  The write call carries the document as prepared (retagged
    when the three control inputs are given) and the [prune] and [pull]
    flags of the arguments. *)
Theorem deploy_sends_the_prepared_document
  (a : Deploy.args) (w : world) (D : pyval) :
  valid_arguments (Deploy.portainer_url a) (Deploy.api_key a) (Deploy.stack_name a)
                  (Deploy.compose_file a) w = true ->
  url_refused w (Deploy.portainer_url a) = false ->
  compose_document w (Deploy.compose_file a) = Some D ->
  negb (present (Deploy.image_tag a) && present (Deploy.registry_url a)
        && present (Deploy.project_path a))
  || composition D = true ->
  calls (snd (Deploy.main a w)) =
    calls w
    ++ [list_stacks (Deploy.portainer_url a) (Deploy.api_key a);
        write_call (Deploy.portainer_url a) (Deploy.api_key a) (Deploy.env_id a)
          (Deploy.stack_name a)
          (lookup_value w (Deploy.portainer_url a) (Deploy.api_key a) (Deploy.env_id a)
             (Deploy.stack_name a))
          (yaml_dump (deployed_document a D)) (Deploy.prune a) (Deploy.pull a)]
  /\ fs (snd (Deploy.main a w)) = fs w.
Proof.
  intros V J C R. destruct (deploy_main_steps a w D V C R) as [l0 ->].
  cbn [bind Monad_M].
  destruct (reconcile_spec a (yaml_dump (deployed_document a D)) (say w l0) J)
    as ([l1 W] & _ & _).
  destruct (Deploy.reconcile a (yaml_dump (deployed_document a D)) (say w l0))
    as [[[]| |] w1]; cbn [snd] in W; subst w1; cbn; rewrite <- app_assoc; now split.
Qed.

Lemma deploy_sends_the_prepared_document_witness :
  calls (snd (Deploy.main Examples.deploy_args
                (Examples.world_with None Examples.listed Examples.accepted)))
  = [list_stacks Examples.portainer (Some "key");
     update_call Examples.portainer (Some "key") (PInt 7)
       (yaml_dump (Examples.doc_of "registry.example.com/myorg/app:v2")) false true]
  /\ fs (snd (Deploy.main Examples.deploy_args
                (Examples.world_with None Examples.listed Examples.accepted)))
     = fs (Examples.world_with None Examples.listed Examples.accepted).
Proof.
  apply (deploy_sends_the_prepared_document Examples.deploy_args
           (Examples.world_with None Examples.listed Examples.accepted)
           Examples.doc_tagged);
    reflexivity.
Defined.

(** X4.  Such a deploy ends with status 0 exactly when its write call is
    answered without an error status and, for a create, with a JSON
    object; in every other case it ends with status 1. *)
Theorem deploy_succeeds_iff_the_write_is_accepted
  (a : Deploy.args) (w : world) (D : pyval) :
  valid_arguments (Deploy.portainer_url a) (Deploy.api_key a) (Deploy.stack_name a)
                  (Deploy.compose_file a) w = true ->
  compose_document w (Deploy.compose_file a) = Some D ->
  negb (present (Deploy.image_tag a) && present (Deploy.registry_url a)
        && present (Deploy.project_path a))
  || composition D = true ->
  let v := lookup_value w (Deploy.portainer_url a) (Deploy.api_key a) (Deploy.env_id a)
             (Deploy.stack_name a) in
  let write := write_call (Deploy.portainer_url a) (Deploy.api_key a) (Deploy.env_id a)
                 (Deploy.stack_name a) v (yaml_dump (deployed_document a D))
                 (Deploy.prune a) (Deploy.pull a) in
  (exit_status (fst (Deploy.main a w)) = 0
   \/ exit_status (fst (Deploy.main a w)) = 1)
  /\ (exit_status (fst (Deploy.main a w)) = 0 <->
      exists resp,
        server w (calls w ++ [list_stacks (Deploy.portainer_url a) (Deploy.api_key a)])
               write = Answer resp
        /\ ok resp = true
        /\ (truthy v = false -> exists d, json_body resp = Some (PDict d))).
Proof.
  intros V C R. cbv zeta. destruct (deploy_main_steps a w D V C R) as [l0 ->].
  cbn [bind Monad_M].
  destruct (url_refused w (Deploy.portainer_url a)) eqn:J.
  { rewrite (reconcile_refused a _ (say w l0) J). cbn [fst exit_status].
    split; [now right|]. split; [discriminate|].
    intros (resp & S & _). apply server_answer in S as [S _].
    unfold write_call in S. destruct (truthy _) in S; cbn in S; congruence. }
  destruct (reconcile_spec a (yaml_dump (deployed_document a D)) (say w l0) J)
    as (_ & K & I).
  cbv zeta in I.
  change (lookup_value (say w l0) (Deploy.portainer_url a) (Deploy.api_key a)
            (Deploy.env_id a) (Deploy.stack_name a))
    with (lookup_value w (Deploy.portainer_url a) (Deploy.api_key a)
            (Deploy.env_id a) (Deploy.stack_name a)) in I.
  change (server (say w l0)) with (server w) in I.
  change (calls (say w l0)) with (calls w) in I.
  destruct (Deploy.reconcile a (yaml_dump (deployed_document a D)) (say w l0))
    as [[[]| |] w1]; cbn [fst snd exit_status print] in *.
  - split; [now left|]. split; [intros _; now apply I | reflexivity].
  - destruct K; discriminate.
  - destruct K as [K|K]; [discriminate|]. injection K as ->.
    split; [now right|]. split; [discriminate|]. intros H. apply I in H. discriminate.
Qed.

Lemma deploy_succeeds_iff_the_write_is_accepted_witness :
  exit_status (fst (Deploy.main Examples.deploy_args
                      (Examples.world_with None Examples.listed Examples.accepted)))
  = 0.
Proof.
  apply (proj2 (deploy_succeeds_iff_the_write_is_accepted Examples.deploy_args
                  (Examples.world_with None Examples.listed Examples.accepted)
                  Examples.doc_tagged eq_refl eq_refl eq_refl)).
  exists Examples.accepted. repeat split. discriminate.
Defined.

End Flows.

Module RollbackFlows.
Import Python IO Doc Cover Facts PathFacts Shared Frame ReconcilerFacts WriteFacts
  ResolverFacts RollbackFacts RewriterFacts StartFacts FlowFacts.

(** X5.  A rollback with valid arguments, a Portainer URL that [urljoin]
    accepts and a readable compose file, whose lookup finds no stack (it
    returns nothing, or a falsy identifier), prints that the stack was not
    found and exits with status 1, having issued the listing call only and
    written no file. *)
Theorem rollback_without_a_stack_exits
  (a : Rollback.args) (w : world) (D : pyval) :
  valid_arguments (Rollback.portainer_url a) (Rollback.api_key a) (Rollback.stack_name a)
                  (Rollback.compose_file a) w = true ->
  url_refused w (Rollback.portainer_url a) = false ->
  compose_document w (Rollback.compose_file a) = Some D ->
  rewritable (Rollback.registry_url a) (Rollback.project_path a) D = true ->
  truthy (lookup_value w (Rollback.portainer_url a) (Rollback.api_key a)
            (Rollback.env_id a) (Rollback.stack_name a)) = false ->
  exists lines,
    fst (Rollback.main a w) = Exit 1
    /\ stdout (snd (Rollback.main a w))
       = stdout w ++ lines
         ++ [Say "Error: Stack {args.stack_name} not found"
                 [of_opt (Rollback.stack_name a)]]
    /\ calls (snd (Rollback.main a w))
       = calls w ++ [list_stacks (Rollback.portainer_url a) (Rollback.api_key a)]
    /\ fs (snd (Rollback.main a w)) = fs w.
Proof.
  intros V J C R F.
  destruct (rollback_main_steps a w D V C R J) as (w1 & U & [lines L] & C1 & E).
  cbv zeta in E. rewrite F in E. rewrite E. cbn [fst snd say stdout calls fs].
  destruct U as (Uf & _).
  exists lines. rewrite L, C1, Uf, <- app_assoc. repeat split.
Qed.

Lemma rollback_without_a_stack_exits_witness :
  exists lines,
    fst (Rollback.main (Examples.rollback_args (Some "v1"))
           (Examples.world_with None [] Examples.accepted)) = Exit 1
    /\ stdout (snd (Rollback.main (Examples.rollback_args (Some "v1"))
                    (Examples.world_with None [] Examples.accepted)))
       = stdout (Examples.world_with None [] Examples.accepted) ++ lines
         ++ [Say "Error: Stack {args.stack_name} not found" [PStr "qa-stack"]]
    /\ calls (snd (Rollback.main (Examples.rollback_args (Some "v1"))
                   (Examples.world_with None [] Examples.accepted)))
       = calls (Examples.world_with None [] Examples.accepted)
         ++ [list_stacks Examples.portainer (Some "key")]
    /\ fs (snd (Rollback.main (Examples.rollback_args (Some "v1"))
                (Examples.world_with None [] Examples.accepted)))
       = fs (Examples.world_with None [] Examples.accepted).
Proof.
  apply (rollback_without_a_stack_exits (Examples.rollback_args (Some "v1"))
           (Examples.world_with None [] Examples.accepted) Examples.doc_tagged);
    reflexivity.
Defined.

(** X6.  A rollback with valid arguments and a readable compose file that
    finds the stack issues exactly two calls: the listing call, and an
    update of the stack found that carries the document retagged with the
    resolved previous tag (the document as read when the registry URL or
    the project path is not given), with [prune] false and [pullImage]
    true. *)
Theorem rollback_sends_the_rolled_back_document
  (a : Rollback.args) (w : world) (D : pyval) :
  valid_arguments (Rollback.portainer_url a) (Rollback.api_key a) (Rollback.stack_name a)
                  (Rollback.compose_file a) w = true ->
  compose_document w (Rollback.compose_file a) = Some D ->
  rewritable (Rollback.registry_url a) (Rollback.project_path a) D = true ->
  truthy (lookup_value w (Rollback.portainer_url a) (Rollback.api_key a)
            (Rollback.env_id a) (Rollback.stack_name a)) = true ->
  calls (snd (Rollback.main a w)) =
    calls w
    ++ [list_stacks (Rollback.portainer_url a) (Rollback.api_key a);
        update_call (Rollback.portainer_url a) (Rollback.api_key a)
          (lookup_value w (Rollback.portainer_url a) (Rollback.api_key a)
             (Rollback.env_id a) (Rollback.stack_name a))
          (yaml_dump (rolled_back_document a w D)) false true].
Proof.
  intros V C R F.
  pose proof (lookup_value_joinable _ _ _ _ _ F) as J.
  destruct (rollback_main_steps a w D V C R J) as (w1 & U & _ & C1 & E).
  cbv zeta in E. rewrite F in E. rewrite E.
  rewrite <- (undisturbed_url_refused w w1 _ U) in J.
  match goal with
  | |- context [Rollback.update_stack ?u ?k ?v ?e ?c _ _] =>
      destruct (update_then_record u k v e c a
                  (resolved_tag (Rollback.previous_tag a) (Rollback.artifact_path a) w)
                  (say w1 [Say "Rolling back stack {args.stack_name} to tag {previous_tag}..."
                               [of_opt (Rollback.stack_name a);
                                resolved_tag (Rollback.previous_tag a)
                                  (Rollback.artifact_path a) w]]) J)
        as [K _]
  end.
  cbv zeta in K. rewrite K. cbn [calls say]. rewrite C1, <- app_assoc. reflexivity.
Qed.

Lemma rollback_sends_the_rolled_back_document_witness :
  calls (snd (Rollback.main (Examples.rollback_args None)
                (Examples.world_with None Examples.listed Examples.accepted)))
  = [list_stacks Examples.portainer (Some "key");
     update_call Examples.portainer (Some "key") (PInt 7)
       (yaml_dump (Examples.doc_of "registry.example.com/myorg/app:release/2.0-latest"))
       false true].
Proof.
  apply (rollback_sends_the_rolled_back_document (Examples.rollback_args None)
           (Examples.world_with None Examples.listed Examples.accepted)
           Examples.doc_tagged);
    reflexivity.
Defined.

(** X7.  Such a rollback ends with status 0 exactly when the update call is
    answered without an error status, whatever becomes of the history
    file; otherwise it ends with status 1. *)
Theorem rollback_succeeds_iff_the_update_is_accepted
  (a : Rollback.args) (w : world) (D : pyval) :
  valid_arguments (Rollback.portainer_url a) (Rollback.api_key a) (Rollback.stack_name a)
                  (Rollback.compose_file a) w = true ->
  compose_document w (Rollback.compose_file a) = Some D ->
  rewritable (Rollback.registry_url a) (Rollback.project_path a) D = true ->
  truthy (lookup_value w (Rollback.portainer_url a) (Rollback.api_key a)
            (Rollback.env_id a) (Rollback.stack_name a)) = true ->
  (exit_status (fst (Rollback.main a w)) = 0
   \/ exit_status (fst (Rollback.main a w)) = 1)
  /\ (exit_status (fst (Rollback.main a w)) = 0 <->
      exists resp,
        server w (calls w ++ [list_stacks (Rollback.portainer_url a) (Rollback.api_key a)])
          (update_call (Rollback.portainer_url a) (Rollback.api_key a)
             (lookup_value w (Rollback.portainer_url a) (Rollback.api_key a)
                (Rollback.env_id a) (Rollback.stack_name a))
             (yaml_dump (rolled_back_document a w D)) false true)
        = Answer resp
        /\ ok resp = true).
Proof.
  intros V C R F.
  pose proof (lookup_value_joinable _ _ _ _ _ F) as J.
  destruct (rollback_main_steps a w D V C R J) as (w1 & U & _ & C1 & E).
  cbv zeta in E. rewrite F in E. rewrite E.
  rewrite <- (undisturbed_url_refused w w1 _ U) in J.
  match goal with
  | |- context [Rollback.update_stack ?u ?k ?v ?e ?c _ _] =>
      destruct (update_then_record u k v e c a
                  (resolved_tag (Rollback.previous_tag a) (Rollback.artifact_path a) w)
                  (say w1 [Say "Rolling back stack {args.stack_name} to tag {previous_tag}..."
                               [of_opt (Rollback.stack_name a);
                                resolved_tag (Rollback.previous_tag a)
                                  (Rollback.artifact_path a) w]]) J)
        as [_ K]
  end.
  cbv zeta in K. rewrite server_say in K. cbn [calls say] in K.
  destruct U as (_ & _ & _ & Us & _). rewrite Us, C1 in K.
  unfold Rollback.default_prune in *.
  destruct (server w _ _) as [resp|att|]; [destruct (ok resp) eqn:O| |now destruct K].
  - destruct K as (w2 & _ & ->).
    destruct (record_rollback_returns a
                (resolved_tag (Rollback.previous_tag a) (Rollback.artifact_path a) w) w2)
      as (-> & _).
    split; [now left|]. split; [|reflexivity]. intros _. now exists resp.
  - destruct K as [-> _]. split; [now right|]. split; [discriminate|].
    intros (r & [= <-] & O'). congruence.
  - destruct K as [-> _]. split; [now right|]. split; [discriminate|].
    intros (r & [=] & _).
Qed.

Lemma rollback_succeeds_iff_the_update_is_accepted_witness :
  exit_status (fst (Rollback.main (Examples.rollback_args None)
                      (Examples.world_with (Some Text) Examples.listed Examples.accepted)))
  = 0.
Proof.
  apply (proj2 (rollback_succeeds_iff_the_update_is_accepted (Examples.rollback_args None)
                  (Examples.world_with (Some Text) Examples.listed Examples.accepted)
                  Examples.doc_tagged eq_refl eq_refl eq_refl eq_refl)).
  exists Examples.accepted. split; reflexivity.
Defined.

(** X8.  Whatever its arguments and the answers it gets, a rollback
    changes no file other than its history file. *)
Theorem rollback_writes_only_its_history_file
  (a : Rollback.args) (w : world) (path : string) :
  path <> Rollback.rollback_log_path a ->
  fs (snd (Rollback.main a w)) path = fs w path.
Proof.
  intros N.
  destruct (rollback_main_run a w)
    as [(_ & F & _) | [(_ & F & _) | (id & D & w1 & _ & U & _ & E & J)]].
  - now rewrite F.
  - now rewrite F.
  - rewrite E.
    destruct (update_then_record (Rollback.portainer_url a) (Rollback.api_key a) id
                (Rollback.env_id a) (yaml_dump D) a
                (resolved_tag (Rollback.previous_tag a) (Rollback.artifact_path a) w)
                w1 J) as [_ K].
    cbv zeta in K. destruct U as (Uf & _).
    destruct (server w1 (calls w1) _) as [resp|att|]; [destruct (ok resp)| |];
      [| | |now destruct K].
    + destruct K as (w2 & (Uf2 & _) & ->).
      set (tag := resolved_tag _ _ w).
      destruct (prior_records (fs w2) (Rollback.rollback_log_path a)) as [h|] eqn:P.
      * destruct (String.eqb_spec
                    (Posixpath.dirname (Rollback.rollback_log_path a)) "") as [Z0|NZ].
        -- destruct (record_rollback_skips a tag w2 (or_intror Z0)) as [e ->].
           cbn. now rewrite Uf2, Uf.
        -- rewrite (record_rollback_writes a tag w2 h P NZ).
           cbn [snd fs written].
           destruct (String.eqb_spec path (Rollback.rollback_log_path a));
             [contradiction|]. now rewrite Uf2, Uf.
      * destruct (record_rollback_skips a tag w2 (or_introl P)) as [e ->].
        cbn. now rewrite Uf2, Uf.
    + destruct K as [_ ->]. now rewrite Uf.
    + destruct K as [_ ->]. now rewrite Uf.
Qed.

Lemma rollback_writes_only_its_history_file_witness :
  fs (snd (Rollback.main (Examples.rollback_args None)
             (Examples.world_with None Examples.listed Examples.accepted)))
     Examples.compose_path
  = fs (Examples.world_with None Examples.listed Examples.accepted)
       Examples.compose_path.
Proof.
  apply (rollback_writes_only_its_history_file (Examples.rollback_args None)
           (Examples.world_with None Examples.listed Examples.accepted)
           Examples.compose_path).
  vm_compute. discriminate.
Defined.

(** C10.  The update call of a rollback carries [pullImage] true and
    [prune] false, whatever the arguments.  The calls of a rollback are
    none, or the listing call, or the listing call and one update call
    with these two flags.  And a rollback that finds its stack does issue
    that call: with valid arguments and a readable compose file, when the
    lookup returns a truthy identifier, the calls are the listing call and
    one update of that stack that carries the rolled-back document,
    [pullImage] true and [prune] false. *)
Theorem rollback_update_pulls_and_does_not_prune (a : Rollback.args) (w : world) :
  (exists new,
      calls (snd (Rollback.main a w)) = calls w ++ new
      /\ (new = []
          \/ new = [list_stacks (Rollback.portainer_url a) (Rollback.api_key a)]
          \/ exists target payload,
               new = [list_stacks (Rollback.portainer_url a) (Rollback.api_key a);
                      PUT target (Rollback.api_key a) payload]
               /\ u_pullImage payload = true
               /\ u_prune payload = false))
  /\ (forall D : pyval,
        valid_arguments (Rollback.portainer_url a) (Rollback.api_key a)
                        (Rollback.stack_name a) (Rollback.compose_file a) w = true ->
        compose_document w (Rollback.compose_file a) = Some D ->
        rewritable (Rollback.registry_url a) (Rollback.project_path a) D = true ->
        truthy (lookup_value w (Rollback.portainer_url a) (Rollback.api_key a)
                  (Rollback.env_id a) (Rollback.stack_name a)) = true ->
        exists payload,
          calls (snd (Rollback.main a w))
          = calls w
            ++ [list_stacks (Rollback.portainer_url a) (Rollback.api_key a);
                PUT (mkUrl (Rollback.portainer_url a)
                       ("/api/stacks/"
                        ++ py_str (lookup_value w (Rollback.portainer_url a)
                                     (Rollback.api_key a) (Rollback.env_id a)
                                     (Rollback.stack_name a))))
                    (Rollback.api_key a) payload]
          /\ u_pullImage payload = true
          /\ u_prune payload = false
          /\ u_stackFileContent payload = yaml_dump (rolled_back_document a w D)).
Proof.
  split.
  - destruct (rollback_main_run a w)
      as [(_ & _ & C) | [(_ & _ & C) | (id & D & w1 & _ & _ & C1 & E & J)]].
    + exists []. rewrite C, app_nil_r. auto.
    + eexists. split; [exact C|]. auto.
    + rewrite E.
      destruct (update_then_record (Rollback.portainer_url a) (Rollback.api_key a) id
                  (Rollback.env_id a) (yaml_dump D) a
                  (resolved_tag (Rollback.previous_tag a) (Rollback.artifact_path a) w)
                  w1 J)
        as [C _].
      rewrite C, C1, <- app_assoc. eexists. split; [reflexivity|].
      right. right. unfold update_call. eexists _, _. split; [reflexivity|]. now cbn.
  - intros D V C R F.
    pose proof (lookup_value_joinable _ _ _ _ _ F) as J.
    destruct (rollback_main_steps a w D V C R J) as (w1 & U & _ & C1 & E).
    cbv zeta in E. rewrite F in E. rewrite E.
    rewrite <- (undisturbed_url_refused w w1 _ U) in J.
    match goal with
    | |- context [Rollback.update_stack ?u ?k ?v ?e ?c _ _] =>
        destruct (update_then_record u k v e c a
                    (resolved_tag (Rollback.previous_tag a) (Rollback.artifact_path a) w)
                    (say w1 [Say "Rolling back stack {args.stack_name} to tag {previous_tag}..."
                                 [of_opt (Rollback.stack_name a);
                                  resolved_tag (Rollback.previous_tag a)
                                    (Rollback.artifact_path a) w]]) J)
          as [K _]
    end.
    cbv zeta in K. rewrite K. cbn [calls say]. rewrite C1, <- app_assoc.
    unfold update_call. eexists. split; [reflexivity|]. now cbn.
Qed.

Lemma rollback_update_pulls_and_does_not_prune_witness :
  exists payload,
    calls (snd (Rollback.main (Examples.rollback_args (Some "v1"))
                  (Examples.world_with None Examples.listed Examples.accepted)))
    = calls (Examples.world_with None Examples.listed Examples.accepted)
      ++ [list_stacks Examples.portainer (Some "key");
          PUT (mkUrl Examples.portainer "/api/stacks/7") (Some "key") payload]
    /\ u_pullImage payload = true
    /\ u_prune payload = false
    /\ u_stackFileContent payload
       = yaml_dump (Examples.doc_of "registry.example.com/myorg/app:v1").
Proof.
  apply (proj2 (rollback_update_pulls_and_does_not_prune
                  (Examples.rollback_args (Some "v1"))
                  (Examples.world_with None Examples.listed Examples.accepted))
           Examples.doc_tagged);
    reflexivity.
Defined.

End RollbackFlows.

Module DeployFlows.
Import Python IO Doc Cover Facts Shared Frame.

(** X9.  Whatever its arguments and the answers it gets, a deploy changes
    no file. *)
Theorem deploy_writes_no_file (a : Deploy.args) (w : world) :
  fs (snd (Deploy.main a w)) = fs w.
Proof.
  unfold Deploy.main. cbn [bind Monad_M]. unfold Deploy.validate_args.
  destruct (quiet_validate_args (Deploy.portainer_url a) (Deploy.api_key a)
              (Deploy.stack_name a) (Deploy.compose_file a) w) as [[l0 Q0] _].
  destruct (validate_args _ _ _ _ w) as [[[]| |] w0]; cbn [snd] in Q0; subst w0;
    try reflexivity.
  destruct (DeployFacts.quiet_prepare a (say w l0)) as [[l1 Q1] _].
  destruct (Deploy.prepare a (say w l0)) as [[D| |] w1]; cbn [snd] in Q1; subst w1;
    try reflexivity.
  destruct (url_refused (say (say w l0) l1) (Deploy.portainer_url a)) eqn:J.
  { now rewrite (DeployFlowFacts.reconcile_refused a _ _ J). }
  destruct (DeployFlowFacts.reconcile_spec a (yaml_dump D) (say (say w l0) l1) J)
    as ([l2 W] & _ & _).
  destruct (Deploy.reconcile a (yaml_dump D) (say (say w l0) l1)) as [[[]| |] w2];
    cbn [snd] in W; subst w2; reflexivity.
Qed.

End DeployFlows.

(** ** The history file *)

Module HistoryPathFacts.
Import Posixpath PathFacts.

Lemma all_slashes_append (a b : string) :
  all_slashes (a ++ b) = all_slashes a && all_slashes b.
Proof.
  induction a as [|c r IH]; cbn; [reflexivity|]. now rewrite IH, andb_assoc.
Qed.

Lemma all_slashes_has_slash (d : string) :
  all_slashes d = true -> d <> "" -> has_slash d = true.
Proof.
  destruct d as [|c r]; cbn; [congruence|].
  intros H _. apply andb_true_iff in H as [-> _]. reflexivity.
Qed.

Lemma all_slashes_ends_with_slash (d : string) :
  all_slashes d = true -> d <> "" -> ends_with_slash d = true.
Proof.
  induction d as [|c r IH]; [congruence|].
  cbn [all_slashes]. intros H _. apply andb_true_iff in H as [C A].
  destruct r as [|c' r']; [exact C|].
  change (ends_with_slash (String c' r') = true). apply IH; [exact A|discriminate].
Qed.

(** The text up to the last slash of [x/n], for [n] without a slash. *)
Lemma upto_last_slash_child (x n : string) :
  has_slash n = false -> upto_last_slash (x ++ String "/" n) = (x ++ "/")%string.
Proof.
  intros H. induction x as [|c r IH]; cbn [append upto_last_slash].
  - rewrite H. reflexivity.
  - rewrite has_slash_append. cbn [has_slash]. cbn. rewrite orb_true_r, IH.
    reflexivity.
Qed.

Lemma upto_last_slash_root_child (d n : string) :
  all_slashes d = true -> d <> "" -> has_slash n = false ->
  upto_last_slash (d ++ n) = d.
Proof.
  intros A N H. induction d as [|c r IH]; [congruence|].
  cbn [all_slashes] in A. apply andb_true_iff in A as [C A].
  cbn [append upto_last_slash]. rewrite has_slash_append, H, orb_false_r.
  destruct r as [|c' r'].
  - cbn. now rewrite C.
  - rewrite (all_slashes_has_slash _ A) by discriminate.
    rewrite IH; [reflexivity|exact A|discriminate].
Qed.

Lemma ends_with_slash_rstrip (s : string) : ends_with_slash (rstrip_slashes s) = false.
Proof.
  induction s as [|c r IH]; [reflexivity|].
  cbn [rstrip_slashes]. destruct (rstrip_slashes r) as [|c' r'].
  - destruct (c =? "/")%char eqn:C; [reflexivity|]. cbn. exact C.
  - exact IH.
Qed.

Lemma rstrip_slashes_slash (d : string) :
  ends_with_slash d = false -> rstrip_slashes (d ++ "/") = d.
Proof.
  induction d as [|c r IH]; [reflexivity|].
  intros E. cbn [append rstrip_slashes]. destruct r as [|c' r'].
  - cbn in E |- *. now rewrite E.
  - change (ends_with_slash (String c' r') = false) in E. now rewrite (IH E).
Qed.

(** The directory part of a path does not end with a slash, unless it is
    made of slashes only. *)
Lemma dirname_shape (p : string) :
  all_slashes (dirname p) = true \/ ends_with_slash (dirname p) = false.
Proof.
  unfold dirname. destruct (upto_last_slash p =? "")%string eqn:E.
  - apply String.eqb_eq in E. rewrite E. now left.
  - cbn [negb andb]. destruct (all_slashes (upto_last_slash p)) eqn:A; cbn [negb].
    + now left.
    + right. apply ends_with_slash_rstrip.
Qed.

(** [dirname (join d n) = d] for a directory part [d] that is not empty and
    a name [n] without a slash. *)
Lemma dirname_join_child (p n : string) :
  dirname p <> "" -> has_slash n = false -> prefix "/" n = false ->
  dirname (join (dirname p) n) = dirname p.
Proof.
  intros N H P. unfold join. rewrite P.
  destruct (String.eqb_spec (dirname p) ""); [contradiction|]. cbn [orb].
  set (d := dirname p) in *.
  destruct (all_slashes d) eqn:A.
  - rewrite (all_slashes_ends_with_slash d A N).
    unfold dirname at 1. rewrite (upto_last_slash_root_child d n A N H), A.
    now rewrite andb_false_r.
  - destruct (dirname_shape p) as [A'|E]; [fold d in A'; congruence|]. fold d in E.
    rewrite E. cbn [append]. unfold dirname at 1.
    rewrite (upto_last_slash_child d n H), all_slashes_append, A. cbn [andb negb].
    destruct (String.eqb_spec (d ++ "/") "") as [Z|_].
    + destruct d; discriminate.
    + cbn [negb andb]. now apply rstrip_slashes_slash.
Qed.

End HistoryPathFacts.

Module HistoryFile.
Import Python IO Doc Cover Facts PathFacts HistoryPathFacts Shared Frame RollbackFacts.

(** X10.  When the artifact path has a directory part, the history file is
    the file [rollback_history.json] of that same directory. *)
Theorem rollback_history_is_beside_the_artifact (a : Rollback.args) :
  Posixpath.dirname (Rollback.artifact_path a) <> "" ->
  Posixpath.dirname (Rollback.rollback_log_path a)
  = Posixpath.dirname (Rollback.artifact_path a)
  /\ exists sep,
       (sep = "" \/ sep = "/")
       /\ Rollback.rollback_log_path a
          = (Posixpath.dirname (Rollback.artifact_path a) ++ sep
             ++ "rollback_history.json")%string.
Proof.
  intros N. split.
  - unfold Rollback.rollback_log_path. now apply dirname_join_child.
  - unfold Rollback.rollback_log_path, Posixpath.join. cbn [prefix].
    change (prefix "/" "rollback_history.json") with false. cbv iota.
    destruct (String.eqb_spec (Posixpath.dirname (Rollback.artifact_path a)) "");
      [contradiction|]. cbn [orb].
    destruct (Posixpath.ends_with_slash _).
    + exists "". split; [now left|reflexivity].
    + exists "/". split; [now right|reflexivity].
Qed.

Lemma rollback_history_is_beside_the_artifact_witness :
  Posixpath.dirname (Rollback.rollback_log_path (Examples.rollback_args None))
  = Posixpath.dirname (Rollback.artifact_path (Examples.rollback_args None))
  /\ exists sep,
       (sep = "" \/ sep = "/")
       /\ Rollback.rollback_log_path (Examples.rollback_args None)
          = (Posixpath.dirname (Rollback.artifact_path (Examples.rollback_args None))
             ++ sep ++ "rollback_history.json")%string.
Proof.
  apply (rollback_history_is_beside_the_artifact (Examples.rollback_args None)).
  vm_compute. discriminate.
Defined.

(** X11.  When the artifact path has no directory part, a rollback writes
    no file at all: the history is never recorded, [os.makedirs] raising on
    the empty directory name. *)
Theorem rollback_without_a_directory_records_nothing
  (a : Rollback.args) (w : world) :
  Posixpath.dirname (Rollback.artifact_path a) = "" ->
  fs (snd (Rollback.main a w)) = fs w.
Proof.
  intros Z.
  assert (Posixpath.dirname (Rollback.rollback_log_path a) = "") as Z0.
  { unfold Rollback.rollback_log_path. rewrite Z. reflexivity. }
  destruct (rollback_main_run a w)
    as [(_ & F & _) | [(_ & F & _) | (id & D & w1 & _ & U & _ & E & J)]];
    [exact F|exact F|].
  rewrite E.
  destruct (update_then_record (Rollback.portainer_url a) (Rollback.api_key a) id
              (Rollback.env_id a) (yaml_dump D) a
              (resolved_tag (Rollback.previous_tag a) (Rollback.artifact_path a) w)
              w1 J) as [_ K].
  cbv zeta in K. destruct U as (Uf & _).
  destruct (server w1 (calls w1) _) as [resp|att|]; [destruct (ok resp)| |];
    [| | |now destruct K].
  - destruct K as (w2 & (Uf2 & _) & ->).
    destruct (record_rollback_skips a
                (resolved_tag (Rollback.previous_tag a) (Rollback.artifact_path a) w)
                w2 (or_intror Z0)) as [e ->].
    cbn. now rewrite Uf2, Uf.
  - destruct K as [_ ->]. exact Uf.
  - destruct K as [_ ->]. exact Uf.
Qed.

Lemma rollback_without_a_directory_records_nothing_witness :
  fs (snd (Rollback.main
             (Rollback.mkArgs Examples.portainer (Some "key") 1 (Some "qa-stack")
                (Some Examples.compose_path) (Some "registry.example.com")
                (Some "myorg/app") (Some "v1") "last_successful_tag.json")
             (Examples.world_with None Examples.listed Examples.accepted)))
  = fs (Examples.world_with None Examples.listed Examples.accepted).
Proof.
  apply (rollback_without_a_directory_records_nothing
           (Rollback.mkArgs Examples.portainer (Some "key") 1 (Some "qa-stack")
              (Some Examples.compose_path) (Some "registry.example.com")
              (Some "myorg/app") (Some "v1") "last_successful_tag.json")
           (Examples.world_with None Examples.listed Examples.accepted)).
  reflexivity.
Defined.

End HistoryFile.

(** ** Edge cases of the rewriter *)

Module RewriterEdgeFacts.
Import Python IO Doc Cover Facts Shared RewriterFacts.

(** One turn of the loop on a service configuration it cannot handle. *)
Lemma update_service_fault (p : string) (T : pyval) (name : string) (cfg : pyval)
  (e : exn) (w : world) :
  service_fault cfg = Some e ->
  update_service p T (name, cfg) w = (Raise e, w).
Proof.
  unfold service_fault, update_service.
  destruct cfg as [| | |s|l|c]; cbn [py_in py_getitem]; run.
  - now intros [= <-].
  - now intros [= <-].
  - now intros [= <-].
  - destruct (contains "image" s); run; [now intros [= <-]|discriminate].
  - destruct (existsb _ l); run; [now intros [= <-]|discriminate].
  - destruct (dict_get "image" c) as [[| | |image|?|?]|]; run; cbn [py_lower]; run;
      try discriminate; now intros [= <-].
Qed.

Lemma for_each_update_service_fault (p : string) (T : pyval)
  (pre post : list (string * pyval)) (name : string) (cfg : pyval) (e : exn)
  (w : world) :
  forallb (fun item => service_spec (snd item)) pre = true ->
  service_fault cfg = Some e ->
  for_each (update_service p T) (pre ++ (name, cfg) :: post) w
  = (Raise e, say w (updated_lines p (py_str T) pre)).
Proof.
  intros Hp Hf. revert w.
  induction pre as [|[n0 c0] rest IH]; intros w; cbn [app for_each]; run.
  - rewrite (update_service_fault p T name cfg e w Hf). cbn.
    now rewrite say_nothing.
  - cbn [forallb snd] in Hp. apply andb_prop in Hp as [H0 Hr].
    rewrite (update_service_spec p T n0 c0 w H0).
    unfold updated_lines. cbn [filter map fst snd].
    destruct (matches p c0); rewrite (IH Hr); cbn [map].
    + now rewrite say_say.
    + reflexivity.
Qed.

Lemma service_spec_retag (tag : string) (cfg : pyval) :
  service_spec cfg = true -> service_spec (retag tag cfg) = true.
Proof.
  unfold service_spec, retag.
  destruct cfg as [| | | |?|c]; try discriminate.
  destruct (dict_get "image" c) as [[| | |image|?|?]|] eqn:G; try discriminate.
  - intros _. now rewrite dict_get_set_same.
  - intros _. now rewrite G.
Qed.

Lemma forallb_service_spec_retag (p tag : string) (items : list (string * pyval)) :
  forallb (fun item => service_spec (snd item)) items = true ->
  forallb (fun item => service_spec (snd item)) (map (retag_item p tag) items) = true.
Proof.
  induction items as [|[n c] rest IH]; cbn [map forallb]; [reflexivity|].
  intros [H0 Hr]%andb_prop. rewrite (IH Hr), andb_true_r.
  unfold retag_item. cbn [fst snd].
  destruct (matches p c); [now apply service_spec_retag|exact H0].
Qed.

Lemma map_fst_retag_item (p tag : string) (items : list (string * pyval)) :
  map fst (map (retag_item p tag) items) = map fst items.
Proof.
  induction items as [|[n c] rest IH]; cbn [map]; [reflexivity|].
  now rewrite IH.
Qed.

(** The retagged document of a composition document is one, with the same
    service names. *)
Lemma composition_retag_document (p tag : string) (D : pyval) :
  composition D = true ->
  composition (retag_document p tag D) = true
  /\ map fst (services (retag_document p tag D)) = map fst (services D).
Proof.
  unfold composition, retag_document, services, store_services.
  destruct D as [| | | |?|d]; try discriminate.
  destruct (dict_get "services" d) as [[| | | |?|s]|] eqn:G; try discriminate.
  - intros H. rewrite dict_get_set_same. split.
    + now apply forallb_service_spec_retag.
    + apply map_fst_retag_item.
  - intros _. now rewrite G.
Qed.

End RewriterEdgeFacts.

Module RewriterEdges.
Import Python IO Doc Cover Facts Shared RewriterFacts RewriterEdgeFacts.

(** X12.  The rewriter keeps of an image reference only the text before its
    FIRST colon: for a matching service whose reference is [host:rest], with
    no colon in [host], the new reference is [host], a colon and the tag,
    whatever [rest] is (a registry port and all that follows it are
    dropped). *)
Theorem update_image_tags_cuts_at_the_first_colon
  (D : pyval) (r : option string) (p : string) (T : pyval) (w : world)
  (i : nat) (name : string) (c : list (string * pyval)) (host rest : string) :
  composition D = true -> present r = true -> present (Some p) = true ->
  truthy T = true ->
  nth_error (services D) i = Some (name, PDict c) ->
  dict_get "image" c = Some (PStr (host ++ ":" ++ rest)) ->
  contains (lower p) (lower (host ++ ":" ++ rest)) = true ->
  has_colon host = false ->
  exists D' w',
    Deploy.update_image_tags D r (Some p) T w = (Ret D', w')
    /\ nth_error (services D') i
       = Some (name, PDict (dict_set "image" (PStr (host ++ ":" ++ py_str T)) c)).
Proof.
  intros HD Hr Hp HT Hi Hc Hm Hn.
  eexists. eexists. split; [now apply Rewriter.update_image_tags_spec|].
  rewrite Rewriter.services_store by exact HD.
  assert (exists s, entry "services" D = Some s) as [s Hs].
  { unfold services in Hi. unfold entry.
    destruct D as [| | | |?|d]; try (destruct i; discriminate).
    destruct (dict_get "services" d); [eauto | destruct i; discriminate]. }
  rewrite Hs. rewrite (Rewriter.nth_error_retag_item _ _ _ _ _ _ Hi).
  unfold matches, image_of, retag. rewrite Hc, Hm.
  cbn [append]. now rewrite (split_colon_first_append host rest Hn).
Qed.

Lemma update_image_tags_cuts_at_the_first_colon_witness :
  exists D' w',
    Deploy.update_image_tags (Examples.doc_of "localhost:5000/myorg/app:old")
      (Some "localhost:5000") (Some "myorg/app") (PStr "v2")
      (Examples.world_with None [] Examples.accepted)
    = (Ret D', w')
    /\ nth_error (services D') 0
       = Some ("web",
               PDict [("image", PStr "localhost:v2"); ("ports", PList [PStr "80:80"])]).
Proof.
  apply (update_image_tags_cuts_at_the_first_colon
           (Examples.doc_of "localhost:5000/myorg/app:old") (Some "localhost:5000")
           "myorg/app" (PStr "v2") (Examples.world_with None [] Examples.accepted)
           0 "web"
           [("image", PStr "localhost:5000/myorg/app:old");
            ("ports", PList [PStr "80:80"])]
           "localhost" "5000/myorg/app:old");
    reflexivity.
Defined.

(** X13.  With the three control inputs given, the rewriter raises on the
    first service it cannot handle (a configuration that is no mapping and
    is not skipped by the membership test, or an image reference that is no
    string): the services before it have been rewritten and reported, the
    ones after it are not looked at, and no document is returned. *)
Theorem update_image_tags_raises_on_a_malformed_service
  (D : pyval) (r : option string) (p : string) (T : pyval) (w : world)
  (pre post : list (string * pyval)) (name : string) (cfg : pyval) (e : exn) :
  present r = true -> present (Some p) = true -> truthy T = true ->
  entry "services" D = Some (PDict (pre ++ (name, cfg) :: post)) ->
  forallb (fun item => service_spec (snd item)) pre = true ->
  service_fault cfg = Some e ->
  Deploy.update_image_tags D r (Some p) T w
  = (Raise e, say w (updated_lines p (py_str T) pre)).
Proof.
  intros Hr Hp HT He Hpre Hf.
  unfold Deploy.update_image_tags, update_image_tags. rewrite Hr, Hp, HT.
  cbn [negb orb]. unfold entry in He.
  destruct D as [| | | |?|d]; try discriminate.
  cbn [py_get]. run. rewrite He. cbn [py_items]. run.
  now rewrite (for_each_update_service_fault p T pre post name cfg e w Hpre Hf).
Qed.

Lemma update_image_tags_raises_on_a_malformed_service_witness :
  Deploy.update_image_tags
    (PDict [("services",
             PDict [("web", PDict [("image", PStr "registry.example.com/myorg/app:old")]);
                    ("db", PNone);
                    ("cache", PDict [("image", PStr "registry.example.com/myorg/app:old")])])])
    (Some "registry.example.com") (Some "myorg/app") (PStr "v2")
    (Examples.world_with None [] Examples.accepted)
  = (Raise TypeError,
     say (Examples.world_with None [] Examples.accepted)
         (updated_lines "myorg/app" "v2"
            [("web", PDict [("image", PStr "registry.example.com/myorg/app:old")])])).
Proof.
  apply (update_image_tags_raises_on_a_malformed_service
           (PDict [("services",
                    PDict [("web", PDict [("image", PStr "registry.example.com/myorg/app:old")]);
                           ("db", PNone);
                           ("cache", PDict [("image", PStr "registry.example.com/myorg/app:old")])])])
           (Some "registry.example.com") "myorg/app" (PStr "v2")
           (Examples.world_with None [] Examples.accepted)
           [("web", PDict [("image", PStr "registry.example.com/myorg/app:old")])]
           [("cache", PDict [("image", PStr "registry.example.com/myorg/app:old")])]
           "db" PNone TypeError);
    reflexivity.
Defined.

(** X14.  With the three control inputs given, the rewriter raises
    [AttributeError], printing nothing, on a document that is no mapping
    (an empty compose file reads as [None]) or whose ['services'] entry is
    no mapping; a deploy with valid arguments then ends on that exception,
    before any call, and so does a rollback. *)
Theorem update_image_tags_raises_on_a_document_it_cannot_walk :
  (forall (D : pyval) (r p : option string) (T : pyval) (w : world),
      present r = true -> present p = true -> truthy T = true ->
      document_fault D = true ->
      Deploy.update_image_tags D r p T w = (Raise AttributeError, w))
  /\ (forall (a : Deploy.args) (w : world) (D : pyval),
        valid_arguments (Deploy.portainer_url a) (Deploy.api_key a)
                        (Deploy.stack_name a) (Deploy.compose_file a) w = true ->
        compose_document w (Deploy.compose_file a) = Some D ->
        present (Deploy.image_tag a) && present (Deploy.registry_url a)
        && present (Deploy.project_path a) = true ->
        document_fault D = true ->
        Deploy.main a w = (Raise AttributeError, w))
  /\ (forall (a : Rollback.args) (w : world) (D : pyval),
        valid_arguments (Rollback.portainer_url a) (Rollback.api_key a)
                        (Rollback.stack_name a) (Rollback.compose_file a) w = true ->
        compose_document w (Rollback.compose_file a) = Some D ->
        present (Rollback.registry_url a) && present (Rollback.project_path a) = true ->
        document_fault D = true ->
        exists lines, Rollback.main a w = (Raise AttributeError, say w lines)).
Proof.
  assert (forall (D : pyval) (r p : option string) (T : pyval) (w : world),
             present r = true -> present p = true -> truthy T = true ->
             document_fault D = true ->
             Deploy.update_image_tags D r p T w = (Raise AttributeError, w)) as A.
  { intros D r p T w Hr Hp HT HD.
    unfold Deploy.update_image_tags, update_image_tags. rewrite Hr, Hp, HT.
    cbn [negb orb]. unfold document_fault in HD.
    destruct D as [| | | |?|d]; cbn [py_get]; run; try reflexivity.
    destruct (dict_get "services" d) as [[| | | |?|s]|]; try discriminate;
      reflexivity. }
  split; [exact A|]. split.
  - intros a w D V C G HD.
    unfold Deploy.main. run. unfold Deploy.validate_args.
    rewrite StartFacts.validate_args_spec, V.
    unfold Deploy.prepare, Deploy.read_compose_file. run.
    rewrite (StartFacts.read_compose_file_spec _ w
               (FlowFacts.valid_arguments_file _ _ _ _ _ V)), C.
    rewrite G.
    apply andb_prop in G as [G Gp]. apply andb_prop in G as [Gt Gr].
    now rewrite (A D (Deploy.registry_url a) (Deploy.project_path a)
                   (of_opt (Deploy.image_tag a)) w Gr Gp Gt HD).
  - intros a w D V C G HD.
    unfold Rollback.main. run. unfold Rollback.validate_args.
    rewrite StartFacts.validate_args_spec, V.
    pose proof (ResolverFacts.get_previous_tag_value a w) as Tv.
    destruct (ResolverFacts.quiet_get_previous_tag a w) as [[l1 Q1] _].
    destruct (Rollback.get_previous_tag a w) as [o1 w1]. cbn [fst snd] in Tv, Q1.
    subst o1 w1.
    unfold Rollback.read_compose_file.
    rewrite (StartFacts.read_compose_file_spec _ (say w l1)
               (FlowFacts.valid_arguments_file _ _ _ _ _ V)).
    change (compose_document (say w l1) (Rollback.compose_file a))
      with (compose_document w (Rollback.compose_file a)).
    rewrite C. apply andb_prop in G as [Gr Gp].
    exists l1.
    now rewrite (A D (Rollback.registry_url a) (Rollback.project_path a) _ (say w l1)
                   Gr Gp (FlowFacts.resolved_tag_truthy _ _ _) HD).
Qed.

Lemma update_image_tags_raises_on_a_document_it_cannot_walk_witness :
  Deploy.main Examples.deploy_args
    (mkWorld (fun path => if (path =? Examples.compose_path)%string
                          then Some (Yaml PNone) else None)
             Examples.release_branch "2024-05-01 10:00:00"
             Examples.any_url (Examples.api [] Examples.accepted) [] [])
  = (Raise AttributeError,
     mkWorld (fun path => if (path =? Examples.compose_path)%string
                          then Some (Yaml PNone) else None)
             Examples.release_branch "2024-05-01 10:00:00"
             Examples.any_url (Examples.api [] Examples.accepted) [] []).
Proof.
  apply (proj1 (proj2 update_image_tags_raises_on_a_document_it_cannot_walk)
           Examples.deploy_args
           (mkWorld (fun path => if (path =? Examples.compose_path)%string
                                 then Some (Yaml PNone) else None)
                    Examples.release_branch "2024-05-01 10:00:00"
                    Examples.any_url (Examples.api [] Examples.accepted) [] [])
           PNone);
    reflexivity.
Defined.

(** X15.  On a composition document the rewriter always returns, and what
    it returns is again a composition document with the same services, by
    name and in the same order. *)
Theorem update_image_tags_returns_a_composition
  (D : pyval) (r p : option string) (T : pyval) (w : world) :
  composition D = true ->
  exists D' lines,
    Deploy.update_image_tags D r p T w = (Ret D', say w lines)
    /\ composition D' = true
    /\ map fst (services D') = map fst (services D).
Proof.
  intros HD.
  destruct (present r) eqn:Hr; [destruct (present p) eqn:Hp; [destruct (truthy T) eqn:HT|]|].
  - destruct p as [p|]; [|discriminate].
    destruct (composition_retag_document p (py_str T) D HD) as [C N].
    eexists. eexists. split; [now apply Rewriter.update_image_tags_spec|].
    split; [exact C|exact N].
  - exists D, [Say "Warning: Missing registry URL, project path, or image tag. Skipping image tag update." []].
    unfold Deploy.update_image_tags, update_image_tags. rewrite Hr, Hp, HT.
    repeat split. exact HD.
  - exists D, [Say "Warning: Missing registry URL, project path, or image tag. Skipping image tag update." []].
    unfold Deploy.update_image_tags, update_image_tags. rewrite Hr, Hp.
    repeat split. exact HD.
  - exists D, [Say "Warning: Missing registry URL, project path, or image tag. Skipping image tag update." []].
    unfold Deploy.update_image_tags, update_image_tags. rewrite Hr.
    repeat split. exact HD.
Qed.

Lemma update_image_tags_returns_a_composition_witness :
  exists D' lines,
    Deploy.update_image_tags Examples.doc_tagged (Some "registry.example.com")
      (Some "myorg/app") (PStr "v2") (Examples.world_with None [] Examples.accepted)
    = (Ret D', say (Examples.world_with None [] Examples.accepted) lines)
    /\ composition D' = true
    /\ map fst (services D') = map fst (services Examples.doc_tagged).
Proof.
  apply (update_image_tags_returns_a_composition Examples.doc_tagged
           (Some "registry.example.com") (Some "myorg/app") (PStr "v2")
           (Examples.world_with None [] Examples.accepted)).
  reflexivity.
Defined.

End RewriterEdges.

(** ** The calls to the API *)

Module CallFacts.
Import Python IO Doc Cover Facts Shared Frame ReconcilerFacts WriteFacts.

(** The loop of [get_stack_id] stops on an entry that is no mapping. *)
Lemma find_stack_malformed (pre post : list pyval) (bad : pyval) (env_id : Z)
  (name : string) :
  forallb stack_object pre = true ->
  find (names_stack name env_id) pre = None ->
  mapping bad = false ->
  find_stack (pre ++ bad :: post) env_id (Some name) = Raise AttributeError.
Proof.
  intros Hs Hf Hb. induction pre as [|stack rest IH]; cbn [app find_stack].
  - destruct bad as [| | | |?|d]; try reflexivity. discriminate.
  - cbn [forallb] in Hs. apply andb_prop in Hs as [H0 Hr].
    cbn [find] in Hf. destruct (names_stack name env_id stack) eqn:N; [discriminate|].
    specialize (IH Hr Hf).
    unfold stack_object in H0. unfold names_stack in N.
    destruct stack as [| | | |?|d]; try discriminate.
    cbn [py_get]. run.
    destruct (dict_get "Name" d) as [[| | |n|?|?]|]; try discriminate;
      destruct (dict_get "EndpointId" d) as [[| |e| |?|?]|]; try discriminate;
      cbn [eq_str eq_int]; try exact IH;
      destruct (n =? name)%string; cbn [andb eq_int] in *; try exact IH.
    now rewrite N.
Qed.

End CallFacts.

Module Calls.
Import Python IO Doc Cover Facts Shared Frame ReconcilerFacts WriteFacts ResolverFacts
  StartFacts FlowFacts DeployFlowFacts CallFacts.

(** X16.  When the listing holds an entry that is no mapping, and no entry
    before it has the name and environment id asked for, [get_stack_id]
    prints the error and returns [None], whatever stacks are listed after
    that entry. *)
Theorem get_stack_id_gives_up_at_a_malformed_entry
  (url key : option string) (env_id : Z) (name : string) (w : world)
  (body : pyval) (pre post : list pyval) (bad : pyval) :
  listing w url key = Some body ->
  py_iter body = Ret (pre ++ bad :: post) ->
  forallb stack_object pre = true ->
  find (names_stack name env_id) pre = None ->
  mapping bad = false ->
  Deploy.get_stack_id url key env_id (Some name) w
  = (Ret PNone,
     say (called w (list_stacks url key))
         [Say_exn "Error getting stack ID: {e}" AttributeError]).
Proof.
  intros L I Hs Hf Hb.
  pose proof (listing_joinable w url key body L) as J.
  unfold Deploy.get_stack_id. rewrite (get_stack_id_joined _ _ _ _ _ J).
  unfold try_except. run. rewrite (send_server (list_stacks url key) w J).
  unfold listing in L.
  destruct (server w (calls w) (list_stacks url key)) as [resp|att|];
    [|discriminate|discriminate].
  unfold raise_for_status. destruct (ok resp); [|discriminate]. run.
  unfold response_json. rewrite L. run. rewrite I.
  now rewrite (find_stack_malformed pre post bad env_id name Hs Hf Hb).
Qed.

Lemma get_stack_id_gives_up_at_a_malformed_entry_witness :
  Deploy.get_stack_id Examples.portainer (Some "key") 1 (Some "qa-stack")
    (Examples.world_with None
       [Examples.stack "other" 1 3; PStr "unexpected"; Examples.stack "qa-stack" 1 7]
       Examples.accepted)
  = (Ret PNone,
     say (called (Examples.world_with None
                    [Examples.stack "other" 1 3; PStr "unexpected";
                     Examples.stack "qa-stack" 1 7]
                    Examples.accepted)
                 (list_stacks Examples.portainer (Some "key")))
         [Say_exn "Error getting stack ID: {e}" AttributeError]).
Proof.
  apply (get_stack_id_gives_up_at_a_malformed_entry Examples.portainer (Some "key") 1
           "qa-stack"
           (Examples.world_with None
              [Examples.stack "other" 1 3; PStr "unexpected";
               Examples.stack "qa-stack" 1 7]
              Examples.accepted)
           (PList [Examples.stack "other" 1 3; PStr "unexpected";
                   Examples.stack "qa-stack" 1 7])
           [Examples.stack "other" 1 3] [Examples.stack "qa-stack" 1 7]
           (PStr "unexpected"));
    reflexivity.
Defined.

(** X17.  With a URL that [urljoin] accepts, [create_stack] issues its one
    call, writes no file and never raises: it returns or exits with status
    1.  It returns exactly when the call is answered without an error
    status and with a JSON object, and then it returns the [Id] of that
    object, [None] when it has none. *)
Theorem create_stack_returns_the_identifier_or_exits
  (url key : option string) (env_id : Z) (name : option string)
  (content : yaml_text) (prune pull : bool) (w : world) :
  url_refused w url = false ->
  calls (snd (Deploy.create_stack url key env_id name content prune pull w))
  = calls w ++ [create_call url key env_id name content prune pull]
  /\ fs (snd (Deploy.create_stack url key env_id name content prune pull w)) = fs w
  /\ ((exists v, fst (Deploy.create_stack url key env_id name content prune pull w)
                 = Ret v)
      \/ fst (Deploy.create_stack url key env_id name content prune pull w) = Exit 1)
  /\ (forall v,
        fst (Deploy.create_stack url key env_id name content prune pull w) = Ret v
        <-> exists resp d,
              server w (calls w) (create_call url key env_id name content prune pull)
              = Answer resp
              /\ ok resp = true
              /\ json_body resp = Some (PDict d)
              /\ v = stack_id_of (PDict d)).
Proof.
  intros U. rewrite create_stack_spec. cbv zeta.
  destruct (server w (calls w) _) as [resp|att|] eqn:S;
    [destruct (ok resp) eqn:O; [destruct (json_body resp) as [[| | | |?|d]|] eqn:J|]
    | |apply server_not_sent in S; cbn in S; congruence];
    cbn [fst snd calls fs say called];
    (split; [reflexivity|]); (split; [reflexivity|]);
    (split; [try (now right); left; eexists; reflexivity|]);
    intros v; split;
    try discriminate;
    try (intros (r & d0 & [= <-] & O' & J' & _); congruence);
    try solve [intros (r & d0 & [=] & _)].
  - intros [= <-]. exists resp, d. now repeat split.
  - intros (r & d0 & [= <-] & _ & J' & ->). rewrite J in J'. now injection J' as <-.
Qed.

Lemma create_stack_returns_the_identifier_or_exits_witness :
  fst (Deploy.create_stack Examples.portainer (Some "key") 1 (Some "qa-stack")
         (yaml_dump Examples.doc_tagged) false true
         (Examples.world_with None []
            (mkResponse 201 "{'Id': 12}" (Some (PDict [("Id", PInt 12)])))))
  = Ret (PInt 12).
Proof.
  apply (proj2 (proj2 (proj2 (create_stack_returns_the_identifier_or_exits
                                Examples.portainer (Some "key") 1 (Some "qa-stack")
                                (yaml_dump Examples.doc_tagged) false true
                                (Examples.world_with None []
                                   (mkResponse 201 "{'Id': 12}"
                                      (Some (PDict [("Id", PInt 12)]))))
                                eq_refl)))).
  exists (mkResponse 201 "{'Id': 12}" (Some (PDict [("Id", PInt 12)]))),
         [("Id", PInt 12)].
  repeat split.
Defined.

(** X18.  With a URL that [urljoin] accepts, [update_stack] issues its one
    call, writes no file and never raises; it returns [True], and nothing
    else, exactly when the call is answered without an error status, and
    exits with status 1 otherwise. *)
Theorem update_stack_returns_true_or_exits
  (url key : option string) (id : pyval) (env_id : Z) (content : yaml_text)
  (prune pull : bool) (w : world) :
  url_refused w url = false ->
  calls (snd (Deploy.update_stack url key id env_id content prune pull w))
  = calls w ++ [update_call url key id content prune pull]
  /\ fs (snd (Deploy.update_stack url key id env_id content prune pull w)) = fs w
  /\ (fst (Deploy.update_stack url key id env_id content prune pull w) = Ret true
      \/ fst (Deploy.update_stack url key id env_id content prune pull w) = Exit 1)
  /\ (fst (Deploy.update_stack url key id env_id content prune pull w) = Ret true
      <-> exists resp,
            server w (calls w) (update_call url key id content prune pull) = Answer resp
            /\ ok resp = true).
Proof.
  intros U. unfold Deploy.update_stack. rewrite update_stack_spec. cbv zeta.
  destruct (server w (calls w) _) as [resp|att|] eqn:S;
    [destruct (ok resp) eqn:O| |apply server_not_sent in S; cbn in S; congruence];
    cbn [fst snd calls fs say called];
    (split; [reflexivity|]); (split; [reflexivity|]);
    (split; [try (now right); now left|]); split;
    try discriminate;
    try (intros (r & [= <-] & O'); congruence);
    try solve [intros (r & [=] & _)].
  intros _. now exists resp.
Qed.

Lemma update_stack_returns_true_or_exits_witness :
  fst (Deploy.update_stack Examples.portainer (Some "key") (PInt 7) 1
         (yaml_dump Examples.doc_tagged) false true
         (Examples.world_with None Examples.listed Examples.accepted))
  = Ret true.
Proof.
  apply (proj2 (proj2 (proj2 (update_stack_returns_true_or_exits
                                Examples.portainer (Some "key") (PInt 7) 1
                                (yaml_dump Examples.doc_tagged) false true
                                (Examples.world_with None Examples.listed
                                                     Examples.accepted)
                                eq_refl)))).
  exists Examples.accepted. split; reflexivity.
Defined.

(** X19.  When the create call is answered without an error status but not
    with a JSON object, [create_stack] has already printed that the stack
    was created when it fails on the body: it then prints the error and
    exits with status 1. *)
Theorem create_stack_reports_success_before_it_reads_the_answer
  (url key : option string) (env_id : Z) (name : option string)
  (content : yaml_text) (prune pull : bool) (w : world) (resp : response) :
  server w (calls w) (create_call url key env_id name content prune pull)
  = Answer resp ->
  ok resp = true ->
  (forall d, json_body resp <> Some (PDict d)) ->
  exists e,
    Deploy.create_stack url key env_id name content prune pull w
    = (Exit 1,
       say (called w (create_call url key env_id name content prune pull))
           [Say "Stack {stack_name} created successfully!" [of_opt name];
            Say_exn "Error creating stack: {e}" e]).
Proof.
  intros S O J. rewrite create_stack_spec. cbv zeta. rewrite S, O.
  destruct (json_body resp) as [[| | | |?|d]|]; try (eexists; reflexivity).
  now destruct (J d).
Qed.

Lemma create_stack_reports_success_before_it_reads_the_answer_witness :
  exists e,
    Deploy.create_stack Examples.portainer (Some "key") 1 (Some "qa-stack")
      (yaml_dump Examples.doc_tagged) false true
      (Examples.world_with None [] Examples.not_modified)
    = (Exit 1,
       say (called (Examples.world_with None [] Examples.not_modified)
              (create_call Examples.portainer (Some "key") 1 (Some "qa-stack")
                 (yaml_dump Examples.doc_tagged) false true))
           [Say "Stack {stack_name} created successfully!" [of_opt (Some "qa-stack")];
            Say_exn "Error creating stack: {e}" e]).
Proof.
  apply (create_stack_reports_success_before_it_reads_the_answer
           Examples.portainer (Some "key") 1 (Some "qa-stack")
           (yaml_dump Examples.doc_tagged) false true
           (Examples.world_with None [] Examples.not_modified) Examples.not_modified).
  - reflexivity.
  - reflexivity.
  - intros d. discriminate.
Defined.

(** X20.  When a create or an update call fails before any answer (a
    transport error), the function prints the error, then the body of the
    response the exception carries when it carries one that is no error,
    and exits with status 1. *)
Theorem transport_failure_is_fatal_for_both_writes :
  (forall url key id env_id content prune pull w attached,
      server w (calls w) (update_call url key id content prune pull)
      = Transport_error attached ->
      Deploy.update_stack url key id env_id content prune pull w
      = (Exit 1,
         say (called w (update_call url key id content prune pull))
             (Say_exn "Error updating stack: {e}" (RequestException attached)
              :: attached_lines attached)))
  /\ (forall url key env_id name content prune pull w attached,
        server w (calls w) (create_call url key env_id name content prune pull)
        = Transport_error attached ->
        Deploy.create_stack url key env_id name content prune pull w
        = (Exit 1,
           say (called w (create_call url key env_id name content prune pull))
               (Say_exn "Error creating stack: {e}" (RequestException attached)
                :: attached_lines attached))).
Proof.
  split.
  - intros url key id env_id content prune pull w attached S.
    unfold Deploy.update_stack. rewrite update_stack_spec. cbv zeta. now rewrite S.
  - intros url key env_id name content prune pull w attached S.
    rewrite create_stack_spec. cbv zeta. now rewrite S.
Qed.

Lemma transport_failure_is_fatal_for_both_writes_witness :
  Deploy.update_stack Examples.portainer (Some "key") (PInt 7) 1
    (yaml_dump Examples.doc_tagged) false true
    (mkWorld (fun _ => None) (fun _ => None) "2024-05-01 10:00:00"
             Examples.any_url (fun _ _ => Failed (Some Examples.not_modified)) [] [])
  = (Exit 1,
     say (called (mkWorld (fun _ => None) (fun _ => None) "2024-05-01 10:00:00"
                    Examples.any_url (fun _ _ => Failed (Some Examples.not_modified)) [] [])
            (update_call Examples.portainer (Some "key") (PInt 7)
               (yaml_dump Examples.doc_tagged) false true))
         [Say_exn "Error updating stack: {e}"
                  (RequestException (Some Examples.not_modified));
          Say "Response: {e.response.text}" [PStr (text Examples.not_modified)]]).
Proof.
  apply (proj1 transport_failure_is_fatal_for_both_writes
           Examples.portainer (Some "key") (PInt 7) 1 (yaml_dump Examples.doc_tagged)
           false true
           (mkWorld (fun _ => None) (fun _ => None) "2024-05-01 10:00:00"
              Examples.any_url (fun _ _ => Failed (Some Examples.not_modified)) [] [])
           (Some Examples.not_modified)).
  reflexivity.
Defined.

(** X21.  [get_previous_tag] issues no call and writes no file.  When it
    falls back to the registry query it prints that it is querying the
    registry and the fallback tag it uses, and queries nothing. *)
Theorem get_previous_tag_queries_no_registry (a : Rollback.args) (w : world) :
  calls (snd (Rollback.get_previous_tag a w)) = calls w
  /\ fs (snd (Rollback.get_previous_tag a w)) = fs w
  /\ (present (Rollback.previous_tag a) = false ->
      artifact_tag w (Rollback.artifact_path a) = None ->
      exists lines,
        stdout (snd (Rollback.get_previous_tag a w))
        = stdout w ++ lines
          ++ [Say "Querying registry for previous tags..." [];
              Say "Using fallback tag: {fallback_tag}" [PStr (branch w ++ "-latest")]]).
Proof.
  destruct (quiet_get_previous_tag a w) as [[l Q] _].
  split; [now rewrite Q|]. split; [now rewrite Q|].
  intros P A. unfold Rollback.get_previous_tag. rewrite P. run.
  pose proof (read_artifact_tag_value a w) as V.
  destruct (quiet_read_artifact_tag a w) as [[l1 Q1] _].
  destruct (Rollback.read_artifact_tag a w) as [o w1]. cbn [fst snd] in V, Q1.
  subst o w1. rewrite A.
  unfold Rollback.query_previous_tag_from_registry, getenv, branch. run.
  cbn [truthy environ say]. rewrite append_latest_nonempty.
  cbn [negb snd stdout]. exists l1. unfold say. cbn [stdout].
  now rewrite <- !app_assoc.
Qed.

Lemma get_previous_tag_queries_no_registry_witness :
  exists lines,
    stdout (snd (Rollback.get_previous_tag (Examples.rollback_args None)
                   (Examples.world_with None [] Examples.accepted)))
    = stdout (Examples.world_with None [] Examples.accepted) ++ lines
      ++ [Say "Querying registry for previous tags..." [];
          Say "Using fallback tag: {fallback_tag}" [PStr "release/2.0-latest"]].
Proof.
  apply (proj2 (proj2 (get_previous_tag_queries_no_registry
                         (Examples.rollback_args None)
                         (Examples.world_with None [] Examples.accepted))));
    reflexivity.
Defined.

(** X22.  On a base URL that [urljoin] refuses, [get_stack_id],
    [create_stack] and [update_stack] raise [ValueError] from the
    [urljoin] call that stands before their [try]: no call is issued and
    nothing is printed.  A deploy or a rollback that comes to the lookup
    with such a URL ends there on the uncaught exception, with no call
    issued and no file written. *)
Theorem refused_url_raises_before_any_call :
  (forall url key env_id name w,
      url_refused w url = true ->
      Deploy.get_stack_id url key env_id name w = (Raise ValueError, w))
  /\ (forall url key env_id name content prune pull w,
        url_refused w url = true ->
        Deploy.create_stack url key env_id name content prune pull w
        = (Raise ValueError, w))
  /\ (forall url key id env_id content prune pull w,
        url_refused w url = true ->
        Deploy.update_stack url key id env_id content prune pull w
        = (Raise ValueError, w))
  /\ (forall (a : Deploy.args) (w : world) (D : pyval),
        valid_arguments (Deploy.portainer_url a) (Deploy.api_key a)
                        (Deploy.stack_name a) (Deploy.compose_file a) w = true ->
        url_refused w (Deploy.portainer_url a) = true ->
        compose_document w (Deploy.compose_file a) = Some D ->
        negb (present (Deploy.image_tag a) && present (Deploy.registry_url a)
              && present (Deploy.project_path a))
        || composition D = true ->
        exists lines, Deploy.main a w = (Raise ValueError, say w lines))
  /\ (forall (a : Rollback.args) (w : world) (D : pyval),
        valid_arguments (Rollback.portainer_url a) (Rollback.api_key a)
                        (Rollback.stack_name a) (Rollback.compose_file a) w = true ->
        url_refused w (Rollback.portainer_url a) = true ->
        compose_document w (Rollback.compose_file a) = Some D ->
        rewritable (Rollback.registry_url a) (Rollback.project_path a) D = true ->
        exists lines, Rollback.main a w = (Raise ValueError, say w lines)).
Proof.
  split; [|split; [|split; [|split]]].
  - intros url key env_id name w J. now apply get_stack_id_refused.
  - intros url key env_id name content prune pull w J.
    rewrite create_stack_spec. cbv zeta.
    now rewrite (proj2 (server_not_sent w (calls w)
                          (create_call url key env_id name content prune pull)) J).
  - intros url key id env_id content prune pull w J.
    unfold Deploy.update_stack. rewrite update_stack_spec. cbv zeta.
    now rewrite (proj2 (server_not_sent w (calls w)
                          (update_call url key id content prune pull)) J).
  - intros a w D V J C R.
    destruct (deploy_main_steps a w D V C R) as [l0 ->]. cbn [bind Monad_M].
    rewrite (reconcile_refused a _ (say w l0) J). now exists l0.
  - intros a w D V J C R. now apply (rollback_main_refused a w D).
Qed.

Lemma refused_url_raises_before_any_call_witness :
  exists lines,
    Deploy.main
      (Deploy.mkArgs (Some "http://[bad") (Some "key") 1 (Some "qa-stack")
                     (Some Examples.compose_path) (Some "v2")
                     (Some "registry.example.com") (Some "myorg/app") false true)
      (mkWorld (Examples.files_with None) Examples.release_branch
               "2024-05-01 10:00:00" (fun base => (base =? "http://[bad")%string)
               (Examples.api Examples.listed Examples.accepted) [] [])
    = (Raise ValueError,
       say (mkWorld (Examples.files_with None) Examples.release_branch
                    "2024-05-01 10:00:00" (fun base => (base =? "http://[bad")%string)
                    (Examples.api Examples.listed Examples.accepted) [] [])
           lines).
Proof.
  apply (proj1 (proj2 (proj2 (proj2 refused_url_raises_before_any_call)))
           (Deploy.mkArgs (Some "http://[bad") (Some "key") 1 (Some "qa-stack")
                          (Some Examples.compose_path) (Some "v2")
                          (Some "registry.example.com") (Some "myorg/app") false true)
           (mkWorld (Examples.files_with None) Examples.release_branch
                    "2024-05-01 10:00:00" (fun base => (base =? "http://[bad")%string)
                    (Examples.api Examples.listed Examples.accepted) [] [])
           Examples.doc_tagged);
    reflexivity.
Defined.

End Calls.
